(** * Merging pan-cancer somatic mutations with labels and clinical data

    A shallow embedding of the notebook
    [merge_pancancer_somatic_mutations/get_pancancer_clinical_and_mutation_data.ipynb].

    The notebook is a straight line of pandas calls.  Its cells are embedded
    one by one in [Module Notebook]; the pandas and os/urllib primitives they
    call are embedded in [Module Pd] and [Module Os] after their documented
    behaviour.  A file on disk is represented by its tokenised content: a
    header line and the data lines, already split on the separator and with
    the cells typed, every data line holding one field per header name.
    Decompression and tokenising happen below this model, and a file whose
    lines differ from the header in their number of fields is outside it. *)

From Stdlib Require Import ZArith Lia Ascii String.
From stdpp Require Import base option list strings pretty gmap.

Local Open Scope string_scope.

(** ** Values and exceptions *)

(** A scalar held in a data frame: a missing value (the float NaN), a Python
    [str] (a [string] stands for its sequence of characters), or an
    integer. *)
Inductive cell : Type :=
  | NaN
  | Str (s : string)
  | Int (z : Z).

#[global] Instance cell_eq_dec : EqDecision cell.
Proof. solve_decision. Defined.

#[global] Instance cell_inhabited : Inhabited cell := populate NaN.

(** The Python exceptions the notebook can run into. *)
Inductive exn : Type :=
  | FileNotFoundError
  | IsADirectoryError
  | URLError
  | ValueError
  | KeyError
  | TypeError
  | AttributeError.

#[global] Instance exn_eq_dec : EqDecision exn.
Proof. solve_decision. Defined.

(** A computation that returns or raises. *)
Inductive result (A : Type) : Type :=
  | Ok (a : A)
  | Raise (e : exn).
Arguments Ok {A} a.
Arguments Raise {A} e.

#[global] Instance result_ret : MRet result := @Ok.
#[global] Instance result_bind : MBind result := λ A B f m,
  match m with
  | Ok a => f a
  | Raise e => Raise e
  end.
#[global] Instance result_fmap : FMap result := λ A B f m,
  match m with
  | Ok a => Ok (f a)
  | Raise e => Raise e
  end.

Definition raises {A} (m : result A) : Prop :=
  match m with
  | Ok _ => False
  | Raise _ => True
  end.

(** ** The pandas primitives the notebook calls *)

Module Pd.

(** Has every data line one field per header name? *)
Definition grid (hdr : list string) (recs : list (list cell)) : bool :=
  forallb (λ r, Nat.eqb (length r) (length hdr)) recs.

(** The tokenised content of a delimited text file: the header line and the
    data lines, each of them with as many fields as the header.  (On a line
    with more fields pandas takes the surplus leading ones as an index, and
    it pads a shorter one; such files are not represented.) *)
Record table_file : Type := TableFile {
  header : list string;
  records : list (list cell);
  records_grid : grid header records = true
}.

(** A data frame with the default [RangeIndex]: [nrows] is [len(df)], and
    [data] lists the columns, in order, each with its values.  The dtype of
    a column is read off its values, as [read_csv] infers it: [object] when
    it holds a [str], numeric otherwise. *)
Record DataFrame : Type := Frame {
  nrows : nat;
  data : list (string * list cell)
}.

Definition columns (df : DataFrame) : list string := (data df).*1.

(** Every column holds one value per index entry. *)
Definition wf (df : DataFrame) : Prop :=
  Forall (λ c, length c.2 = nrows df) (data df).

(** [df[c]]: the first column of that name, [KeyError] when there is none. *)
Fixpoint lookup_column (c : string) (d : list (string * list cell))
  : option (list cell) :=
  match d with
  | [] => None
  | (n, v) :: d' => if decide (n = c) then Some v else lookup_column c d'
  end.

Definition getitem (df : DataFrame) (c : string) : result (list cell) :=
  match lookup_column c (data df) with
  | Some v => Ok v
  | None => Raise KeyError
  end.

(** The value of a series at a position ([NaN] past its end). *)
Definition at_pos (v : list cell) (i : nat) : cell := default NaN (v !! i).

(** Row [i] of a frame, column by column. *)
Definition get_row (df : DataFrame) (i : nat) : list cell :=
  map (λ c, at_pos c.2 i) (data df).

(** The values of field [j] over the data lines of a file. *)
Definition field_column (j : nat) (recs : list (list cell)) : list cell :=
  map (λ r, at_pos r j) recs.

(** Header names as the parser hands them on: the k-th repeat of a name
    [X] (k ≥ 1) is renamed [X.k].  [seen] are the names to the left. *)
Fixpoint mangle_dupe_cols (seen hdr : list string) : list string :=
  match hdr with
  | [] => []
  | h :: hdr' =>
      let k := length (filter (λ x, x = h) seen) in
      (if decide (k = 0) then h else h +:+ "." +:+ pretty k)
        :: mangle_dupe_cols (h :: seen) hdr'
  end.

(** Has the string a dot in it? *)
Fixpoint has_dot (s : string) : bool :=
  match s with
  | EmptyString => false
  | String a s' => bool_decide (a = "."%char) || has_dot s'
  end.

(** The columns named [names], numbered from [j], that [keep] selects. *)
Fixpoint select_columns (keep : string → bool) (j : nat) (names : list string)
    (recs : list (list cell)) : list (string * list cell) :=
  match names with
  | [] => []
  | n :: names' =>
      let rest := select_columns keep (S j) names' recs in
      if keep n then (n, field_column j recs) :: rest else rest
  end.

(** [pd.read_csv(f, sep='\t', usecols=...)] on the tokenised file: the first
    line is the header, and field [j] of a data line stands under the
    [j]-th name (every line has one field per name, so no field is taken as
    an index).  With [usecols] a name that is not a column of the file is a
    [ValueError], and the frame keeps the selected columns in file order. *)
Definition read_csv (f : table_file) (usecols : option (list string))
  : result DataFrame :=
  let names := mangle_dupe_cols [] (header f) in
  match usecols with
  | None =>
      Ok (Frame (length (records f))
                (select_columns (λ _, true) 0 names (records f)))
  | Some cols =>
      if forallb (λ c, bool_decide (c ∈ names)) cols
      then Ok (Frame (length (records f))
                     (select_columns (λ n, bool_decide (n ∈ cols)) 0 names
                                     (records f)))
      else Raise ValueError
  end.

(** [np.arange(n)] *)
Definition arange (n : nat) : list cell := map (λ i, Int (Z.of_nat i)) (seq 0 n).

(** Replace the values of column [c] where it stands. *)
Fixpoint replace_column (c : string) (vals : list cell)
    (d : list (string * list cell)) : list (string * list cell) :=
  match d with
  | [] => []
  | (n, v) :: d' =>
      if decide (n = c) then (n, vals) :: d' else (n, v) :: replace_column c vals d'
  end.

(** [df[c] = vals]: the values must match the index in length; an existing
    column is overwritten in place, a new one is appended. *)
Definition setitem (df : DataFrame) (c : string) (vals : list cell)
  : result DataFrame :=
  if decide (length vals = nrows df)
  then Ok (Frame (nrows df)
                 (if bool_decide (c ∈ columns df)
                  then replace_column c vals (data df)
                  else data df ++ [(c, vals)]))
  else Raise ValueError.

(** [df.columns = names] *)
Definition set_columns (df : DataFrame) (names : list string) : result DataFrame :=
  if decide (length names = length (data df))
  then Ok (Frame (nrows df) (zip names (data df).*2))
  else Raise ValueError.

(** [df.drop([c], axis=1)] *)
Definition drop (df : DataFrame) (c : string) : result DataFrame :=
  if bool_decide (c ∈ columns df)
  then Ok (Frame (nrows df) (filter (λ p, p.1 ≠ c) (data df)))
  else Raise KeyError.

(** [series.apply(f)]: [f] on every value in turn; the first exception
    propagates. *)
Definition apply (f : cell → result cell) (v : list cell) : result (list cell) :=
  mapM f v.

(** The right-hand positions whose key equals [k], counted from [o]. *)
Fixpoint positions_from (o : nat) (k : cell) (rk : list cell) : list nat :=
  match rk with
  | [] => []
  | x :: rk' =>
      if decide (x = k) then o :: positions_from (S o) k rk'
      else positions_from (S o) k rk'
  end.

(** The inner join of two key columns as pairs of positions, in the order
    of the left keys: left position [i] is paired with every right position
    holding an equal key.  A missing key equals a missing key, as in pandas.
    (pandas releases differ in how they order the pairs of a key that
    repeats on the left; the properties below are stated per pair and per
    output position and do not rest on that order.) *)
Fixpoint join_from (o : nat) (lk rk : list cell) : list (nat * nat) :=
  match lk with
  | [] => []
  | k :: lk' => map (pair o) (positions_from 0 k rk) ++ join_from (S o) lk' rk
  end.

Definition inner_join_indexers (lk rk : list cell) : list (nat * nat) :=
  join_from 0 lk rk.

(** [values.take(indexer)] *)
Definition take_rows (idx : list nat) (v : list cell) : list cell :=
  map (at_pos v) idx.

(** Is the dtype of a column [object], that is, does it hold a [str]? *)
Definition is_object (v : list cell) : bool :=
  existsb (λ x, match x with Str _ => true | _ => false end) v.

(** Does a column hold an integer? *)
Definition has_int (v : list cell) : bool :=
  existsb (λ x, match x with Int _ => true | _ => false end) v.

(** The check of the key dtypes before a merge: when one of two non-empty
    key columns is [object] and the other numeric, the merge is refused
    if the [object] one is string-like (strings, with or without missing
    values) and let through if it also holds integers. *)
Definition mergeable (lk rk : list cell) : bool :=
  match lk, rk with
  | [], _ | _, [] => true
  | _, _ =>
      if is_object lk && negb (is_object rk) then has_int lk
      else if is_object rk && negb (is_object lk) then has_int rk
      else true
  end.

(** [left.merge(right, left_on=key, right_on=key)]: the default inner join.
    Key columns of incompatible dtypes are a [ValueError].  The key column
    appears once; any other name the two frames share gets the suffixes
    [_x] and [_y]. *)
Definition merge (left right : DataFrame) (key : string) : result DataFrame :=
  lk ← getitem left key;
  rk ← getitem right key;
  if mergeable lk rk then
    let idx := inner_join_indexers lk rk in
    let lname c :=
      if bool_decide (c ≠ key ∧ c ∈ columns right) then c +:+ "_x" else c in
    let rname c :=
      if bool_decide (c ∈ columns left) then c +:+ "_y" else c in
    Ok (Frame (length idx)
          (map (λ p, (lname p.1, take_rows idx.*1 p.2)) (data left) ++
           map (λ p, (rname p.1, take_rows idx.*2 p.2))
               (filter (λ p, p.1 ≠ key) (data right))))
  else Raise ValueError.

(** The lines that [to_csv] writes have one field per header name. *)
Definition to_csv_grid (df : DataFrame) :
  grid ("" :: columns df)
       (map (λ i, Int (Z.of_nat i) :: get_row df i) (seq 0 (nrows df))) = true.
Proof.
  apply forallb_forall. intros r Hr. apply in_map_iff in Hr as (i & <- & _).
  apply Nat.eqb_eq. unfold get_row, columns. simpl.
  by rewrite !length_map.
Qed.

(** [df.to_csv(path)]: the header line with an empty name for the index,
    then one line per row led by its index label. *)
Definition to_csv (df : DataFrame) : table_file :=
  TableFile ("" :: columns df)
            (map (λ i, Int (Z.of_nat i) :: get_row df i) (seq 0 (nrows df)))
            (to_csv_grid df).

(** [df.c]: the column of that name, [AttributeError] when the frame has
    no such attribute. *)
Definition getattr (df : DataFrame) (c : string) : result (list cell) :=
  match lookup_column c (data df) with
  | Some v => Ok v
  | None => Raise AttributeError
  end.

(** [series.count()]: the number of values that are not missing. *)
Definition count (v : list cell) : nat := length (filter (λ x, x ≠ NaN) v).

(** [series.unique()]: the distinct values in order of first appearance. *)
Fixpoint unique (v : list cell) : list cell :=
  match v with
  | [] => []
  | x :: v' => x :: filter (λ y, y ≠ x) (unique v')
  end.

End Pd.

(** ** Files and the network *)

Module Os.

Inductive node : Type :=
  | File (content : Pd.table_file)
  | Dir.

(** The working directory, and the URLs retrieved so far. *)
Record world : Type := World {
  fs : gmap string node;
  retrieved : list string
}.

(** What a URL serves, [None] when the transfer fails. *)
Definition network : Type := string → option Pd.table_file.

(** A relative path names the same node with or without a leading [./]. *)
Definition normpath (p : string) : string :=
  match p with
  | String "."%char (String "/"%char rest) => rest
  | _ => p
  end.

(** [os.path.isfile(p)] *)
Definition isfile (w : world) (p : string) : bool :=
  match fs w !! normpath p with
  | Some (File _) => true
  | _ => false
  end.

(** [urllib.request.urlretrieve(url, p)]: any earlier content of [p] is
    replaced. *)
Definition urlretrieve (net : network) (url p : string) (w : world)
  : result world :=
  match net url with
  | None => Raise URLError
  | Some c =>
      match fs w !! normpath p with
      | Some Dir => Raise IsADirectoryError
      | _ => Ok (World (<[normpath p := File c]> (fs w)) (retrieved w ++ [url]))
      end
  end.

(** Opening [p] for reading. *)
Definition read_file (w : world) (p : string) : result Pd.table_file :=
  match fs w !! normpath p with
  | Some (File c) => Ok c
  | Some Dir => Raise IsADirectoryError
  | None => Raise FileNotFoundError
  end.

(** Opening [p] for writing and storing [c]. *)
Definition write_file (w : world) (p : string) (c : Pd.table_file)
  : result world :=
  match fs w !! normpath p with
  | Some Dir => Raise IsADirectoryError
  | _ => Ok (World (<[normpath p := File c]> (fs w)) (retrieved w))
  end.

End Os.

(** ** The notebook, cell by cell *)

Module Notebook.
Import Pd Os.

Definition mutations_url : string :=
  "http://api.gdc.cancer.gov/data/1c8cfe5f-e52d-41ba-94da-f15ea1337efc".
Definition clinical_url : string :=
  "http://api.gdc.cancer.gov/data/0fc78496-818b-4896-bd83-52db1f533c5c".

(** Download the mutations archive unless the file is present. *)
Definition fetch_mutations (net : network) (w : world) : result world :=
  let filename := "pancancer_mutations.maf.gz" in
  if isfile w filename then Ok w
  else urlretrieve net mutations_url "./pancancer_mutations.maf.gz" w.

(** Download the clinical table unless the file is present. *)
Definition fetch_clinical (net : network) (w : world) : result world :=
  let filename := "pancancer_clinical.txt" in
  if isfile w filename then Ok w
  else urlretrieve net clinical_url "./pancancer_clinical.txt" w.

Definition mutation_usecols : list string :=
  ["Tumor_Sample_Barcode"; "Hugo_Symbol";
   "Variant_Classification"; "Variant_Type";
   "Chromosome"].

(** Load the mutations dataframe. *)
Definition load_mutations (w : world) : result DataFrame :=
  f ← read_file w "pancancer_mutations.maf.gz";
  read_csv f (Some mutation_usecols).

(** Set mutations index: the [row] column is added; the frame returned by
    [set_index] is not kept, so nothing else changes. *)
Definition set_row (df : DataFrame) : result DataFrame :=
  setitem df "row" (arange (nrows df)).

(** Read the cancer types: the file is read with its first line as the
    header, the sole column is renamed, and [row] is added. *)
Definition load_labels (w : world) : result DataFrame :=
  f ← read_file w "labels.txt";
  labels ← read_csv f None;
  labels ← set_columns labels ["cancer_type"];
  set_row labels.

(** Merge the labels with the mutations. *)
Definition merge_labels (mutations labels : DataFrame) : result DataFrame :=
  merge mutations labels "row".

Definition clinical_usecols : list string :=
  ["bcr_patient_barcode"; "gender";
   "vital_status"; "days_to_birth"; "days_to_death";
   "age_at_initial_pathologic_diagnosis"; "pathologic_stage";
   "height"; "weight"].

(** Load the clinical data. *)
Definition load_clinical (w : world) : result DataFrame :=
  f ← read_file w "pancancer_clinical.txt";
  read_csv f (Some clinical_usecols).

(** [tumor_sample_barcode[0:12]]: a [str] is sliced; a value that is not a
    [str] (a missing barcode is the float NaN) cannot be subscripted. *)
Definition parsePatientBarcode (tumor_sample_barcode : cell) : result cell :=
  match tumor_sample_barcode with
  | Str s => Ok (Str (substring 0 12 s))
  | _ => Raise TypeError
  end.

(** Get the patient barcode, then drop the sample barcode. *)
Definition derive_patient_barcode (mutations : DataFrame) : result DataFrame :=
  samples ← getitem mutations "Tumor_Sample_Barcode";
  patients ← apply parsePatientBarcode samples;
  mutations ← setitem mutations "bcr_patient_barcode" patients;
  drop mutations "Tumor_Sample_Barcode".

(** Join the mutations with the clinical data. *)
Definition merge_clinical (mutations clinical : DataFrame) : result DataFrame :=
  merge mutations clinical "bcr_patient_barcode".

(** Write out the merged dataframe. *)
Definition write_merged (merged : DataFrame) (w : world) : result world :=
  write_file w "pancancer_mutations_merged.csv" (to_csv merged).


(** [merged.bcr_patient_barcode.count()], the number printed as the
    merged mutations count. *)
Definition merged_count (merged : DataFrame) : result nat :=
  v ← getattr merged "bcr_patient_barcode";
  Ok (count v).

(** The loop of the tally cell over the barcodes still to visit: the set
    of clinical barcodes is rebuilt at every turn, and a barcode that is
    not in it adds one.  A set is visited in an order of its own; the
    barcodes are given here as a list without repeats. *)
Fixpoint tally (clinical : DataFrame) (gene_barcode_set : list cell)
    (missing_count : nat) : result nat :=
  match gene_barcode_set with
  | [] => Ok missing_count
  | bcr :: rest =>
      v ← getattr clinical "bcr_patient_barcode";
      tally clinical rest
        (if bool_decide (bcr ∈ unique v) then missing_count
         else S missing_count)
  end.

(** The cell that counts the patients with gene data missing in the
    clinical data.  It reads [mutations.bcr_patient_barcode], the column
    that the derivation cell creates; the barcodes it finds there are
    compared by value. *)
Definition count_missing (mutations clinical : DataFrame) : result nat :=
  v ← getattr mutations "bcr_patient_barcode";
  tally clinical (unique v) 0.

(** The cells that build the merged frame, from loading to the merge.
    The tally cell, which stands between the loading of the clinical data
    and the derivation of the patient barcode, is not among them: see
    [run]. *)
Definition merged_frame (w : world) : result DataFrame :=
  mutations ← load_mutations w;
  mutations ← set_row mutations;
  labels ← load_labels w;
  mutations ← merge_labels mutations labels;
  clinical ← load_clinical w;
  mutations ← derive_patient_barcode mutations;
  merge_clinical mutations clinical.

(** The whole notebook, its cells run from top to bottom; the first
    exception ends the run.  The tally cell comes before the cell that
    derives the patient barcode.  The displays ([head], [count], [unique],
    [isnull]) read columns that the loaders and the merge have put in place
    and bind nothing; they are left out. *)
Definition run (net : network) (w : world) : result world :=
  w ← fetch_mutations net w;
  w ← fetch_clinical net w;
  mutations ← load_mutations w;
  mutations ← set_row mutations;
  labels ← load_labels w;
  mutations ← merge_labels mutations labels;
  clinical ← load_clinical w;
  missing_count ← count_missing mutations clinical;
  mutations ← derive_patient_barcode mutations;
  merged ← merge_clinical mutations clinical;
  write_merged merged w.

End Notebook.

(** ** Vocabulary for stating properties of tables *)

Module Table.
Import Pd.

(** How many times a key occurs in a key column. *)
Definition occurrences (k : cell) (ks : list cell) : nat :=
  length (filter (λ x, x = k) ks).

(** The largest number of rows sharing one key (0 for an empty column). *)
Definition max_dup (ks : list cell) : nat :=
  max_list (map (λ k, occurrences k ks) ks).

(** Row [j] of a frame without its [key] column. *)
Definition get_row_except (key : string) (df : DataFrame) (j : nat) : list cell :=
  map (λ c, at_pos c.2 j) (filter (λ p, p.1 ≠ key) (data df)).

(** The value of column [c] in row [n], when both exist. *)
Definition cell_of (df : DataFrame) (c : string) (n : nat) : option cell :=
  v ← lookup_column c (data df); v !! n.

(** The position of the first field named [c] in a header. *)
Fixpoint index_of (c : string) (hdr : list string) : option nat :=
  match hdr with
  | [] => None
  | h :: hdr' => if decide (h = c) then Some 0 else S <$> index_of c hdr'
  end.

(** The value a data line holds under the header name [c]. *)
Definition field_of (f : table_file) (c : string) (rec : list cell) : option cell :=
  j ← index_of c (header f); Some (at_pos rec j).

End Table.

(** ** Sample inputs *)

Module Sample.
Import Pd Os Notebook.

Definition maf_header : list string :=
  ["Hugo_Symbol"; "Entrez_Gene_Id"; "Chromosome"; "Tumor_Sample_Barcode";
   "Variant_Classification"; "Variant_Type"].

Definition clinical_header : list string :=
  ["bcr_patient_barcode"; "gender"; "vital_status"; "days_to_birth";
   "days_to_death"; "age_at_initial_pathologic_diagnosis"; "pathologic_stage";
   "height"; "weight"].

(** Three mutations of three patients. *)
Definition maf3 : table_file :=
  TableFile maf_header
    [ [Str "TACC2"; Int 10579; Str "10"; Str "TCGA-02-0003-01A-01D-1490-08";
       Str "Missense_Mutation"; Str "SNP"];
      [Str "JAKMIP3"; Int 282973; Str "10"; Str "TCGA-05-4244-01A-01D-1105-08";
       Str "Silent"; Str "SNP"];
      [Str "PANX3"; Int 116337; Str "11"; Str "TCGA-06-0125-01A-01D-1490-08";
       Str "Frame_Shift_Del"; Str "DEL"] ]
    eq_refl.

(** Three mutations of one patient. *)
Definition maf_one_patient : table_file :=
  TableFile maf_header
    [ [Str "TACC2"; Int 10579; Str "10"; Str "TCGA-02-0003-01A-01D-1490-08";
       Str "Missense_Mutation"; Str "SNP"];
      [Str "JAKMIP3"; Int 282973; Str "10"; Str "TCGA-02-0003-01A-01D-1490-08";
       Str "Silent"; Str "SNP"];
      [Str "PANX3"; Int 116337; Str "11"; Str "TCGA-02-0003-01A-01D-1490-08";
       Str "Frame_Shift_Del"; Str "DEL"] ]
    eq_refl.

(** A mutations file without the [Chromosome] column. *)
Definition maf_no_chromosome : table_file :=
  TableFile ["Hugo_Symbol"; "Tumor_Sample_Barcode";
             "Variant_Classification"; "Variant_Type"]
    [ [Str "TACC2"; Str "TCGA-02-0003-01A-01D-1490-08";
       Str "Missense_Mutation"; Str "SNP"] ]
    eq_refl.

Definition labels3 : table_file :=
  TableFile ["cancer type"] [ [Str "GBM"]; [Str "LUAD"]; [Str "GBM"] ]
    eq_refl.


(** Clinical records of the first and the third patient of [maf3]. *)
Definition clinical2 : table_file :=
  TableFile clinical_header
    [ [Str "TCGA-02-0003"; Str "MALE"; Str "Dead"; Int (-18341); Int 144;
       Int 50; NaN; NaN; NaN];
      [Str "TCGA-06-0125"; Str "FEMALE"; Str "Dead"; Int (-23234); Int 1448;
       Int 63; NaN; NaN; NaN] ]
    eq_refl.

(** Two clinical records of one patient, differing in the stage. *)
Definition clinical_dup : table_file :=
  TableFile clinical_header
    [ [Str "TCGA-02-0003"; Str "MALE"; Str "Dead"; Int (-18341); Int 144;
       Int 50; Str "Stage I"; NaN; NaN];
      [Str "TCGA-02-0003"; Str "MALE"; Str "Dead"; Int (-18341); Int 144;
       Int 50; Str "Stage II"; NaN; NaN] ]
    eq_refl.

Definition disk (maf labels clinical : table_file) : world :=
  World (<["pancancer_mutations.maf.gz" := File maf]>
         (<["labels.txt" := File labels]>
          (<["pancancer_clinical.txt" := File clinical]> ∅))) [].

(** The same three files in a directory that also holds an earlier output
    and a folder, after a session that downloaded the clinical table. *)
Definition used_disk (maf labels clinical : table_file) : world :=
  World (<["pancancer_mutations_merged.csv" := File labels]>
         (<["figures" := Dir]> (fs (disk maf labels clinical))))
        [clinical_url].

(** A network on which every transfer fails. *)
Definition offline : network := λ _, None.

(** A network that serves [maf3] as the archive and [clinical2] as the
    clinical table. *)
Definition online : network := λ url,
  if decide (url = mutations_url) then Some maf3
  else if decide (url = clinical_url) then Some clinical2
  else None.

(** The frames the merge cell sees for [maf_one_patient], [labels3] and
    [clinical_dup]. *)
Definition one_patient_mutations : DataFrame :=
  Frame 3
    [("Hugo_Symbol", [Str "TACC2"; Str "JAKMIP3"; Str "PANX3"]);
     ("Chromosome", [Str "10"; Str "10"; Str "11"]);
     ("Variant_Classification",
      [Str "Missense_Mutation"; Str "Silent"; Str "Frame_Shift_Del"]);
     ("Variant_Type", [Str "SNP"; Str "SNP"; Str "DEL"]);
     ("row", [Int 0; Int 1; Int 2]);
     ("cancer_type", [Str "GBM"; Str "LUAD"; Str "GBM"]);
     ("bcr_patient_barcode",
      [Str "TCGA-02-0003"; Str "TCGA-02-0003"; Str "TCGA-02-0003"])].

Definition dup_clinical : DataFrame :=
  Frame 2
    [("bcr_patient_barcode", [Str "TCGA-02-0003"; Str "TCGA-02-0003"]);
     ("gender", [Str "MALE"; Str "MALE"]);
     ("vital_status", [Str "Dead"; Str "Dead"]);
     ("days_to_birth", [Int (-18341); Int (-18341)]);
     ("days_to_death", [Int 144; Int 144]);
     ("age_at_initial_pathologic_diagnosis", [Int 50; Int 50]);
     ("pathologic_stage", [Str "Stage I"; Str "Stage II"]);
     ("height", [NaN; NaN]);
     ("weight", [NaN; NaN])].

(** Loaded tables of two mutations and one label. *)
Definition two_mutations : DataFrame :=
  Frame 2
    [("Hugo_Symbol", [Str "TACC2"; Str "JAKMIP3"]);
     ("Chromosome", [Str "10"; Str "10"]);
     ("Tumor_Sample_Barcode",
      [Str "TCGA-02-0003-01A-01D-1490-08"; Str "TCGA-05-4244-01A-01D-1105-08"]);
     ("Variant_Classification", [Str "Missense_Mutation"; Str "Silent"]);
     ("Variant_Type", [Str "SNP"; Str "SNP"])].


End Sample.

(** ** The merged frame in closed form *)

Module Shape.
Import Pd Notebook.

(** Every column taken at the positions [idx]. *)
Definition taken (idx : list nat) (d : list (string * list cell))
  : list (string * list cell) :=
  map (λ p, (p.1, take_rows idx p.2)) d.

(** The columns other than [c]. *)
Definition without (c : string) (d : list (string * list cell))
  : list (string * list cell) :=
  filter (λ p, p.1 ≠ c) d.

(** Does the header of a file hold every name of [cols]? *)
Definition has_columns (cols : list string) (f : table_file) : bool :=
  forallb (λ c, bool_decide (c ∈ header f)) cols.

(** The columns that the two loaders keep of a file. *)
Definition mutations_table (mf : table_file) : list (string * list cell) :=
  select_columns (λ n, bool_decide (n ∈ mutation_usecols)) 0
    (mangle_dupe_cols [] (header mf)) (records mf).

Definition clinical_table (cf : table_file) : list (string * list cell) :=
  select_columns (λ n, bool_decide (n ∈ clinical_usecols)) 0
    (mangle_dupe_cols [] (header cf)) (records cf).

(** How many lines the mutations and the labels have in common. *)
Definition paired (mf lf : table_file) : nat :=
  min (length (records mf)) (length (records lf)).

(** The mutations with their row numbers and labels. *)
Definition labelled_data (mf lf : table_file) : list (string * list cell) :=
  taken (seq 0 (paired mf lf))
    (mutations_table mf ++ [("row", arange (length (records mf)))]) ++
  [("cancer_type",
    take_rows (seq 0 (paired mf lf)) (field_column 0 (records lf)))].

Definition sample_barcodes (mf lf : table_file) : list cell :=
  default [] (lookup_column "Tumor_Sample_Barcode" (labelled_data mf lf)).

Definition is_str (x : cell) : bool :=
  match x with
  | Str _ => true
  | _ => false
  end.

(** The first 12 characters of a string; other values are left alone. *)
Definition patient_key (x : cell) : cell :=
  match x with
  | Str s => Str (substring 0 12 s)
  | _ => x
  end.

Definition patient_barcodes (mf lf : table_file) : list cell :=
  map patient_key (sample_barcodes mf lf).

Definition clinical_barcodes (cf : table_file) : list cell :=
  default [] (lookup_column "bcr_patient_barcode" (clinical_table cf)).

(** The frame that the notebook merges out of three well-formed files. *)
Definition expected_merged (mf lf cf : table_file) : DataFrame :=
  let idx :=
    inner_join_indexers (patient_barcodes mf lf) (clinical_barcodes cf) in
  Frame (length idx)
    (taken idx.*1
       (without "Tumor_Sample_Barcode"
          (labelled_data mf lf ++
           [("bcr_patient_barcode", patient_barcodes mf lf)])) ++
     taken idx.*2 (without "bcr_patient_barcode" (clinical_table cf))).

End Shape.

(** ** Further sample inputs *)

Module Cases.
Import Pd Os Notebook Sample.

(** A mutations file whose second line has no sample barcode. *)
Definition maf_missing_barcode : table_file :=
  TableFile maf_header
    [ [Str "TACC2"; Int 10579; Str "10"; Str "TCGA-02-0003-01A-01D-1490-08";
       Str "Missense_Mutation"; Str "SNP"];
      [Str "JAKMIP3"; Int 282973; Str "10"; NaN;
       Str "Silent"; Str "SNP"] ]
    eq_refl.

(** A labels file of two columns. *)
Definition labels_two_columns : table_file :=
  TableFile ["cancer type"; "source"]
    [ [Str "GBM"; Str "a"]; [Str "LUAD"; Str "b"] ]
    eq_refl.

(** A clinical file without the [weight] column. *)
Definition clinical_no_weight : table_file :=
  TableFile ["bcr_patient_barcode"; "gender"; "vital_status"; "days_to_birth";
             "days_to_death"; "age_at_initial_pathologic_diagnosis";
             "pathologic_stage"; "height"]
    [ [Str "TCGA-02-0003"; Str "MALE"; Str "Dead"; Int (-18341); Int 144;
       Int 50; NaN; NaN] ]
    eq_refl.

(** A clinical file whose patient barcodes are numbers. *)
Definition clinical_numeric : table_file :=
  TableFile clinical_header
    [ [Int 20003; Str "MALE"; Str "Dead"; Int (-18341); Int 144;
       Int 50; NaN; NaN; NaN];
      [Int 60125; Str "FEMALE"; Str "Dead"; Int (-23234); Int 1448;
       Int 63; NaN; NaN; NaN] ]
    eq_refl.

(** A directory that holds the labels only. *)
Definition labels_only : world :=
  World (<["labels.txt" := File labels3]> ∅) [].

(** A directory that holds the two data files and no labels. *)
Definition no_labels : world :=
  World (<["pancancer_mutations.maf.gz" := File maf3]>
         (<["pancancer_clinical.txt" := File clinical2]> ∅)) [].

End Cases.

(** ** Facts about the join indexers *)

Local Open Scope nat_scope.
Local Open Scope list_scope.

(** Closed decidable facts are settled by evaluation. *)
Ltac by_compute := apply (bool_decide_unpack _); vm_compute; exact I.

Section indexers.
Import Pd Table.
Implicit Types (k : cell) (lk rk : list cell) (i j n o : nat).

Lemma positions_from_elem o k rk j :
  j ∈ positions_from o k rk ↔ ∃ n, j = o + n ∧ rk !! n = Some k.
Proof.
  revert o. induction rk as [|x rk IH]; intros o; simpl.
  - split; [by intros ?%elem_of_nil | by intros (n & _ & ?)].
  - destruct (decide (x = k)) as [->|Hne].
    + rewrite elem_of_cons, IH. split.
      * intros [->|(n & -> & Hn)]; [exists 0 | exists (S n)]; split; auto; lia.
      * intros ([|n] & -> & Hn); [left; lia | right; exists n; split; [lia | done]].
    + rewrite IH. split.
      * intros (n & -> & Hn). exists (S n). split; [lia | done].
      * intros ([|n] & -> & Hn); simplify_eq/=. exists n. split; [lia | done].
Qed.

Lemma positions_from_NoDup o k rk : NoDup (positions_from o k rk).
Proof.
  revert o. induction rk as [|x rk IH]; intros o; simpl; [constructor|].
  destruct (decide (x = k)); [|done].
  constructor; [|done].
  rewrite positions_from_elem. intros (n & ? & _). lia.
Qed.

Lemma positions_from_length o k rk :
  length (positions_from o k rk) = occurrences k rk.
Proof.
  unfold occurrences. revert o. induction rk as [|x rk IH]; intros o; [done|].
  simpl. rewrite filter_cons. destruct (decide (x = k)); simpl; by rewrite IH.
Qed.

Lemma join_from_elem o lk rk i j :
  (i, j) ∈ join_from o lk rk ↔
  ∃ n k, i = o + n ∧ lk !! n = Some k ∧ rk !! j = Some k.
Proof.
  revert o. induction lk as [|x lk IH]; intros o; simpl.
  - split; [by intros ?%elem_of_nil | by intros (n & k & _ & ? & _)].
  - rewrite elem_of_app, list_elem_of_fmap, IH. split.
    + intros [(j' & [= -> ->] & Hj)|(n & k & -> & Hn & Hk)].
      * apply positions_from_elem in Hj as (m & -> & Hm).
        exists 0, x. split; [lia | done].
      * exists (S n), k. split; [lia | done].
    + intros ([|n] & k & -> & Hn & Hk); simplify_eq/=.
      * left. exists j. split; [f_equal; lia|].
        apply positions_from_elem. by exists j.
      * right. exists n, k. split; [lia | done].
Qed.

Lemma join_from_NoDup o lk rk : NoDup (join_from o lk rk).
Proof.
  revert o. induction lk as [|x lk IH]; intros o; simpl; [constructor|].
  apply NoDup_app. split; [|split; [|done]].
  - apply NoDup_fmap_2; [by intros ?? [=] | apply positions_from_NoDup].
  - intros [i j] (j' & [= -> ->] & _)%list_elem_of_fmap.
    rewrite join_from_elem. intros (n & ? & ? & _). lia.
Qed.

Lemma join_from_length o lk rk :
  length (join_from o lk rk) = sum_list (map (λ k, occurrences k rk) lk).
Proof.
  revert o. induction lk as [|x lk IH]; intros o; [done|].
  simpl. by rewrite length_app, length_map, positions_from_length, IH.
Qed.

(** The pairs of an inner join: each matching pair of positions, once. *)
Lemma inner_join_indexers_elem lk rk i j :
  (i, j) ∈ inner_join_indexers lk rk ↔
  ∃ k, lk !! i = Some k ∧ rk !! j = Some k.
Proof.
  unfold inner_join_indexers. rewrite join_from_elem. split.
  - intros (n & k & -> & ? & ?). by exists k.
  - intros (k & ? & ?). by exists i, k.
Qed.

Lemma inner_join_indexers_NoDup lk rk : NoDup (inner_join_indexers lk rk).
Proof. apply join_from_NoDup. Qed.

Lemma occurrences_not_elem k ks : k ∉ ks → occurrences k ks = 0.
Proof.
  unfold occurrences. induction ks as [|x ks IH]; [done|].
  intros [Hne Hout]%not_elem_of_cons.
  rewrite filter_cons_False by congruence. auto.
Qed.

Lemma occurrences_le_max_dup k ks : occurrences k ks ≤ max_dup ks.
Proof.
  unfold max_dup. destruct (decide (k ∈ ks)) as [Hin|Hout].
  - apply max_list_elem_of_le, list_elem_of_fmap. by exists k.
  - rewrite occurrences_not_elem by done. lia.
Qed.

Lemma sum_occurrences_swap lk rk :
  sum_list (map (λ k, occurrences k rk) lk) =
  sum_list (map (λ k, occurrences k lk) rk).
Proof.
  induction lk as [|x lk IH]; simpl.
  - induction rk as [|y rk IHr]; [done|]. simpl. by rewrite <- IHr.
  - rewrite IH. clear IH. unfold occurrences.
    induction rk as [|y rk IHr]; [done|].
    simpl. rewrite !filter_cons.
    destruct (decide (y = x)) as [->|Hne].
    + rewrite decide_True by done. simpl. lia.
    + rewrite decide_False by congruence. simpl. lia.
Qed.

Lemma sum_list_bounded (f : cell → nat) (b : nat) (l : list cell) :
  (∀ x, f x ≤ b) → sum_list (map f l) ≤ length l * b.
Proof. intros Hb. induction l as [|x l IH]; simpl; [lia|]. specialize (Hb x). lia. Qed.

Lemma inner_join_length_left lk rk :
  length (inner_join_indexers lk rk) ≤ length lk * max_dup rk.
Proof.
  unfold inner_join_indexers. rewrite join_from_length.
  apply sum_list_bounded. intros x. apply occurrences_le_max_dup.
Qed.

Lemma inner_join_length_right lk rk :
  length (inner_join_indexers lk rk) ≤ length rk * max_dup lk.
Proof.
  unfold inner_join_indexers. rewrite join_from_length, sum_occurrences_swap.
  apply sum_list_bounded. intros x. apply occurrences_le_max_dup.
Qed.

End indexers.

(** ** Facts about the frame operations *)

Section frames.
Import Pd Table.
Implicit Types (df left right out : DataFrame) (c key : string).
Implicit Types (v vals : list cell) (d : list (string * list cell)).

Lemma length_arange n : length (arange n) = n.
Proof. unfold arange. by rewrite length_map, length_seq. Qed.

Lemma arange_lookup n i : i < n → arange n !! i = Some (Int (Z.of_nat i)).
Proof.
  intros Hi. unfold arange.
  by rewrite list_lookup_fmap, lookup_seq_lt.
Qed.

Lemma lookup_column_elem c d v :
  lookup_column c d = Some v → (c, v) ∈ d.
Proof.
  induction d as [|[n x] d IH]; simpl; [done|].
  destruct (decide (n = c)) as [->|]; [intros [= ->]; left | right; auto].
Qed.

Lemma lookup_column_is_Some c d :
  is_Some (lookup_column c d) ↔ c ∈ d.*1.
Proof.
  induction d as [|[n x] d IH]; simpl.
  - split; [by intros [? ?] | by intros ?%elem_of_nil].
  - destruct (decide (n = c)) as [->|Hne].
    + split; [left | by eexists].
    + rewrite IH, elem_of_cons. split; [by right | by intros [?|?]].
Qed.

Lemma lookup_column_None c d :
  lookup_column c d = None ↔ c ∉ d.*1.
Proof. rewrite <- lookup_column_is_Some, eq_None_not_Some. done. Qed.

Lemma lookup_column_app c d1 d2 :
  lookup_column c (d1 ++ d2) =
  match lookup_column c d1 with
  | Some v => Some v
  | None => lookup_column c d2
  end.
Proof.
  induction d1 as [|[n x] d1 IH]; simpl; [done|].
  by destruct (decide (n = c)).
Qed.

Lemma lookup_column_replace c c' vals d :
  c' ∈ d.*1 →
  lookup_column c (replace_column c' vals d) =
  if decide (c = c') then Some vals else lookup_column c d.
Proof.
  induction d as [|[n x] d IH]; simpl; [by intros ?%elem_of_nil|].
  intros Hin. destruct (decide (n = c')) as [->|Hne]; simpl.
  - destruct (decide (c' = c)) as [->|]; [by rewrite decide_True|].
    by rewrite decide_False.
  - destruct (decide (n = c)) as [->|].
    + by rewrite decide_False.
    + apply IH. apply elem_of_cons in Hin as [|]; [congruence | done].
Qed.

Lemma lookup_column_map_values (g : list cell → list cell) c d :
  lookup_column c (map (λ p, (p.1, g p.2)) d) = g <$> lookup_column c d.
Proof.
  induction d as [|[n x] d IH]; simpl; [done|].
  by destruct (decide (n = c)).
Qed.

Lemma lookup_column_filter_ne c c' d :
  lookup_column c (filter (λ p, p.1 ≠ c') d) =
  if decide (c = c') then None else lookup_column c d.
Proof.
  induction d as [|[n x] d IH]; simpl.
  - by destruct (decide (c = c')).
  - rewrite filter_cons. simpl. destruct (decide (n ≠ c')) as [Hne|Heq]; simpl.
    + destruct (decide (n = c)) as [->|]; [by rewrite decide_False | done].
    + apply dec_stable in Heq as ->. rewrite IH.
      destruct (decide (c = c')) as [->|]; [done|]. by rewrite decide_False.
Qed.

(** After [df[c'] = vals], column [c'] holds [vals] and the others are as
    before. *)
Lemma setitem_Ok df c' vals :
  length vals = nrows df →
  ∃ out, setitem df c' vals = Ok out ∧ nrows out = nrows df ∧
    ∀ c, lookup_column c (data out) =
         if decide (c = c') then Some vals else lookup_column c (data df).
Proof.
  intros Hlen. unfold setitem. rewrite decide_True by done.
  eexists. split; [done|]. split; [done|]. intros c. simpl.
  case_bool_decide as Hin.
  - by apply lookup_column_replace.
  - rewrite lookup_column_app. simpl.
    destruct (decide (c = c')) as [->|Hne].
    + apply lookup_column_None in Hin. unfold columns in Hin.
      rewrite Hin. by rewrite decide_True.
    + rewrite decide_False by congruence. by destruct (lookup_column c (data df)).
Qed.

Lemma setitem_inv df c' vals out :
  setitem df c' vals = Ok out →
  length vals = nrows df ∧ nrows out = nrows df ∧
  ∀ c, lookup_column c (data out) =
       if decide (c = c') then Some vals else lookup_column c (data df).
Proof.
  intros Hset. assert (length vals = nrows df) as Hlen.
  { unfold setitem in Hset. by destruct (decide (length vals = nrows df)). }
  destruct (setitem_Ok df c' vals Hlen) as (out' & Hout & ? & ?).
  rewrite Hset in Hout. by simplify_eq.
Qed.


Lemma at_pos_lookup v i x : v !! i = Some x → at_pos v i = x.
Proof. unfold at_pos. by intros ->. Qed.

Lemma take_rows_lookup idx v n i :
  idx !! n = Some i → take_rows idx v !! n = Some (at_pos v i).
Proof. intros Hn. unfold take_rows. by rewrite list_lookup_fmap, Hn. Qed.

Lemma length_take_rows idx v : length (take_rows idx v) = length idx.
Proof. unfold take_rows. by rewrite length_map. Qed.

(** What a successful merge returns: one row per pair of the indexers,
    made of the left row and the right row without its key. *)
Lemma merge_inv left right key out :
  merge left right key = Ok out →
  ∃ lk rk,
    lookup_column key (data left) = Some lk ∧
    lookup_column key (data right) = Some rk ∧
    nrows out = length (inner_join_indexers lk rk) ∧
    ∀ n i j, inner_join_indexers lk rk !! n = Some (i, j) →
      get_row out n = get_row left i ++ get_row_except key right j.
Proof.
  unfold merge, getitem. intros Hm.
  destruct (lookup_column key (data left)) as [lk|]; [|done].
  destruct (lookup_column key (data right)) as [rk|]; [|done].
  simpl in Hm. destruct (mergeable lk rk); [|done].
  injection Hm as <-. exists lk, rk. repeat split.
  intros n i j Hn. unfold get_row, get_row_except. simpl.
  rewrite map_app, !map_map. f_equal; apply map_ext; intros [c v]; simpl;
    apply at_pos_lookup, take_rows_lookup; by rewrite list_lookup_fmap, Hn.
Qed.

(** Where the two frames share no name but the key, no column is renamed. *)
Lemma merge_data left right key out :
  merge left right key = Ok out →
  (∀ c, c ∈ columns left → c ∈ columns right → c = key) →
  ∃ lk rk,
    lookup_column key (data left) = Some lk ∧
    lookup_column key (data right) = Some rk ∧
    data out =
      map (λ p, (p.1, take_rows (inner_join_indexers lk rk).*1 p.2)) (data left) ++
      map (λ p, (p.1, take_rows (inner_join_indexers lk rk).*2 p.2))
          (filter (λ p, p.1 ≠ key) (data right)).
Proof.
  unfold merge, getitem. intros Hm Hdisj.
  destruct (lookup_column key (data left)) as [lk|]; [|done].
  destruct (lookup_column key (data right)) as [rk|]; [|done].
  simpl in Hm. destruct (mergeable lk rk); [|done].
  injection Hm as <-. exists lk, rk. repeat split.
  simpl. f_equal.
  - apply map_ext_in. intros [c v] Hin. simpl.
    rewrite bool_decide_false; [done|]. intros [Hne Hr]. apply Hne, Hdisj; [|done].
    apply list_elem_of_fmap. exists (c, v). split; [done|]. by apply list_elem_of_In.
  - apply map_ext_in. intros [c v] Hin. simpl.
    rewrite bool_decide_false; [done|]. intros Hl.
    apply list_elem_of_In, list_elem_of_filter in Hin as [Hne Hin]. simpl in Hne.
    apply Hne, Hdisj; [done|].
    apply list_elem_of_fmap. by exists (c, v).
Qed.

Lemma merge_Ok left right key lk rk :
  lookup_column key (data left) = Some lk →
  lookup_column key (data right) = Some rk →
  mergeable lk rk = true →
  ∃ out, merge left right key = Ok out.
Proof. unfold merge, getitem. intros -> -> Hm. simpl. rewrite Hm. by eexists. Qed.

Lemma merge_Raise left right key lk rk :
  lookup_column key (data left) = Some lk →
  lookup_column key (data right) = Some rk →
  mergeable lk rk = false →
  merge left right key = Raise ValueError.
Proof. unfold merge, getitem. intros -> -> Hm. simpl. by rewrite Hm. Qed.

(** Columns without a [str] pass the check whatever they hold. *)
Lemma mergeable_numeric lk rk :
  is_object lk = false → is_object rk = false → mergeable lk rk = true.
Proof.
  intros Hl Hr. unfold mergeable. rewrite Hl, Hr. simpl.
  destruct lk; [done|]. by destruct rk.
Qed.

Lemma is_object_arange n : is_object (arange n) = false.
Proof.
  unfold is_object, arange. induction (seq 0 n) as [|i l IH]; [done|].
  simpl. exact IH.
Qed.

(** Joining two counters on equality pairs each position with itself. *)
Lemma positions_from_seq (o s m i : nat) :
  positions_from o (Int (Z.of_nat i)) (map (λ i, Int (Z.of_nat i)) (seq s m)) =
  if decide (s ≤ i < s + m) then [o + (i - s)] else [].
Proof.
  revert o s. induction m as [|m IH]; intros o s; simpl.
  - rewrite decide_False by lia. done.
  - rewrite IH. destruct (decide (Int (Z.of_nat s) = Int (Z.of_nat i))) as [Heq|Hne].
    + assert (s = i) as -> by (injection Heq; lia).
      rewrite decide_False by lia. rewrite decide_True by lia.
      f_equal. lia.
    + assert (s ≠ i) by congruence.
      destruct (decide (S s ≤ i < S s + m)).
      * rewrite decide_True by lia. f_equal. lia.
      * rewrite decide_False by lia. done.
Qed.

Lemma join_from_arange (o n m : nat) :
  join_from o (map (λ i, Int (Z.of_nat i)) (seq o n)) (arange m) =
  map (λ i, (i, i)) (seq o (min (o + n) m - o)).
Proof.
  revert o. induction n as [|n IH]; intros o; simpl.
  - replace (min (o + 0) m - o) with 0 by lia. done.
  - rewrite IH. unfold arange. rewrite positions_from_seq.
    destruct (decide (0 ≤ o < 0 + m)).
    + replace (min (o + S n) m - o) with (S (min (S o + n) m - S o)) by lia.
      simpl. do 2 f_equal. lia.
    + replace (min (S o + n) m - S o) with 0 by lia.
      replace (min (o + S n) m - o) with 0 by lia. done.
Qed.

Lemma inner_join_indexers_arange (n m : nat) :
  inner_join_indexers (arange n) (arange m) =
  map (λ i, (i, i)) (seq 0 (min n m)).
Proof.
  unfold inner_join_indexers. unfold arange at 1. rewrite join_from_arange.
  do 2 f_equal. lia.
Qed.

End frames.

(** ** Facts about the loaders *)

Section loaders.
Import Pd Os Table.
Implicit Types (c : string) (hdr seen names cols : list string) (f : table_file).

Lemma index_of_is_Some c hdr : is_Some (index_of c hdr) ↔ c ∈ hdr.
Proof.
  induction hdr as [|h hdr IH]; simpl.
  - split; [by intros [? ?] | by intros ?%elem_of_nil].
  - destruct (decide (h = c)) as [->|Hne].
    + split; [left | by eexists].
    + rewrite fmap_is_Some, IH, elem_of_cons. split; [by right | by intros [?|?]].
Qed.

Lemma index_of_lookup c hdr j : index_of c hdr = Some j → hdr !! j = Some c.
Proof.
  revert j. induction hdr as [|h hdr IH]; intros j; simpl; [done|].
  destruct (decide (h = c)) as [->|Hne]; [by intros [= <-]|].
  destruct (index_of c hdr) as [k|]; [|done]. intros [= <-]. by apply IH.
Qed.

(** A selected name leads to the first column of that name. *)
Lemma lookup_column_select keep j names recs c :
  lookup_column c (select_columns keep j names recs) =
  if keep c then k ← index_of c names; Some (field_column (j + k) recs)
  else None.
Proof.
  revert j. induction names as [|n names IH]; intros j; simpl.
  - by destruct (keep c).
  - assert (lookup_column c (select_columns keep (S j) names recs) =
            if keep c then k ← S <$> index_of c names;
                           Some (field_column (j + k) recs)
            else None) as Hrest.
    { rewrite IH. destruct (keep c); [|done].
      destruct (index_of c names) as [k|]; simpl; [|done]. do 2 f_equal. lia. }
    destruct (decide (n = c)) as [->|Hne].
    + destruct (keep c) eqn:Hsel; simpl.
      * rewrite decide_True by done. do 2 f_equal. lia.
      * done.
    + destruct (keep n); simpl; [by rewrite decide_False | done].
Qed.

Lemma select_columns_names keep j names recs :
  (select_columns keep j names recs).*1 = filter (λ n, keep n) names.
Proof.
  revert j. induction names as [|n names IH]; intros j; simpl; [done|].
  rewrite filter_cons. destruct (keep n); simpl; by rewrite IH.
Qed.

Lemma select_columns_lengths keep j names recs :
  Forall (λ p, length p.2 = length recs) (select_columns keep j names recs).
Proof.
  revert j. induction names as [|n names IH]; intros j; simpl; [constructor|].
  destruct (keep n); [|done].
  constructor; [|done]. simpl. unfold field_column. by rewrite length_map.
Qed.

Lemma has_dot_renamed (h p : string) : has_dot (h +:+ "." +:+ p) = true.
Proof.
  induction h as [|a h IH]; [done|].
  change (String a h +:+ "." +:+ p) with (String a (h +:+ "." +:+ p)).
  simpl. rewrite IH. apply orb_true_r.
Qed.

Lemma no_repeat_iff (h : string) seen :
  length (filter (λ x, x = h) seen) = 0 ↔ h ∉ seen.
Proof.
  induction seen as [|x seen IH]; simpl.
  - split; [intros _; apply not_elem_of_nil | done].
  - rewrite filter_cons, not_elem_of_cons. destruct (decide (x = h)) as [->|Hne]; simpl.
    + split; [lia | by intros [? _]].
    + rewrite IH. split; [intros ?; split; [congruence | done] | by intros [_ ?]].
Qed.

(** A name without a dot is never the renamed form of another. *)
Lemma mangled_name_eq seen (h c : string) :
  has_dot c = false →
  (if decide (length (filter (λ x, x = h) seen) = 0) then h
   else h +:+ "." +:+ pretty (length (filter (λ x, x = h) seen))) = c ↔
  (h = c ∧ c ∉ seen).
Proof.
  intros Hc. destruct (decide _) as [Hz|Hnz].
  - apply no_repeat_iff in Hz. split; [by intros -> | by intros [? _]].
  - split.
    + intros <-. by rewrite has_dot_renamed in Hc.
    + intros [-> Hout]. by apply no_repeat_iff in Hout.
Qed.

Lemma index_of_mangle seen hdr c :
  has_dot c = false → c ∉ seen →
  index_of c (mangle_dupe_cols seen hdr) = index_of c hdr.
Proof.
  intros Hc. revert seen. induction hdr as [|h hdr IH]; intros seen Hout; [done|].
  simpl. pose proof (mangled_name_eq seen h c Hc) as Hname.
  destruct (decide (h = c)) as [->|Hne].
  - rewrite decide_True; [done|]. by apply Hname.
  - rewrite decide_False; [|by intros [? _]%Hname].
    rewrite IH; [done|]. apply not_elem_of_cons. split; [congruence | done].
Qed.

Lemma not_elem_of_mangle seen hdr c :
  has_dot c = false → c ∈ seen → c ∉ mangle_dupe_cols seen hdr.
Proof.
  intros Hc. revert seen. induction hdr as [|h hdr IH]; intros seen Hin.
  - apply not_elem_of_nil.
  - simpl. apply not_elem_of_cons. split.
    + intros Heq. symmetry in Heq. by apply (mangled_name_eq seen h c Hc) in Heq as [_ ?].
    + apply IH. by right.
Qed.

Lemma filter_mangle_NoDup cols seen hdr :
  Forall (λ c, has_dot c = false) cols →
  NoDup (filter (λ n, bool_decide (n ∈ cols)) (mangle_dupe_cols seen hdr)).
Proof.
  intros Hdot. rewrite Forall_forall in Hdot.
  revert seen. induction hdr as [|h hdr IH]; intros seen; [constructor|].
  cbn [mangle_dupe_cols].
  set (n := if decide _ then _ else _).
  rewrite filter_cons. destruct (decide (bool_decide (n ∈ cols))) as [Hsel|]; [|done].
  constructor; [|done].
  apply bool_decide_unpack in Hsel. apply Hdot in Hsel.
  intros [_ Hin]%list_elem_of_filter. revert Hin.
  assert (h = n ∧ n ∉ seen) as [<- _] by (by apply (mangled_name_eq seen h n Hsel)).
  apply not_elem_of_mangle; [done | left].
Qed.

Section usecols.
Context (f : table_file) (cols : list string).
Hypothesis cols_plain : Forall (λ c, has_dot c = false) cols.

Lemma usecols_in_names c :
  c ∈ cols → c ∈ mangle_dupe_cols [] (header f) ↔ c ∈ header f.
Proof.
  intros Hc. rewrite Forall_forall in cols_plain.
  rewrite <- !index_of_is_Some, index_of_mangle; auto using not_elem_of_nil.
Qed.

(** Reading with [usecols] succeeds exactly when every name is in the
    header. *)
Lemma read_csv_usecols_Ok :
  (∀ c, c ∈ cols → c ∈ header f) →
  read_csv f (Some cols) =
  Ok (Frame (length (records f))
            (select_columns (λ n, bool_decide (n ∈ cols)) 0
               (mangle_dupe_cols [] (header f)) (records f))).
Proof.
  intros Hall. unfold read_csv.
  rewrite (proj2 (forallb_forall _ cols)); [done|].
  intros c Hc%list_elem_of_In. apply bool_decide_eq_true.
  apply usecols_in_names; auto.
Qed.

Lemma read_csv_usecols_Raise :
  (∃ c, c ∈ cols ∧ c ∉ header f) → read_csv f (Some cols) = Raise ValueError.
Proof.
  intros (c & Hc & Hout). unfold read_csv.
  destruct (forallb _ cols) eqn:Hall; [|done].
  rewrite forallb_forall in Hall.
  pose proof Hc as Hin. apply list_elem_of_In, Hall, bool_decide_eq_true in Hin.
  by apply usecols_in_names in Hin.
Qed.

Lemma read_csv_usecols_inv df :
  read_csv f (Some cols) = Ok df →
  (∀ c, c ∈ cols → c ∈ header f) ∧
  df = Frame (length (records f))
         (select_columns (λ n, bool_decide (n ∈ cols)) 0
            (mangle_dupe_cols [] (header f)) (records f)).
Proof.
  intros Hread.
  assert (∀ c, c ∈ cols → c ∈ header f) as Hall.
  { intros c Hc. destruct (decide (c ∈ header f)) as [|Hout]; [done|].
    rewrite read_csv_usecols_Raise in Hread by eauto. done. }
  split; [done|]. rewrite read_csv_usecols_Ok in Hread by done. by injection Hread.
Qed.

(** The columns of a frame read with [usecols]. *)
Lemma read_csv_usecols_lookup df c :
  read_csv f (Some cols) = Ok df →
  lookup_column c (data df) =
  if bool_decide (c ∈ cols)
  then j ← index_of c (header f); Some (field_column j (records f))
  else None.
Proof.
  intros [_ ->]%read_csv_usecols_inv. simpl.
  rewrite lookup_column_select. case_bool_decide as Hc; [|done].
  rewrite Forall_forall in cols_plain.
  rewrite index_of_mangle; auto using not_elem_of_nil.
Qed.

Lemma read_csv_usecols_columns df c :
  read_csv f (Some cols) = Ok df → (c ∈ columns df ↔ c ∈ cols).
Proof.
  intros Hread. unfold columns.
  rewrite <- lookup_column_is_Some, (read_csv_usecols_lookup _ _ Hread).
  apply read_csv_usecols_inv in Hread as [Hall _].
  case_bool_decide as Hc.
  - destruct (proj2 (index_of_is_Some c (header f)) (Hall c Hc)) as [j ->].
    split; [done | by eexists].
  - split; [by intros [? ?] | done].
Qed.

Lemma read_csv_usecols_NoDup df :
  read_csv f (Some cols) = Ok df → NoDup (columns df).
Proof.
  intros [_ ->]%read_csv_usecols_inv. unfold columns. simpl.
  rewrite select_columns_names. by apply filter_mangle_NoDup.
Qed.

End usecols.

Lemma read_csv_wf f usecols df : read_csv f usecols = Ok df → wf df.
Proof.
  unfold read_csv, wf. destruct usecols as [cols|].
  - destruct (forallb _ cols); [|done]. intros [= <-]. apply select_columns_lengths.
  - intros [= <-]. apply select_columns_lengths.
Qed.

Lemma field_column_lookup j recs i rec :
  recs !! i = Some rec → field_column j recs !! i = Some (at_pos rec j).
Proof. intros Hi. unfold field_column. by rewrite list_lookup_fmap, Hi. Qed.

End loaders.

(** ** Facts about the notebook cells *)

Section cells.
Import Pd Os Table Notebook.

Lemma bind_Ok_inv {A B} (m : result A) (k : A → result B) (b : B) :
  m ≫= k = Ok b → ∃ a, m = Ok a ∧ k a = Ok b.
Proof. destruct m as [a|e]; [by exists a | done]. Qed.

Lemma mutation_usecols_plain : Forall (λ c, has_dot c = false) mutation_usecols.
Proof. by_compute. Qed.

Lemma clinical_usecols_plain : Forall (λ c, has_dot c = false) clinical_usecols.
Proof. by_compute. Qed.

Lemma substring_prefix (n : nat) (s : string) :
  ∃ rest, s = substring 0 n s +:+ rest ∧
    String.length (substring 0 n s) = min n (String.length s).
Proof.
  revert s. induction n as [|n IH]; intros s.
  - exists s. by destruct s.
  - destruct s as [|a s].
    + by exists "".
    + destruct (IH s) as (rest & Hs & Hlen). exists rest. split.
      * change (String a s = String a (substring 0 n s +:+ rest)).
        by rewrite <- Hs.
      * simpl. by rewrite Hlen.
Qed.

Lemma substring_short (n : nat) (s : string) :
  String.length s ≤ n → substring 0 n s = s.
Proof.
  revert s. induction n as [|n IH]; intros [|a s]; simpl; try done; try lia.
  intros Hlen. f_equal. apply IH. lia.
Qed.

Lemma isfile_after_urlretrieve net url p w w' :
  urlretrieve net url p w = Ok w' → isfile w' p = true.
Proof.
  unfold urlretrieve, isfile. destruct (net url) as [c|]; [|done].
  destruct (fs w !! normpath p) as [[?|]|]; try done;
    intros [= <-]; simpl; by rewrite lookup_insert_eq.
Qed.

Lemma read_file_isfile w p c : read_file w p = Ok c → isfile w p = true.
Proof.
  unfold read_file, isfile. by destruct (fs w !! normpath p) as [[?|]|].
Qed.

Lemma wf_lookup_length (df : DataFrame) c v :
  wf df → lookup_column c (data df) = Some v → length v = nrows df.
Proof.
  intros Hwf Hv%lookup_column_elem.
  unfold wf in Hwf. rewrite Forall_forall in Hwf. by apply Hwf in Hv.
Qed.


(** Where the two frames share no name but the key, a column of the merged
    frame is the left column of that name taken at the left positions, or
    else the right column taken at the right positions. *)
Lemma merge_lookup (left right out : DataFrame) (key : string) :
  merge left right key = Ok out →
  (∀ c, c ∈ columns left → c ∈ columns right → c = key) →
  ∃ lk rk,
    lookup_column key (data left) = Some lk ∧
    lookup_column key (data right) = Some rk ∧
    nrows out = length (inner_join_indexers lk rk) ∧
    ∀ c, lookup_column c (data out) =
      match lookup_column c (data left) with
      | Some v => Some (take_rows (inner_join_indexers lk rk).*1 v)
      | None =>
          if decide (c = key) then None
          else take_rows (inner_join_indexers lk rk).*2 <$>
                 lookup_column c (data right)
      end.
Proof.
  intros Hm Hdisj.
  destruct (merge_inv _ _ _ _ Hm) as (lk & rk & Hlk & Hrk & Hn & _).
  destruct (merge_data _ _ _ _ Hm Hdisj) as (lk' & rk' & Hlk' & Hrk' & Hdata).
  simplify_eq. exists lk, rk. split_and!; try done.
  intros c. rewrite Hdata, lookup_column_app.
  rewrite (lookup_column_map_values (take_rows (inner_join_indexers lk rk).*1)).
  destruct (lookup_column c (data left)); simpl; [done|].
  rewrite (lookup_column_map_values (take_rows (inner_join_indexers lk rk).*2)).
  rewrite lookup_column_filter_ne. by destruct (decide (c = key)).
Qed.

Lemma drop_inv (df out : DataFrame) (c' : string) :
  drop df c' = Ok out →
  nrows out = nrows df ∧
  ∀ c, lookup_column c (data out) =
       if decide (c = c') then None else lookup_column c (data df).
Proof.
  unfold drop. case_bool_decide; [|done]. intros [= <-]. split; [done|].
  intros c. apply lookup_column_filter_ne.
Qed.

(** A file read without [usecols] and renamed to a single column holds
    the first field of every data line. *)
Lemma single_column_inv (f : table_file) (df out : DataFrame) (name : string) :
  read_csv f None = Ok df →
  set_columns df [name] = Ok out →
  nrows out = length (records f) ∧
  data out = [(name, field_column 0 (records f))].
Proof.
  unfold read_csv, set_columns. intros [= <-]. simpl.
  destruct (mangle_dupe_cols [] (header f)) as [|n [|n' names]]; simpl; try done.
  by intros [= <-].
Qed.

(** [apply] of the derivation returns when every value is a string, and
    then holds the 12-character prefixes, position by position. *)
Lemma apply_parsePatientBarcode_inv (samples patients : list cell) :
  apply parsePatientBarcode samples = Ok patients →
  length patients = length samples ∧
  ∀ i x, samples !! i = Some x →
    ∃ s, x = Str s ∧ patients !! i = Some (Str (substring 0 12 s)).
Proof.
  unfold apply. revert patients.
  induction samples as [|x samples IH]; intros patients; simpl.
  - intros [= <-]. split; [done|]. by intros i x ?.
  - destruct x as [|s|z]; simpl; try done.
    destruct (mapM parsePatientBarcode samples) as [ps|]; simpl; [|done].
    intros [= <-]. destruct (IH ps eq_refl) as [Hlen Hat].
    split; [simpl; by rewrite Hlen|].
    intros [|i] x; simpl; [intros [= <-]; by exists s | apply Hat].
Qed.

Lemma take_rows_seq_lookup (idx : list nat) (K : nat) (v : list cell) n i :
  idx !! n = Some i → i < K →
  take_rows idx (take_rows (seq 0 K) v) !! n = Some (at_pos v i).
Proof.
  intros Hn Hi. rewrite (take_rows_lookup _ _ _ _ Hn). f_equal.
  apply at_pos_lookup, take_rows_lookup. by rewrite lookup_seq_lt.
Qed.

Lemma diagonal_fst (K : nat) : (map (λ i, (i, i)) (seq 0 K)).*1 = seq 0 K.
Proof.
  rewrite <- list_fmap_compose. apply list_fmap_id.
Qed.

Lemma diagonal_snd (K : nat) : (map (λ i, (i, i)) (seq 0 K)).*2 = seq 0 K.
Proof.
  rewrite <- list_fmap_compose. apply list_fmap_id.
Qed.

(** The frame of mutations with their labels, column by column, in terms
    of the two files it was read from. *)
Lemma labelled_mutations_lookup (mf lf : table_file)
    (m0 m1 l0' l0 l1 j1 : DataFrame) :
  read_csv mf (Some mutation_usecols) = Ok m0 →
  set_row m0 = Ok m1 →
  read_csv lf None = Ok l0' →
  set_columns l0' ["cancer_type"] = Ok l0 →
  set_row l0 = Ok l1 →
  merge_labels m1 l1 = Ok j1 →
  let K := min (length (records mf)) (length (records lf)) in
  nrows j1 = K ∧
  ∀ c, lookup_column c (data j1) =
    if decide (c = "row")
    then Some (take_rows (seq 0 K) (arange (length (records mf))))
    else if bool_decide (c ∈ mutation_usecols)
    then j ← index_of c (header mf);
         Some (take_rows (seq 0 K) (field_column j (records mf)))
    else if decide (c = "cancer_type")
    then Some (take_rows (seq 0 K) (field_column 0 (records lf)))
    else None.
Proof.
  intros Hm0 Hm1 Hl0' Hl0 Hl1 Hj1 K.
  pose proof (λ c, read_csv_usecols_lookup mf _ mutation_usecols_plain m0 c Hm0) as Lm0.
  assert (nrows m0 = length (records mf)) as Nm0.
  { by apply read_csv_usecols_inv in Hm0 as [_ ->]; [|apply mutation_usecols_plain]. }
  apply setitem_inv in Hm1 as (_ & Nm1 & Lm1).
  destruct (single_column_inv _ _ _ _ Hl0' Hl0) as [Nl0 Dl0].
  apply setitem_inv in Hl1 as (_ & Nl1 & Ll1).
  assert (∀ c, c ∈ columns m1 → c ∈ columns l1 → c = "row") as Hdisj.
  { intros c [v Hv]%lookup_column_is_Some [v' Hv']%lookup_column_is_Some.
    destruct (decide (c = "row")) as [|Hne]; [done|]. exfalso.
    rewrite Lm1, decide_False, Lm0 in Hv by done.
    rewrite Ll1, decide_False, Dl0 in Hv' by done. simpl in Hv'.
    destruct (decide ("cancer_type" = c)) as [<-|]; [|done].
    by rewrite bool_decide_false in Hv by by_compute. }
  destruct (merge_lookup _ _ _ _ Hj1 Hdisj) as (lk & rk & Hlk & Hrk & Nj1 & Lj1).
  rewrite Lm1, decide_True in Hlk by done.
  rewrite Ll1, decide_True in Hrk by done. simplify_eq.
  rewrite Nm0, Nl0, inner_join_indexers_arange in *.
  fold K in Nj1, Lj1. rewrite diagonal_fst, diagonal_snd in Lj1.
  split; [by rewrite Nj1, length_map, length_seq|].
  intros c. rewrite Lj1, Lm1, Ll1, Lm0, Dl0.
  destruct (decide (c = "row")) as [->|Hne]; [done|].
  case_bool_decide as Hc.
  - destruct (index_of c (header mf)); simpl; [done|].
    destruct (decide ("cancer_type" = c)) as [<-|]; [|done].
    exfalso. revert Hc. by_compute.
  - simpl. destruct (decide ("cancer_type" = c)) as [<-|Hct].
    + by rewrite decide_True.
    + by rewrite decide_False.
Qed.

(** *** The frames of the notebook are well formed *)

Lemma setitem_wf (df out : DataFrame) (c : string) (vals : list cell) :
  wf df → setitem df c vals = Ok out → wf out.
Proof.
  unfold setitem, wf. intros Hwf.
  destruct (decide (length vals = nrows df)) as [Hlen|]; [|done].
  intros [= <-]. simpl. case_bool_decide.
  - clear -Hwf Hlen. induction Hwf as [|[n v] d Hv Hd IH]; simpl; [constructor|].
    destruct (decide (n = c)); constructor; auto.
  - apply Forall_app. split; [done|]. by constructor.
Qed.

Lemma drop_wf (df out : DataFrame) (c : string) :
  wf df → drop df c = Ok out → wf out.
Proof.
  unfold drop, wf. intros Hwf. case_bool_decide; [|done]. intros [= <-]. simpl.
  rewrite Forall_forall in Hwf. apply Forall_forall.
  intros p [_ Hp]%list_elem_of_filter. by apply Hwf.
Qed.

Lemma merge_wf (left right out : DataFrame) (key : string) :
  merge left right key = Ok out → wf out.
Proof.
  unfold merge, getitem, wf.
  destruct (lookup_column key (data left)) as [lk|]; [|done].
  destruct (lookup_column key (data right)) as [rk|]; [|done].
  simpl. destruct (mergeable lk rk); [|done].
  intros [= <-]. simpl. apply Forall_app. split.
  - apply Forall_forall. intros p (q & -> & _)%list_elem_of_fmap. simpl.
    by rewrite length_take_rows, length_fmap.
  - apply Forall_forall. intros p (q & -> & _)%list_elem_of_fmap. simpl.
    by rewrite length_take_rows, length_fmap.
Qed.

(** The two frames that reach the key join hold one value per row in every
    column. *)
Lemma merge_cell_frames_wf (w : world) (labelled mutations clinical : DataFrame) :
  load_clinical w = Ok clinical →
  derive_patient_barcode labelled = Ok mutations →
  wf labelled →
  wf mutations ∧ wf clinical.
Proof.
  unfold load_clinical, derive_patient_barcode. intros Hc Hd Hwf. split.
  - apply bind_Ok_inv in Hd as (samples & _ & Hd).
    apply bind_Ok_inv in Hd as (patients & _ & Hd).
    apply bind_Ok_inv in Hd as (d0 & Hd0 & Hd1).
    eapply drop_wf; [|done]. by eapply setitem_wf.
  - apply bind_Ok_inv in Hc as (cf & _ & Hc). by eapply read_csv_wf.
Qed.

End cells.

(** ** The claims *)

Section claims.
Import Pd Os Table Notebook Sample.





(** C3. The key join is a relational inner join on [bcr_patient_barcode]:
    every pair of a mutation row and a clinical row holding the same
    barcode gives exactly one output row, every output row comes from such
    a pair, and it is the mutation row followed by the clinical row without
    its key. *)
Theorem key_join_is_inner_join (mutations clinical out : DataFrame) :
  merge_clinical mutations clinical = Ok out →
  ∃ lk rk idx,
    getitem mutations "bcr_patient_barcode" = Ok lk ∧
    getitem clinical "bcr_patient_barcode" = Ok rk ∧
    idx = inner_join_indexers lk rk ∧
    nrows out = length idx ∧
    (∀ i j k, lk !! i = Some k → rk !! j = Some k →
       ∃ n, idx !! n = Some (i, j) ∧ ∀ n', idx !! n' = Some (i, j) → n' = n) ∧
    (∀ n, n < nrows out →
       ∃ i j k, idx !! n = Some (i, j) ∧ lk !! i = Some k ∧ rk !! j = Some k) ∧
    (∀ n i j, idx !! n = Some (i, j) →
       get_row out n =
       get_row mutations i ++ get_row_except "bcr_patient_barcode" clinical j).
Proof.
  intros (lk & rk & Hlk & Hrk & Hn & Hrows)%merge_inv.
  exists lk, rk, (inner_join_indexers lk rk). unfold getitem.
  rewrite Hlk, Hrk. split_and!; try done.
  - intros i j k Hi Hj.
    assert ((i, j) ∈ inner_join_indexers lk rk) as [n Hidx]%list_elem_of_lookup
      by (apply inner_join_indexers_elem; eauto).
    exists n. split; [done|]. intros n' Hn'.
    by eapply NoDup_lookup; [apply inner_join_indexers_NoDup |..].
  - intros n Hlt. rewrite Hn in Hlt.
    apply lookup_lt_is_Some in Hlt as [[i j] Hidx].
    assert ((i, j) ∈ inner_join_indexers lk rk) as (k & ? & ?)%inner_join_indexers_elem
      by (by eapply list_elem_of_lookup_2).
    by exists i, j, k.
Qed.

Lemma key_join_is_inner_join_witness :
  ∃ out, merge_clinical one_patient_mutations dup_clinical = Ok out ∧
  ∃ lk rk idx,
    getitem one_patient_mutations "bcr_patient_barcode" = Ok lk ∧
    getitem dup_clinical "bcr_patient_barcode" = Ok rk ∧
    idx = inner_join_indexers lk rk ∧
    nrows out = length idx ∧
    (∀ i j k, lk !! i = Some k → rk !! j = Some k →
       ∃ n, idx !! n = Some (i, j) ∧ ∀ n', idx !! n' = Some (i, j) → n' = n) ∧
    (∀ n, n < nrows out →
       ∃ i j k, idx !! n = Some (i, j) ∧ lk !! i = Some k ∧ rk !! j = Some k) ∧
    (∀ n i j, idx !! n = Some (i, j) →
       get_row out n =
       get_row one_patient_mutations i ++
       get_row_except "bcr_patient_barcode" dup_clinical j).
Proof.
  eexists. split; [vm_compute; reflexivity|].
  apply (key_join_is_inner_join one_patient_mutations dup_clinical).
  vm_compute. reflexivity.
Defined.

(** C4 (as the code has it). The merged table has at most as many rows as
    the mutation table times the largest number of clinical rows sharing a
    barcode (so no more than the mutation table when no barcode repeats in
    the clinical table), and at most as many as the clinical table times
    the largest number of mutation rows sharing a barcode. *)
Theorem merged_row_count_bounds (mutations clinical out : DataFrame) :
  wf mutations → wf clinical →
  merge_clinical mutations clinical = Ok out →
  ∃ lk rk,
    getitem mutations "bcr_patient_barcode" = Ok lk ∧
    getitem clinical "bcr_patient_barcode" = Ok rk ∧
    nrows out ≤ nrows mutations * max_dup rk ∧
    (max_dup rk ≤ 1 → nrows out ≤ nrows mutations) ∧
    nrows out ≤ nrows clinical * max_dup lk.
Proof.
  intros Hwl Hwr (lk & rk & Hlk & Hrk & Hn & _)%merge_inv.
  exists lk, rk. unfold getitem. rewrite Hlk, Hrk.
  apply (wf_lookup_length _ _ _ Hwl) in Hlk.
  apply (wf_lookup_length _ _ _ Hwr) in Hrk.
  pose proof (inner_join_length_left lk rk).
  pose proof (inner_join_length_right lk rk).
  split_and!; try done; try nia.
Qed.

Lemma merged_row_count_bounds_witness :
  wf one_patient_mutations ∧ wf dup_clinical ∧
  ∃ out, merge_clinical one_patient_mutations dup_clinical = Ok out ∧
  ∃ lk rk,
    getitem one_patient_mutations "bcr_patient_barcode" = Ok lk ∧
    getitem dup_clinical "bcr_patient_barcode" = Ok rk ∧
    nrows out ≤ nrows one_patient_mutations * max_dup rk ∧
    (max_dup rk ≤ 1 → nrows out ≤ nrows one_patient_mutations) ∧
    nrows out ≤ nrows dup_clinical * max_dup lk.
Proof.
  assert (wf one_patient_mutations) as Hl by (repeat constructor).
  assert (wf dup_clinical) as Hr by (repeat constructor).
  split; [exact Hl|]. split; [exact Hr|].
  eexists. split; [vm_compute; reflexivity|].
  apply (merged_row_count_bounds one_patient_mutations dup_clinical _ Hl Hr).
  vm_compute. reflexivity.
Defined.

(** C4 as stated fails: three mutations of one patient and two clinical
    records of that patient merge into six rows, more than the three
    mutation rows and more than two clinical rows times the duplication
    factor two. *)
Lemma merged_row_count_exceeds_bounds :
  merged_frame (disk maf_one_patient labels3 clinical_dup) =
    merge_clinical one_patient_mutations dup_clinical ∧
  ∃ out rk,
    merge_clinical one_patient_mutations dup_clinical = Ok out ∧
    getitem dup_clinical "bcr_patient_barcode" = Ok rk ∧
    nrows out = 6 ∧ nrows one_patient_mutations = 3 ∧
    nrows dup_clinical = 2 ∧ max_dup rk = 2 ∧
    ¬ (nrows out ≤ nrows one_patient_mutations) ∧
    ¬ (nrows out ≤ nrows dup_clinical * max_dup rk).
Proof.
  split; [vm_compute; reflexivity|].
  eexists _, _. split; [vm_compute; reflexivity|].
  split; [vm_compute; reflexivity|].
  split_and!; try (vm_compute; reflexivity); vm_compute; lia.
Qed.

(** C5. For every sample barcode the derived patient barcode is its first
    12 characters: a prefix of the barcode of length min(12, length), so of
    length 12 exactly when the barcode has 12 characters or more. *)
Theorem patient_barcode_is_12_prefix (s : string) :
  ∃ p rest,
    parsePatientBarcode (Str s) = Ok (Str p) ∧
    s = p +:+ rest ∧
    String.length p = min 12 (String.length s) ∧
    (12 ≤ String.length s → String.length p = 12).
Proof.
  destruct (substring_prefix 12 s) as (rest & Hs & Hlen).
  exists (substring 0 12 s), rest. split_and!; try done. lia.
Qed.

Lemma patient_barcode_is_12_prefix_witness :
  ∃ p rest,
    parsePatientBarcode (Str "TCGA-02-0003-01A-01D-1490-08") = Ok (Str p) ∧
    "TCGA-02-0003-01A-01D-1490-08" = p +:+ rest ∧
    String.length p = min 12 (String.length "TCGA-02-0003-01A-01D-1490-08") ∧
    (12 ≤ String.length "TCGA-02-0003-01A-01D-1490-08" → String.length p = 12).
Proof. exact (patient_barcode_is_12_prefix "TCGA-02-0003-01A-01D-1490-08"). Defined.

(** C6. The fetch step is idempotent: when the local file is present a
    fetch cell downloads nothing and leaves the directory as it is, whatever
    the network serves; so a second run of a fetch cell changes nothing. *)
Theorem fetch_is_idempotent (net net' : network) (w : world) :
  (isfile w "pancancer_mutations.maf.gz" = true → fetch_mutations net w = Ok w) ∧
  (isfile w "pancancer_clinical.txt" = true → fetch_clinical net w = Ok w) ∧
  (∀ w', fetch_mutations net w = Ok w' → fetch_mutations net' w' = Ok w') ∧
  (∀ w', fetch_clinical net w = Ok w' → fetch_clinical net' w' = Ok w').
Proof.
  unfold fetch_mutations, fetch_clinical. split_and!.
  - by intros ->.
  - by intros ->.
  - intros w'. destruct (isfile w "pancancer_mutations.maf.gz") eqn:Hw.
    + intros [= <-]. by rewrite Hw.
    + intros Hget%isfile_after_urlretrieve.
      change (isfile w' "pancancer_mutations.maf.gz") with
        (isfile w' "./pancancer_mutations.maf.gz"). by rewrite Hget.
  - intros w'. destruct (isfile w "pancancer_clinical.txt") eqn:Hw.
    + intros [= <-]. by rewrite Hw.
    + intros Hget%isfile_after_urlretrieve.
      change (isfile w' "pancancer_clinical.txt") with
        (isfile w' "./pancancer_clinical.txt"). by rewrite Hget.
Qed.

Lemma fetch_is_idempotent_witness :
  fetch_mutations online (disk maf_one_patient labels3 clinical_dup) =
    Ok (disk maf_one_patient labels3 clinical_dup) ∧
  fetch_clinical online (disk maf_one_patient labels3 clinical_dup) =
    Ok (disk maf_one_patient labels3 clinical_dup) ∧
  ∃ w', fetch_mutations online (World ∅ []) = Ok w' ∧
        retrieved w' = [mutations_url] ∧
        fetch_mutations online w' = Ok w'.
Proof.
  pose proof (fetch_is_idempotent online online
                (disk maf_one_patient labels3 clinical_dup)) as (Hm & Hc & _ & _).
  pose proof (fetch_is_idempotent online online (World ∅ [])) as (_ & _ & Hm' & _).
  split; [apply Hm; vm_compute; reflexivity|].
  split; [apply Hc; vm_compute; reflexivity|].
  eexists. split; [vm_compute; reflexivity|].
  split; [reflexivity|]. apply Hm'. vm_compute. reflexivity.
Defined.

(** C7. The mutation loader raises when any of the five expected columns
    is missing from the header of the source file; when all five are there
    it returns a frame with exactly those five columns, one value per data
    line, each column holding the field of that name.  (The source file is
    a [table_file]: its data lines have one field per header name.) *)
Theorem mutation_loader_checks_columns (w : world) (f : table_file) :
  read_file w "pancancer_mutations.maf.gz" = Ok f →
  ((∃ c, c ∈ mutation_usecols ∧ c ∉ header f) →
     load_mutations w = Raise ValueError) ∧
  ((∀ c, c ∈ mutation_usecols → c ∈ header f) →
     ∃ df, load_mutations w = Ok df ∧
       columns df ≡ₚ mutation_usecols ∧
       nrows df = length (records f) ∧
       ∀ c, c ∈ mutation_usecols →
         ∃ j, index_of c (header f) = Some j ∧
              lookup_column c (data df) = Some (field_column j (records f))).
Proof.
  intros Hf. unfold load_mutations. rewrite Hf.
  change (Ok f ≫= _) with (read_csv f (Some mutation_usecols)). split.
  - apply read_csv_usecols_Raise, mutation_usecols_plain.
  - intros Hall.
    pose proof (read_csv_usecols_Ok f _ mutation_usecols_plain Hall) as Hread.
    rewrite Hread. eexists. split; [done|]. split_and!.
    + apply NoDup_Permutation.
      * apply (read_csv_usecols_NoDup f _ mutation_usecols_plain _ Hread).
      * by_compute.
      * intros c. apply (read_csv_usecols_columns f _ mutation_usecols_plain _ c Hread).
    + done.
    + intros c Hc.
      rewrite (read_csv_usecols_lookup f _ mutation_usecols_plain _ c Hread).
      rewrite bool_decide_true by done.
      apply Hall, index_of_is_Some in Hc as [j Hj]. exists j. by rewrite Hj.
Qed.

Lemma mutation_loader_checks_columns_witness :
  load_mutations (disk maf_no_chromosome labels3 clinical2) = Raise ValueError ∧
  ∃ df, load_mutations (disk maf3 labels3 clinical2) = Ok df ∧
    columns df ≡ₚ mutation_usecols ∧
    nrows df = length (records maf3) ∧
    ∀ c, c ∈ mutation_usecols →
      ∃ j, index_of c (header maf3) = Some j ∧
           lookup_column c (data df) = Some (field_column j (records maf3)).
Proof.
  split.
  - apply (mutation_loader_checks_columns
             (disk maf_no_chromosome labels3 clinical2) maf_no_chromosome);
      [vm_compute; reflexivity|].
    exists "Chromosome". split; by_compute.
  - apply (mutation_loader_checks_columns (disk maf3 labels3 clinical2) maf3);
      [vm_compute; reflexivity|].
    apply Forall_forall. by_compute.
Defined.

(** C8. In every merged table that the data cells produce there is no
    [Tumor_Sample_Barcode] column and there is a [bcr_patient_barcode]
    column; every merged row stems from one line i of the mutations file
    and line i of the labels file, holds the first 12 characters of that
    line's sample barcode as its patient barcode, and carries the line's
    other four mutation fields, its row number and its label (the one field
    of the labels line) unchanged. *)
Theorem sample_barcode_dropped_rest_kept (w : world) (merged : DataFrame) :
  merged_frame w = Ok merged →
  ∃ mf lf,
    read_file w "pancancer_mutations.maf.gz" = Ok mf ∧
    read_file w "labels.txt" = Ok lf ∧
    ("Tumor_Sample_Barcode" ∉ columns merged) ∧
    "bcr_patient_barcode" ∈ columns merged ∧
    ∀ n, n < nrows merged →
      ∃ i mrec lrec s,
        records mf !! i = Some mrec ∧
        records lf !! i = Some lrec ∧
        field_of mf "Tumor_Sample_Barcode" mrec = Some (Str s) ∧
        cell_of merged "bcr_patient_barcode" n = Some (Str (substring 0 12 s)) ∧
        cell_of merged "row" n = Some (Int (Z.of_nat i)) ∧
        cell_of merged "cancer_type" n = Some (at_pos lrec 0) ∧
        ∀ c, c ∈ ["Hugo_Symbol"; "Chromosome";
                  "Variant_Classification"; "Variant_Type"] →
          ∃ x, field_of mf c mrec = Some x ∧ cell_of merged c n = Some x.
Proof.
  unfold merged_frame, load_mutations, load_labels, load_clinical.
  intros Hrun.
  apply bind_Ok_inv in Hrun as (m0 & Hload & Hrun).
  apply bind_Ok_inv in Hload as (mf & Hmf & Hm0).
  apply bind_Ok_inv in Hrun as (m1 & Hm1 & Hrun).
  apply bind_Ok_inv in Hrun as (l1 & Hlab & Hrun).
  apply bind_Ok_inv in Hlab as (lf & Hlf & Hlab).
  apply bind_Ok_inv in Hlab as (l0' & Hl0' & Hlab).
  apply bind_Ok_inv in Hlab as (l0 & Hl0 & Hl1).
  apply bind_Ok_inv in Hrun as (j1 & Hj1 & Hrun).
  apply bind_Ok_inv in Hrun as (cl & Hclin & Hrun).
  apply bind_Ok_inv in Hclin as (cf & Hcf & Hcl).
  apply bind_Ok_inv in Hrun as (d1 & Hder & Hmerge).
  unfold derive_patient_barcode in Hder.
  apply bind_Ok_inv in Hder as (samples & Hs & Hder).
  apply bind_Ok_inv in Hder as (patients & Hp & Hder).
  apply bind_Ok_inv in Hder as (d0 & Hd0 & Hd1).
  exists mf, lf. split; [done|]. split; [done|].
  destruct (labelled_mutations_lookup _ _ _ _ _ _ _ _ Hm0 Hm1 Hl0' Hl0 Hl1 Hj1)
    as [Nj1 Lj1].
  set (N := length (records mf)) in *. set (M := length (records lf)) in *.
  set (K := min N M) in *.
  pose proof (λ c, read_csv_usecols_lookup cf _ clinical_usecols_plain cl c Hcl) as Lcl.
  pose proof (λ c, read_csv_usecols_columns cf _ clinical_usecols_plain cl c Hcl) as Ccl.
  apply setitem_inv in Hd0 as (_ & _ & Ld0).
  apply drop_inv in Hd1 as (_ & Ld1).
  (* the sample barcodes that the derivation reads *)
  unfold getitem in Hs. rewrite Lj1, decide_False in Hs by done.
  rewrite bool_decide_true in Hs by by_compute.
  destruct (index_of "Tumor_Sample_Barcode" (header mf)) as [jt|] eqn:Hjt; [|done].
  simpl in Hs. injection Hs as <-.
  apply apply_parsePatientBarcode_inv in Hp as [Hplen Hpat].
  rewrite length_take_rows, length_seq in Hplen.
  (* the key join shares no name but the key *)
  assert (∀ c, c ∈ columns d1 → c ∈ columns cl → c = "bcr_patient_barcode") as Hdisj.
  { intros c [v Hv]%lookup_column_is_Some Hc%Ccl.
    destruct (decide (c = "bcr_patient_barcode")) as [|Hne]; [done|]. exfalso.
    rewrite Ld1 in Hv. destruct (decide (c = "Tumor_Sample_Barcode")); [done|].
    rewrite Ld0, decide_False, Lj1 in Hv by done.
    assert (c = "row" ∨ c ∈ mutation_usecols ∨ c = "cancer_type") as Hleft.
    { destruct (decide (c = "row")); [by left|].
      case_bool_decide; [by right; left|].
      destruct (decide (c = "cancer_type")); [by right; right | done]. }
    assert (Forall (λ c, c ≠ "bcr_patient_barcode" →
                      ¬ (c = "row" ∨ c ∈ mutation_usecols ∨ c = "cancer_type"))
                   clinical_usecols) as Hnone by by_compute.
    rewrite Forall_forall in Hnone. by apply (Hnone c Hc Hne). }
  destruct (merge_lookup _ _ _ _ Hmerge Hdisj) as (lk & rk & Hlk & Hrk & Nm & Lm).
  rewrite Ld1, decide_False, Ld0, decide_True in Hlk by done. injection Hlk as <-.
  set (idx := inner_join_indexers patients rk) in *.
  assert (∀ c, c ≠ "Tumor_Sample_Barcode" → c ≠ "bcr_patient_barcode" →
            lookup_column c (data merged) =
            match lookup_column c (data j1) with
            | Some v => Some (take_rows idx.*1 v)
            | None => take_rows idx.*2 <$> lookup_column c (data cl)
            end) as Lkept.
  { intros c Hc1 Hc2. rewrite Lm, Ld1, decide_False, Ld0, decide_False by done.
    destruct (lookup_column c (data j1)); [done|]. by rewrite decide_False. }
  split_and!.
  - apply lookup_column_None. rewrite Lm, Ld1, decide_True by done.
    rewrite decide_False by done. rewrite Lcl.
    by rewrite bool_decide_false by by_compute.
  - apply lookup_column_is_Some.
    rewrite Lm, Ld1, decide_False, Ld0, decide_True by done. by eexists.
  - intros n Hn. rewrite Nm in Hn.
    apply lookup_lt_is_Some in Hn as [[i j] Hidx].
    assert (idx.*1 !! n = Some i) as Hidx1 by (by rewrite list_lookup_fmap, Hidx).
    assert ((i, j) ∈ idx) as (k & Hpi & _)%inner_join_indexers_elem
      by (by eapply list_elem_of_lookup_2).
    assert (i < K) as HiK by (apply lookup_lt_Some in Hpi; lia).
    destruct (lookup_lt_is_Some_2 (records mf) i) as [mrec Hmrec]; [fold N; lia|].
    destruct (lookup_lt_is_Some_2 (records lf) i) as [lrec Hlrec]; [fold M; lia|].
    assert (∀ jc, take_rows idx.*1 (take_rows (seq 0 K) (field_column jc (records mf))) !! n
              = Some (at_pos mrec jc)) as Hfield.
    { intros jc. rewrite (take_rows_seq_lookup _ _ _ _ _ Hidx1 HiK). f_equal.
      by apply at_pos_lookup, field_column_lookup. }
    destruct (Hpat i (at_pos mrec jt)) as (s & Hstr & Hpis).
    { rewrite (take_rows_lookup _ _ _ i) by (by rewrite lookup_seq_lt).
      f_equal. by apply at_pos_lookup, field_column_lookup. }
    exists i, mrec, lrec, s. split_and!; try done.
    + unfold field_of. rewrite Hjt. simpl. by rewrite Hstr.
    + unfold cell_of. rewrite Lm, Ld1, decide_False, Ld0, decide_True by done.
      simpl. rewrite (take_rows_lookup _ _ _ _ Hidx1). f_equal.
      by apply at_pos_lookup.
    + unfold cell_of. rewrite Lkept, Lj1, decide_True by done. simpl.
      rewrite (take_rows_seq_lookup _ _ _ _ _ Hidx1 HiK). f_equal.
      apply at_pos_lookup, arange_lookup. lia.
    + unfold cell_of. rewrite Lkept, Lj1, decide_False by done.
      rewrite bool_decide_false by by_compute. rewrite decide_True by done.
      simpl. rewrite (take_rows_seq_lookup _ _ _ _ _ Hidx1 HiK). f_equal.
      by apply at_pos_lookup, field_column_lookup.
    + intros c Hc.
      assert (c ∈ mutation_usecols ∧ c ≠ "row" ∧ c ≠ "Tumor_Sample_Barcode" ∧
              c ≠ "bcr_patient_barcode") as (Hu & Hc1 & Hc2 & Hc3).
      { assert (Forall (λ c, c ∈ mutation_usecols ∧ c ≠ "row" ∧
                             c ≠ "Tumor_Sample_Barcode" ∧ c ≠ "bcr_patient_barcode")
                  ["Hugo_Symbol"; "Chromosome";
                   "Variant_Classification"; "Variant_Type"]) as Hfour by by_compute.
        rewrite Forall_forall in Hfour. by apply Hfour. }
      apply read_csv_usecols_inv in Hm0 as [Hall _]; [|apply mutation_usecols_plain].
      destruct (proj2 (index_of_is_Some c (header mf)) (Hall c Hu)) as [jc Hjc].
      exists (at_pos mrec jc). unfold field_of, cell_of.
      rewrite Hjc, Lkept, Lj1, decide_False by done.
      rewrite bool_decide_true, Hjc by done. simpl. split; [done | apply Hfield].
Qed.

Lemma sample_barcode_dropped_rest_kept_witness :
  ∃ merged, merged_frame (disk maf3 labels3 clinical2) = Ok merged ∧
  ∃ mf lf,
    read_file (disk maf3 labels3 clinical2) "pancancer_mutations.maf.gz" = Ok mf ∧
    read_file (disk maf3 labels3 clinical2) "labels.txt" = Ok lf ∧
    ("Tumor_Sample_Barcode" ∉ columns merged) ∧
    "bcr_patient_barcode" ∈ columns merged ∧
    ∀ n, n < nrows merged →
      ∃ i mrec lrec s,
        records mf !! i = Some mrec ∧
        records lf !! i = Some lrec ∧
        field_of mf "Tumor_Sample_Barcode" mrec = Some (Str s) ∧
        cell_of merged "bcr_patient_barcode" n = Some (Str (substring 0 12 s)) ∧
        cell_of merged "row" n = Some (Int (Z.of_nat i)) ∧
        cell_of merged "cancer_type" n = Some (at_pos lrec 0) ∧
        ∀ c, c ∈ ["Hugo_Symbol"; "Chromosome";
                  "Variant_Classification"; "Variant_Type"] →
          ∃ x, field_of mf c mrec = Some x ∧ cell_of merged c n = Some x.
Proof.
  eexists. split; [vm_compute; reflexivity|].
  apply (sample_barcode_dropped_rest_kept (disk maf3 labels3 clinical2)).
  vm_compute. reflexivity.
Defined.

(** C9. A sample barcode shorter than 12 characters is returned whole, the
    empty string included, and the derivation raises on no string. *)
Theorem short_barcode_returned_whole (s : string) :
  String.length s < 12 →
  parsePatientBarcode (Str s) = Ok (Str s) ∧
  parsePatientBarcode (Str "") = Ok (Str "") ∧
  ∀ s' : string, ¬ raises (parsePatientBarcode (Str s')).
Proof.
  intros Hlen. split; [|split; [done|]].
  - simpl. rewrite substring_short by lia. done.
  - intros s' Hr. exact Hr.
Qed.

Lemma short_barcode_returned_whole_witness :
  String.length "TCGA-02" < 12 ∧
  parsePatientBarcode (Str "TCGA-02") = Ok (Str "TCGA-02") ∧
  parsePatientBarcode (Str "") = Ok (Str "") ∧
  ∀ s' : string, ¬ raises (parsePatientBarcode (Str s')).
Proof.
  assert (String.length "TCGA-02" < 12) as H by (simpl; lia).
  split; [exact H | exact (short_barcode_returned_whole "TCGA-02" H)].
Defined.

(** C10. The merged table is a function of the three input files alone:
    two runs that find the same mutations, labels and clinical files
    download nothing, whatever the network serves, and compute the same
    merged frame, whatever else is in the directory; and the write cell,
    given that frame, stores the same output file in both directories,
    the serialised merged frame. *)
Theorem merged_output_is_deterministic (net1 net2 : network) (w1 w2 : world) :
  (∀ p, p ∈ ["pancancer_mutations.maf.gz"; "labels.txt"; "pancancer_clinical.txt"] →
     ∃ c, read_file w1 p = Ok c ∧ read_file w2 p = Ok c) →
  fetch_mutations net1 w1 ≫= fetch_clinical net1 = Ok w1 ∧
  fetch_mutations net2 w2 ≫= fetch_clinical net2 = Ok w2 ∧
  merged_frame w1 = merged_frame w2 ∧
  ∀ merged w1' w2',
    merged_frame w1 = Ok merged →
    write_merged merged w1 = Ok w1' → write_merged merged w2 = Ok w2' →
    fs w1' !! "pancancer_mutations_merged.csv" =
    fs w2' !! "pancancer_mutations_merged.csv" ∧
    fs w1' !! "pancancer_mutations_merged.csv" = Some (File (to_csv merged)).
Proof.
  intros Hsame.
  destruct (Hsame "pancancer_mutations.maf.gz") as (cm & Hm1 & Hm2); [by_compute|].
  destruct (Hsame "labels.txt") as (cl & Hl1 & Hl2); [by_compute|].
  destruct (Hsame "pancancer_clinical.txt") as (cc & Hc1 & Hc2); [by_compute|].
  split_and!.
  - unfold fetch_mutations, fetch_clinical.
    rewrite (read_file_isfile _ _ _ Hm1). simpl.
    by rewrite (read_file_isfile _ _ _ Hc1).
  - unfold fetch_mutations, fetch_clinical.
    rewrite (read_file_isfile _ _ _ Hm2). simpl.
    by rewrite (read_file_isfile _ _ _ Hc2).
  - unfold merged_frame, load_mutations, load_labels, load_clinical.
    by rewrite Hm1, Hm2, Hl1, Hl2, Hc1, Hc2.
  - intros merged w1' w2' _. unfold write_merged, write_file. intros Hw1 Hw2.
    assert (fs w1' !! "pancancer_mutations_merged.csv" = Some (File (to_csv merged))) as H1.
    { destruct (fs w1 !! normpath "pancancer_mutations_merged.csv") as [[?|]|];
        try done; injection Hw1 as <-; apply lookup_insert_eq. }
    assert (fs w2' !! "pancancer_mutations_merged.csv" = Some (File (to_csv merged))) as H2.
    { destruct (fs w2 !! normpath "pancancer_mutations_merged.csv") as [[?|]|];
        try done; injection Hw2 as <-; apply lookup_insert_eq. }
    split; [by rewrite H1, H2 | done].
Qed.

Lemma merged_output_is_deterministic_witness :
  (∀ p, p ∈ ["pancancer_mutations.maf.gz"; "labels.txt"; "pancancer_clinical.txt"] →
     ∃ c, read_file (disk maf3 labels3 clinical2) p = Ok c ∧
          read_file (used_disk maf3 labels3 clinical2) p = Ok c) ∧
  fetch_mutations offline (disk maf3 labels3 clinical2) ≫= fetch_clinical offline =
    Ok (disk maf3 labels3 clinical2) ∧
  fetch_mutations online (used_disk maf3 labels3 clinical2) ≫= fetch_clinical online =
    Ok (used_disk maf3 labels3 clinical2) ∧
  merged_frame (disk maf3 labels3 clinical2) =
    merged_frame (used_disk maf3 labels3 clinical2) ∧
  ∀ merged w1' w2',
    merged_frame (disk maf3 labels3 clinical2) = Ok merged →
    write_merged merged (disk maf3 labels3 clinical2) = Ok w1' →
    write_merged merged (used_disk maf3 labels3 clinical2) = Ok w2' →
    fs w1' !! "pancancer_mutations_merged.csv" =
    fs w2' !! "pancancer_mutations_merged.csv" ∧
    fs w1' !! "pancancer_mutations_merged.csv" = Some (File (to_csv merged)).
Proof.
  assert (∀ p, p ∈ ["pancancer_mutations.maf.gz"; "labels.txt"; "pancancer_clinical.txt"] →
     ∃ c, read_file (disk maf3 labels3 clinical2) p = Ok c ∧
          read_file (used_disk maf3 labels3 clinical2) p = Ok c) as H.
  { apply Forall_forall.
    repeat (constructor; [eexists; split; vm_compute; reflexivity|]). constructor. }
  split; [exact H|].
  exact (merged_output_is_deterministic offline online
           (disk maf3 labels3 clinical2) (used_disk maf3 labels3 clinical2) H).
Defined.

End claims.

(** ** Further properties of the cells *)

Section further.
Import Pd Os Table Notebook Sample Shape Cases.

Lemma bind_Ok {A B} (a : A) (k : A → result B) : Ok a ≫= k = k a.
Proof. done. Qed.

Lemma bind_Raise {A B} (e : exn) (k : A → result B) : Raise e ≫= k = Raise e.
Proof. done. Qed.

Lemma substring_app_exact (n : nat) (p rest : string) :
  String.length p = n → substring 0 n (p +:+ rest) = p.
Proof.
  revert p. induction n as [|n IH]; intros [|a p]; simpl; try done.
  - intros _. by destruct rest.
  - intros [= Hlen]. f_equal. by apply IH.
Qed.

(** X1. A sample barcode that starts with a 12-character patient barcode
    has that patient barcode as its key, whatever follows; so all samples
    of a patient share one key, and deriving the key of a key returns it. *)
Theorem patient_key_of_sample (p rest : string) :
  String.length p = 12 →
  parsePatientBarcode (Str (p +:+ rest)) = Ok (Str p) ∧
  parsePatientBarcode (Str p) = Ok (Str p) ∧
  ∀ rest', parsePatientBarcode (Str (p +:+ rest')) =
           parsePatientBarcode (Str (p +:+ rest)).
Proof.
  intros Hlen. unfold parsePatientBarcode. split_and!.
  - by rewrite substring_app_exact.
  - rewrite substring_short; [done | lia].
  - intros rest'. by rewrite !substring_app_exact.
Qed.

Lemma patient_key_of_sample_witness :
  String.length "TCGA-02-0003" = 12 ∧
  parsePatientBarcode (Str ("TCGA-02-0003" +:+ "-01A-01D-1490-08")) =
    Ok (Str "TCGA-02-0003") ∧
  parsePatientBarcode (Str "TCGA-02-0003") = Ok (Str "TCGA-02-0003") ∧
  ∀ rest', parsePatientBarcode (Str ("TCGA-02-0003" +:+ rest')) =
           parsePatientBarcode (Str ("TCGA-02-0003" +:+ "-01A-01D-1490-08")).
Proof.
  split; [reflexivity|].
  exact (patient_key_of_sample "TCGA-02-0003" "-01A-01D-1490-08" eq_refl).
Defined.

Lemma replace_column_names c vals (d : list (string * list cell)) :
  (replace_column c vals d).*1 = d.*1.
Proof.
  induction d as [|[n v] d IH]; simpl; [done|].
  destruct (decide (n = c)); simpl; [done | by f_equal].
Qed.

Lemma replace_column_same c vals (d : list (string * list cell)) :
  lookup_column c d = Some vals → replace_column c vals d = d.
Proof.
  induction d as [|[n v] d IH]; simpl; [done|].
  destruct (decide (n = c)); [by intros [= ->] | intros ?; by rewrite IH].
Qed.

(** X2. Setting the index twice is the same as setting it once: run on its
    own result, the cell returns the frame as it is. *)
Theorem set_row_again (df m : DataFrame) :
  set_row df = Ok m → set_row m = Ok m.
Proof.
  intros Hset. unfold set_row in *.
  destruct (setitem_inv _ _ _ _ Hset) as (_ & Hn & Hcol).
  specialize (Hcol "row"). rewrite decide_True in Hcol by done.
  rewrite <- Hn in Hcol. unfold setitem.
  rewrite decide_True by apply length_arange.
  rewrite bool_decide_true.
  - rewrite replace_column_same by done. by destruct m.
  - apply lookup_column_is_Some. by eexists.
Qed.

Lemma set_row_again_witness :
  ∃ m, set_row two_mutations = Ok m ∧ set_row m = Ok m.
Proof.
  eexists. split; [vm_compute; reflexivity|].
  apply (set_row_again two_mutations). vm_compute. reflexivity.
Defined.

Lemma apply_parsePatientBarcode_Ok (v : list cell) :
  Forall (λ x, ∃ s, x = Str s) v →
  apply parsePatientBarcode v = Ok (map patient_key v).
Proof.
  unfold apply. induction 1 as [|x v [s ->] _ IH]; [done|].
  simpl. by rewrite IH.
Qed.

Lemma apply_parsePatientBarcode_Raise (v : list cell) :
  (∃ x, x ∈ v ∧ ∀ s, x ≠ Str s) →
  apply parsePatientBarcode v = Raise TypeError.
Proof.
  unfold apply. intros (x & Hin & Hx).
  induction v as [|y v IH]; [by apply elem_of_nil in Hin|].
  simpl. destruct y as [|s|z]; try done. simpl.
  apply elem_of_cons in Hin as [->|Hin]; [by destruct (Hx s)|].
  by rewrite IH.
Qed.

Lemma drop_Ok (df : DataFrame) (c : string) :
  c ∈ columns df → drop df c = Ok (Frame (nrows df) (without c (data df))).
Proof. intros Hc. unfold drop. by rewrite bool_decide_true. Qed.

(** X3. What the derivation cell does with a frame: without a
    [Tumor_Sample_Barcode] column it raises [KeyError]; with a sample
    barcode that is not a string (a missing one) it raises [TypeError];
    when all are strings it returns the frame with the 12-character
    prefixes as [bcr_patient_barcode], the sample barcodes gone, and every
    other column as it was. *)
Theorem derive_patient_barcode_outcomes (mutations : DataFrame) :
  (lookup_column "Tumor_Sample_Barcode" (data mutations) = None →
   derive_patient_barcode mutations = Raise KeyError) ∧
  ∀ samples,
    lookup_column "Tumor_Sample_Barcode" (data mutations) = Some samples →
    ((∃ x, x ∈ samples ∧ ∀ s, x ≠ Str s) →
     derive_patient_barcode mutations = Raise TypeError) ∧
    (Forall (λ x, ∃ s, x = Str s) samples →
     length samples = nrows mutations →
     ∃ out, derive_patient_barcode mutations = Ok out ∧
       nrows out = nrows mutations ∧
       lookup_column "bcr_patient_barcode" (data out) =
         Some (map patient_key samples) ∧
       lookup_column "Tumor_Sample_Barcode" (data out) = None ∧
       ∀ c, c ≠ "bcr_patient_barcode" → c ≠ "Tumor_Sample_Barcode" →
         lookup_column c (data out) = lookup_column c (data mutations)).
Proof.
  unfold derive_patient_barcode, getitem. split.
  - by intros ->.
  - intros samples Hs. rewrite Hs, bind_Ok. split.
    + intros Hbad. by rewrite apply_parsePatientBarcode_Raise.
    + intros Hstr Hlen. rewrite apply_parsePatientBarcode_Ok, bind_Ok by done.
      destruct (setitem_Ok mutations "bcr_patient_barcode" (map patient_key samples))
        as (d0 & Hd0 & Hn0 & Hcol0); [by rewrite length_map|].
      rewrite Hd0, bind_Ok.
      assert ("Tumor_Sample_Barcode" ∈ columns d0) as Hin.
      { apply lookup_column_is_Some.
        rewrite Hcol0, decide_False, Hs by done. by eexists. }
      rewrite (drop_Ok _ _ Hin). eexists. split; [done|]. simpl.
      unfold without. split_and!.
      * done.
      * by rewrite lookup_column_filter_ne, decide_False, Hcol0, decide_True.
      * by rewrite lookup_column_filter_ne, decide_True.
      * intros c Hc1 Hc2.
        by rewrite lookup_column_filter_ne, decide_False, Hcol0, decide_False.
Qed.

Lemma derive_patient_barcode_outcomes_witness :
  ∃ samples out,
    lookup_column "Tumor_Sample_Barcode" (data two_mutations) = Some samples ∧
    derive_patient_barcode two_mutations = Ok out ∧
    nrows out = nrows two_mutations ∧
    lookup_column "bcr_patient_barcode" (data out) =
      Some (map patient_key samples) ∧
    lookup_column "Tumor_Sample_Barcode" (data out) = None ∧
    ∀ c, c ≠ "bcr_patient_barcode" → c ≠ "Tumor_Sample_Barcode" →
      lookup_column c (data out) = lookup_column c (data two_mutations).
Proof.
  pose proof (derive_patient_barcode_outcomes two_mutations) as [_ H].
  eexists. specialize (H _ eq_refl) as [_ H].
  destruct H as (out & Hout); [|reflexivity|].
  - repeat constructor; by eexists.
  - exists out. split; [reflexivity | exact Hout].
Defined.

(** X4. The derivation cell cannot be run twice: on its own result it
    finds no [Tumor_Sample_Barcode] column and raises [KeyError]. *)
Theorem derive_patient_barcode_again (mutations out : DataFrame) :
  derive_patient_barcode mutations = Ok out →
  derive_patient_barcode out = Raise KeyError.
Proof.
  intros Hd. unfold derive_patient_barcode in Hd.
  apply bind_Ok_inv in Hd as (samples & _ & Hd).
  apply bind_Ok_inv in Hd as (patients & _ & Hd).
  apply bind_Ok_inv in Hd as (d0 & _ & Hdrop).
  apply drop_inv in Hdrop as [_ Hcol].
  unfold derive_patient_barcode, getitem. by rewrite Hcol, decide_True.
Qed.

Lemma derive_patient_barcode_again_witness :
  ∃ out, derive_patient_barcode two_mutations = Ok out ∧
         derive_patient_barcode out = Raise KeyError.
Proof.
  eexists. split; [vm_compute; reflexivity|].
  apply (derive_patient_barcode_again two_mutations). vm_compute. reflexivity.
Defined.

Lemma length_mangle_dupe_cols (seen hdr : list string) :
  length (mangle_dupe_cols seen hdr) = length hdr.
Proof.
  revert seen. induction hdr as [|h hdr IH]; intros seen; simpl; [done|].
  by rewrite IH.
Qed.

Lemma length_select_all (j : nat) (names : list string) recs :
  length (select_columns (λ _, true) j names recs) = length names.
Proof.
  revert j. induction names as [|n names IH]; intros j; simpl; [done|].
  by rewrite IH.
Qed.

Lemma setitem_fresh (df : DataFrame) (c : string) (vals : list cell) :
  length vals = nrows df → c ∉ columns df →
  setitem df c vals = Ok (Frame (nrows df) (data df ++ [(c, vals)])).
Proof.
  intros Hlen Hc. unfold setitem.
  by rewrite decide_True, bool_decide_false.
Qed.

Lemma set_row_fresh (df : DataFrame) :
  "row" ∉ columns df →
  set_row df = Ok (Frame (nrows df) (data df ++ [("row", arange (nrows df))])).
Proof. intros Hc. apply setitem_fresh; [apply length_arange | done]. Qed.

Lemma load_labels_Ok (w : world) (f : table_file) :
  read_file w "labels.txt" = Ok f →
  length (header f) = 1 →
  load_labels w =
  Ok (Frame (length (records f))
        [("cancer_type", field_column 0 (records f));
         ("row", arange (length (records f)))]).
Proof.
  intros Hf Hone. unfold load_labels. rewrite Hf, bind_Ok.
  unfold read_csv. rewrite bind_Ok.
  destruct (header f) as [|h [|h' hdr]]; try done.
  simpl. rewrite set_row_fresh; [done | by_compute].
Qed.

Lemma load_labels_Raise (w : world) (f : table_file) :
  read_file w "labels.txt" = Ok f →
  length (header f) ≠ 1 →
  load_labels w = Raise ValueError.
Proof.
  intros Hf Hone. unfold load_labels. rewrite Hf, bind_Ok.
  unfold read_csv. rewrite bind_Ok. unfold set_columns. simpl.
  rewrite length_select_all, length_mangle_dupe_cols.
  by rewrite decide_False by (intros ?; by apply Hone).
Qed.

(** X5. The label loader takes the first line of the file as a header and
    never as a label. When that header has exactly one field the loader
    returns one label per data line, the one field of the line, under
    the name [cancer_type], with the row numbers 0..M-1; with any other
    number of fields the renaming raises [ValueError]. *)
Theorem load_labels_outcomes (w : world) (f : table_file) :
  read_file w "labels.txt" = Ok f →
  (length (header f) ≠ 1 → load_labels w = Raise ValueError) ∧
  (length (header f) = 1 →
   load_labels w =
   Ok (Frame (length (records f))
         [("cancer_type", field_column 0 (records f));
          ("row", arange (length (records f)))])).
Proof.
  intros Hf. split; [by apply load_labels_Raise | by apply load_labels_Ok].
Qed.

Lemma load_labels_outcomes_witness :
  load_labels (disk maf3 labels_two_columns clinical2) = Raise ValueError ∧
  load_labels (disk maf3 labels3 clinical2) =
    Ok (Frame (length (records labels3))
          [("cancer_type", field_column 0 (records labels3));
           ("row", arange (length (records labels3)))]).
Proof.
  split.
  - apply (load_labels_outcomes (disk maf3 labels_two_columns clinical2)
             labels_two_columns); [vm_compute; reflexivity | simpl; lia].
  - apply (load_labels_outcomes (disk maf3 labels3 clinical2) labels3);
      [vm_compute; reflexivity | reflexivity].
Defined.

(** X6. The clinical loader raises when any of its nine expected columns is
    missing from the header of the clinical file; when all nine are there
    it returns a frame with exactly those nine columns, one value per data
    line, each column holding the field of that name. *)
Theorem clinical_loader_checks_columns (w : world) (f : table_file) :
  read_file w "pancancer_clinical.txt" = Ok f →
  ((∃ c, c ∈ clinical_usecols ∧ c ∉ header f) →
     load_clinical w = Raise ValueError) ∧
  ((∀ c, c ∈ clinical_usecols → c ∈ header f) →
     ∃ df, load_clinical w = Ok df ∧
       columns df ≡ₚ clinical_usecols ∧
       nrows df = length (records f) ∧
       ∀ c, c ∈ clinical_usecols →
         ∃ j, index_of c (header f) = Some j ∧
              lookup_column c (data df) = Some (field_column j (records f))).
Proof.
  intros Hf. unfold load_clinical. rewrite Hf, bind_Ok. split.
  - apply read_csv_usecols_Raise, clinical_usecols_plain.
  - intros Hall.
    pose proof (read_csv_usecols_Ok f _ clinical_usecols_plain Hall) as Hread.
    rewrite Hread. eexists. split; [done|]. split_and!.
    + apply NoDup_Permutation.
      * apply (read_csv_usecols_NoDup f _ clinical_usecols_plain _ Hread).
      * by_compute.
      * intros c. apply (read_csv_usecols_columns f _ clinical_usecols_plain _ c Hread).
    + done.
    + intros c Hc.
      rewrite (read_csv_usecols_lookup f _ clinical_usecols_plain _ c Hread).
      rewrite bool_decide_true by done.
      apply Hall, index_of_is_Some in Hc as [j Hj]. exists j. by rewrite Hj.
Qed.

Lemma clinical_loader_checks_columns_witness :
  load_clinical (disk maf3 labels3 clinical_no_weight) = Raise ValueError ∧
  ∃ df, load_clinical (disk maf3 labels3 clinical2) = Ok df ∧
    columns df ≡ₚ clinical_usecols ∧
    nrows df = length (records clinical2) ∧
    ∀ c, c ∈ clinical_usecols →
      ∃ j, index_of c (header clinical2) = Some j ∧
           lookup_column c (data df) = Some (field_column j (records clinical2)).
Proof.
  split.
  - apply (clinical_loader_checks_columns
             (disk maf3 labels3 clinical_no_weight) clinical_no_weight);
      [vm_compute; reflexivity|].
    exists "weight". split; by_compute.
  - apply (clinical_loader_checks_columns (disk maf3 labels3 clinical2) clinical2);
      [vm_compute; reflexivity|].
    apply Forall_forall. by_compute.
Defined.

Lemma isfile_lookup (w : world) (p : string) :
  isfile w p = true ↔ ∃ c, fs w !! normpath p = Some (File c).
Proof.
  unfold isfile. destruct (fs w !! normpath p) as [[c|]|].
  - split; [by exists c | done].
  - split; [done | by intros [? ?]].
  - split; [done | by intros [? ?]].
Qed.

Lemma fetch_mutations_inv (net : network) (w w1 : world) :
  fetch_mutations net w = Ok w1 →
  (isfile w "pancancer_mutations.maf.gz" = true ∧ w1 = w) ∨
  (isfile w "pancancer_mutations.maf.gz" = false ∧
   ∃ c, net mutations_url = Some c ∧
     w1 = World (<["pancancer_mutations.maf.gz" := File c]> (fs w))
                (retrieved w ++ [mutations_url])).
Proof.
  unfold fetch_mutations, urlretrieve.
  destruct (isfile w "pancancer_mutations.maf.gz"); [intros [= <-]; by left|].
  destruct (net mutations_url) as [c|]; [|done].
  change (normpath "./pancancer_mutations.maf.gz") with "pancancer_mutations.maf.gz".
  destruct (fs w !! "pancancer_mutations.maf.gz") as [[?|]|]; try done;
    intros [= <-]; right; split; try done; by exists c.
Qed.

Lemma fetch_clinical_inv (net : network) (w w1 : world) :
  fetch_clinical net w = Ok w1 →
  (isfile w "pancancer_clinical.txt" = true ∧ w1 = w) ∨
  (isfile w "pancancer_clinical.txt" = false ∧
   ∃ c, net clinical_url = Some c ∧
     w1 = World (<["pancancer_clinical.txt" := File c]> (fs w))
                (retrieved w ++ [clinical_url])).
Proof.
  unfold fetch_clinical, urlretrieve.
  destruct (isfile w "pancancer_clinical.txt"); [intros [= <-]; by left|].
  destruct (net clinical_url) as [c|]; [|done].
  change (normpath "./pancancer_clinical.txt") with "pancancer_clinical.txt".
  destruct (fs w !! "pancancer_clinical.txt") as [[?|]|]; try done;
    intros [= <-]; right; split; try done; by exists c.
Qed.

(** What the two fetch cells leave behind when both return. *)
Lemma fetch_cells_inv (net : network) (w w2 : world) :
  fetch_mutations net w ≫= fetch_clinical net = Ok w2 →
  (∀ p, p ≠ "pancancer_mutations.maf.gz" → p ≠ "pancancer_clinical.txt" →
     fs w2 !! p = fs w !! p) ∧
  (∃ cm, fs w2 !! "pancancer_mutations.maf.gz" = Some (File cm) ∧
     if isfile w "pancancer_mutations.maf.gz"
     then fs w !! "pancancer_mutations.maf.gz" = Some (File cm)
     else net mutations_url = Some cm) ∧
  (∃ cc, fs w2 !! "pancancer_clinical.txt" = Some (File cc) ∧
     if isfile w "pancancer_clinical.txt"
     then fs w !! "pancancer_clinical.txt" = Some (File cc)
     else net clinical_url = Some cc) ∧
  retrieved w2 =
    retrieved w ++
    (if isfile w "pancancer_mutations.maf.gz" then [] else [mutations_url]) ++
    (if isfile w "pancancer_clinical.txt" then [] else [clinical_url]).
Proof.
  intros (w1 & H1 & H2)%bind_Ok_inv.
  assert (isfile w1 "pancancer_clinical.txt" = isfile w "pancancer_clinical.txt")
    as Hsame.
  { apply fetch_mutations_inv in H1 as [[_ ->]|(_ & c & _ & ->)]; [done|].
    unfold isfile. simpl.
    change (normpath "pancancer_clinical.txt") with "pancancer_clinical.txt".
    by rewrite lookup_insert_ne. }
  apply fetch_mutations_inv in H1 as [[Hm ->]|(Hm & cm & Hnet & ->)];
    apply fetch_clinical_inv in H2 as [[Hc ->]|(Hc & cc & Hnet' & ->)];
    rewrite ?Hsame in Hc; rewrite Hm, Hc; simpl.
  - apply isfile_lookup in Hm as [cm Hm]. apply isfile_lookup in Hc as [cc Hc].
    split_and!; [done | by exists cm | by exists cc | by rewrite app_nil_r].
  - apply isfile_lookup in Hm as [cm Hm].
    change (normpath "pancancer_mutations.maf.gz")
      with "pancancer_mutations.maf.gz" in Hm.
    split_and!.
    + intros p _ ?. by rewrite lookup_insert_ne.
    + exists cm. by rewrite lookup_insert_ne.
    + exists cc. by rewrite lookup_insert_eq.
    + done.
  - apply isfile_lookup in Hc as [cc Hc].
    change (normpath "pancancer_clinical.txt")
      with "pancancer_clinical.txt" in Hc.
    split_and!.
    + intros p ? _. by rewrite lookup_insert_ne.
    + exists cm. by rewrite lookup_insert_eq.
    + exists cc. by rewrite lookup_insert_ne.
    + done.
  - split_and!.
    + intros p ? ?. by rewrite !lookup_insert_ne.
    + exists cm. by rewrite lookup_insert_ne, lookup_insert_eq.
    + exists cc. by rewrite lookup_insert_eq.
    + by rewrite <- app_assoc.
Qed.

(** *** The cells on well-formed files, stage by stage *)

Lemma merge_eq (left right : DataFrame) (key : string) (lk rk : list cell) :
  lookup_column key (data left) = Some lk →
  lookup_column key (data right) = Some rk →
  (∀ c, c ∈ columns left → c ∈ columns right → c = key) →
  mergeable lk rk = true →
  merge left right key =
  Ok (Frame (length (inner_join_indexers lk rk))
        (taken (inner_join_indexers lk rk).*1 (data left) ++
         taken (inner_join_indexers lk rk).*2 (without key (data right)))).
Proof.
  intros Hlk Hrk Hdisj Hdt.
  destruct (merge_Ok _ _ _ _ _ Hlk Hrk Hdt) as [out Hout]. rewrite Hout. f_equal.
  destruct (merge_inv _ _ _ _ Hout) as (lk' & rk' & Hlk' & Hrk' & Hn & _).
  destruct (merge_data _ _ _ _ Hout Hdisj) as (lk'' & rk'' & Hlk'' & Hrk'' & Hdata).
  simplify_eq. destruct out as [n d]. simpl in *. by subst.
Qed.

Lemma taken_names (idx : list nat) (d : list (string * list cell)) :
  (taken idx d).*1 = d.*1.
Proof. unfold taken. induction d as [|[n v] d IH]; simpl; [done | by f_equal]. Qed.

Lemma without_names (c : string) (d : list (string * list cell)) :
  (without c d).*1 = filter (λ n, n ≠ c) d.*1.
Proof.
  unfold without. induction d as [|[n v] d IH]; [done|].
  rewrite fmap_cons, !filter_cons. simpl.
  destruct (decide (n ≠ c)); [rewrite fmap_cons; simpl|]; by rewrite <- IH.
Qed.

Lemma lookup_column_taken (idx : list nat) c (d : list (string * list cell)) :
  lookup_column c (taken idx d) = take_rows idx <$> lookup_column c d.
Proof. apply (lookup_column_map_values (take_rows idx)). Qed.

Lemma mutations_table_names (mf : table_file) c :
  c ∈ (mutations_table mf).*1 → c ∈ mutation_usecols.
Proof.
  unfold mutations_table. rewrite select_columns_names.
  by intros [?%bool_decide_unpack _]%list_elem_of_filter.
Qed.

Lemma clinical_table_names (cf : table_file) c :
  c ∈ (clinical_table cf).*1 → c ∈ clinical_usecols.
Proof.
  unfold clinical_table. rewrite select_columns_names.
  by intros [?%bool_decide_unpack _]%list_elem_of_filter.
Qed.

Lemma labelled_data_names (mf lf : table_file) :
  (labelled_data mf lf).*1 = (mutations_table mf).*1 ++ ["row"; "cancer_type"].
Proof.
  unfold labelled_data. rewrite fmap_app, taken_names, fmap_app. simpl.
  by rewrite <- app_assoc.
Qed.

Lemma lookup_mutations_table (mf : table_file) c :
  lookup_column c (mutations_table mf) =
  if bool_decide (c ∈ mutation_usecols)
  then j ← index_of c (header mf); Some (field_column j (records mf))
  else None.
Proof.
  unfold mutations_table. rewrite lookup_column_select.
  case_bool_decide as Hc; [|done].
  pose proof mutation_usecols_plain as Hplain. rewrite Forall_forall in Hplain.
  rewrite index_of_mangle; auto using not_elem_of_nil.
Qed.

Lemma lookup_clinical_table (cf : table_file) c :
  lookup_column c (clinical_table cf) =
  if bool_decide (c ∈ clinical_usecols)
  then j ← index_of c (header cf); Some (field_column j (records cf))
  else None.
Proof.
  unfold clinical_table. rewrite lookup_column_select.
  case_bool_decide as Hc; [|done].
  pose proof clinical_usecols_plain as Hplain. rewrite Forall_forall in Hplain.
  rewrite index_of_mangle; auto using not_elem_of_nil.
Qed.

(** The columns of the labelled mutations, by name. *)
Lemma lookup_labelled_data (mf lf : table_file) c :
  lookup_column c (labelled_data mf lf) =
  if bool_decide (c ∈ mutation_usecols)
  then j ← index_of c (header mf);
       Some (take_rows (seq 0 (paired mf lf)) (field_column j (records mf)))
  else if decide (c = "row")
  then Some (take_rows (seq 0 (paired mf lf)) (arange (length (records mf))))
  else if decide (c = "cancer_type")
  then Some (take_rows (seq 0 (paired mf lf)) (field_column 0 (records lf)))
  else None.
Proof.
  unfold labelled_data.
  rewrite lookup_column_app, lookup_column_taken, lookup_column_app.
  rewrite lookup_mutations_table. simpl.
  case_bool_decide as Hc.
  - destruct (index_of c (header mf)) as [j|]; simpl; [done|].
    assert (c ≠ "row" ∧ c ≠ "cancer_type") as [? ?].
    { assert (Forall (λ c, c ≠ "row" ∧ c ≠ "cancer_type") mutation_usecols)
        as H by by_compute.
      rewrite Forall_forall in H. by apply H. }
    by rewrite !decide_False by done.
  - destruct (decide ("row" = c)) as [<-|]; simpl; [done|].
    rewrite (decide_False (P := c = "row")) by done.
    destruct (decide ("cancer_type" = c)) as [<-|]; [done|].
    by rewrite decide_False.
Qed.

Lemma has_columns_true (cols : list string) (f : table_file) :
  has_columns cols f = true ↔ ∀ c, c ∈ cols → c ∈ header f.
Proof.
  unfold has_columns. rewrite forallb_forall. split.
  - intros H c Hc%list_elem_of_In. by apply H, bool_decide_eq_true in Hc.
  - intros H c Hc%list_elem_of_In. by apply bool_decide_eq_true, H.
Qed.

Lemma has_columns_false (cols : list string) (f : table_file) :
  has_columns cols f = false → ∃ c, c ∈ cols ∧ c ∉ header f.
Proof.
  unfold has_columns. induction cols as [|c cols IH]; simpl; [done|].
  intros [Hc|Hrest]%andb_false_iff.
  - exists c. split; [left | by apply bool_decide_eq_false in Hc].
  - destruct (IH Hrest) as (c' & ? & ?). exists c'. split; [by right | done].
Qed.

Lemma load_mutations_Ok (w : world) (mf : table_file) :
  read_file w "pancancer_mutations.maf.gz" = Ok mf →
  has_columns mutation_usecols mf = true →
  load_mutations w = Ok (Frame (length (records mf)) (mutations_table mf)).
Proof.
  intros Hf Hall. pose proof (proj1 (has_columns_true _ _) Hall) as Hall'. unfold load_mutations. rewrite Hf, bind_Ok.
  apply read_csv_usecols_Ok; [apply mutation_usecols_plain | exact Hall'].
Qed.

Lemma load_mutations_Raise (w : world) (mf : table_file) :
  read_file w "pancancer_mutations.maf.gz" = Ok mf →
  has_columns mutation_usecols mf = false →
  load_mutations w = Raise ValueError.
Proof.
  intros Hf Hnot%has_columns_false. unfold load_mutations. rewrite Hf, bind_Ok.
  apply read_csv_usecols_Raise; [apply mutation_usecols_plain | done].
Qed.

Lemma load_clinical_Ok (w : world) (cf : table_file) :
  read_file w "pancancer_clinical.txt" = Ok cf →
  has_columns clinical_usecols cf = true →
  load_clinical w = Ok (Frame (length (records cf)) (clinical_table cf)).
Proof.
  intros Hf Hall. pose proof (proj1 (has_columns_true _ _) Hall) as Hall'. unfold load_clinical. rewrite Hf, bind_Ok.
  apply read_csv_usecols_Ok; [apply clinical_usecols_plain | exact Hall'].
Qed.

Lemma load_clinical_Raise (w : world) (cf : table_file) :
  read_file w "pancancer_clinical.txt" = Ok cf →
  has_columns clinical_usecols cf = false →
  load_clinical w = Raise ValueError.
Proof.
  intros Hf Hnot%has_columns_false. unfold load_clinical. rewrite Hf, bind_Ok.
  apply read_csv_usecols_Raise; [apply clinical_usecols_plain | done].
Qed.

Lemma forallb_is_str (v : list cell) :
  forallb is_str v = true ↔ Forall (λ x, ∃ s, x = Str s) v.
Proof.
  rewrite forallb_forall, Forall_forall. split.
  - intros H x Hx%list_elem_of_In. apply H in Hx. destruct x; try done. by eexists.
  - intros H x Hx%list_elem_of_In. by destruct (H x Hx) as [s ->].
Qed.

Lemma forallb_is_str_false (v : list cell) :
  forallb is_str v = false → ∃ x, x ∈ v ∧ ∀ s, x ≠ Str s.
Proof.
  induction v as [|x v IH]; simpl; [done|].
  intros [Hx|Hrest]%andb_false_iff.
  - exists x. split; [left | by destruct x].
  - destruct (IH Hrest) as (y & ? & ?). exists y. split; [by right | done].
Qed.

Lemma set_row_mutations (mf : table_file) :
  set_row (Frame (length (records mf)) (mutations_table mf)) =
  Ok (Frame (length (records mf))
        (mutations_table mf ++ [("row", arange (length (records mf)))])).
Proof.
  apply set_row_fresh. unfold columns. simpl.
  intros Hrow%mutations_table_names. revert Hrow. by_compute.
Qed.

Lemma merge_labels_stage (mf lf : table_file) :
  merge_labels
    (Frame (length (records mf))
       (mutations_table mf ++ [("row", arange (length (records mf)))]))
    (Frame (length (records lf))
       [("cancer_type", field_column 0 (records lf));
        ("row", arange (length (records lf)))]) =
  Ok (Frame (paired mf lf) (labelled_data mf lf)).
Proof.
  unfold merge_labels.
  rewrite (merge_eq _ _ _ (arange (length (records mf)))
             (arange (length (records lf)))).
  - rewrite inner_join_indexers_arange, diagonal_fst, diagonal_snd.
    rewrite length_map, length_seq. done.
  - simpl. rewrite lookup_column_app, lookup_mutations_table.
    by rewrite bool_decide_false by by_compute.
  - done.
  - unfold columns. simpl. rewrite fmap_app.
    intros c [Hc%mutations_table_names|Hc]%elem_of_app Hc';
      [|by apply list_elem_of_singleton in Hc].
    exfalso. revert c Hc Hc'.
    assert (Forall (λ c, c ∉ ["cancer_type"; "row"]) mutation_usecols)
      as H by by_compute.
    rewrite Forall_forall in H. exact H.
  - apply mergeable_numeric; apply is_object_arange.
Qed.

Lemma sample_barcodes_lookup (mf lf : table_file) :
  has_columns mutation_usecols mf = true →
  lookup_column "Tumor_Sample_Barcode" (labelled_data mf lf) =
    Some (sample_barcodes mf lf) ∧
  length (sample_barcodes mf lf) = paired mf lf.
Proof.
  intros Hall. pose proof (proj1 (has_columns_true _ _) Hall) as Hall'.
  unfold sample_barcodes. rewrite lookup_labelled_data.
  rewrite bool_decide_true by by_compute.
  destruct (proj2 (index_of_is_Some "Tumor_Sample_Barcode" (header mf)))
    as [jt ->]; [apply Hall'; by_compute|].
  simpl. split; [done|]. by rewrite length_take_rows, length_seq.
Qed.

Lemma derive_stage_Ok (mf lf : table_file) :
  has_columns mutation_usecols mf = true →
  forallb is_str (sample_barcodes mf lf) = true →
  derive_patient_barcode (Frame (paired mf lf) (labelled_data mf lf)) =
  Ok (Frame (paired mf lf)
        (without "Tumor_Sample_Barcode"
           (labelled_data mf lf ++
            [("bcr_patient_barcode", patient_barcodes mf lf)]))).
Proof.
  intros Hall Hstr%forallb_is_str.
  destruct (sample_barcodes_lookup mf lf Hall) as [Hs Hlen].
  unfold derive_patient_barcode, getitem. simpl. rewrite Hs, bind_Ok.
  rewrite apply_parsePatientBarcode_Ok, bind_Ok by done.
  fold (patient_barcodes mf lf).
  rewrite setitem_fresh, bind_Ok.
  - rewrite drop_Ok; [done|]. unfold columns. simpl.
    rewrite fmap_app. apply elem_of_app. left.
    apply lookup_column_is_Some. by eexists.
  - simpl. unfold patient_barcodes. by rewrite length_map.
  - unfold columns. simpl. rewrite labelled_data_names.
    intros [Hc%mutations_table_names|Hc]%elem_of_app; revert Hc; by_compute.
Qed.

Lemma derive_stage_Raise (mf lf : table_file) :
  has_columns mutation_usecols mf = true →
  forallb is_str (sample_barcodes mf lf) = false →
  derive_patient_barcode (Frame (paired mf lf) (labelled_data mf lf)) =
  Raise TypeError.
Proof.
  intros Hall Hbad%forallb_is_str_false.
  destruct (sample_barcodes_lookup mf lf Hall) as [Hs _].
  unfold derive_patient_barcode, getitem. simpl. rewrite Hs, bind_Ok.
  by rewrite apply_parsePatientBarcode_Raise.
Qed.

Lemma clinical_barcodes_lookup (cf : table_file) :
  has_columns clinical_usecols cf = true →
  lookup_column "bcr_patient_barcode" (clinical_table cf) =
    Some (clinical_barcodes cf).
Proof.
  intros Hall. pose proof (proj1 (has_columns_true _ _) Hall) as Hall'.
  unfold clinical_barcodes. rewrite lookup_clinical_table.
  rewrite bool_decide_true by by_compute.
  destruct (proj2 (index_of_is_Some "bcr_patient_barcode" (header cf)))
    as [jb ->]; [apply Hall'; by_compute | done].
Qed.

Lemma derived_barcodes_lookup (mf lf : table_file) :
  lookup_column "bcr_patient_barcode"
    (without "Tumor_Sample_Barcode"
       (labelled_data mf lf ++
        [("bcr_patient_barcode", patient_barcodes mf lf)])) =
  Some (patient_barcodes mf lf).
Proof.
  unfold without. rewrite lookup_column_filter_ne, decide_False by done.
  rewrite lookup_column_app, lookup_labelled_data.
  rewrite bool_decide_false by by_compute.
  rewrite !decide_False by done. simpl. by rewrite ?decide_True.
Qed.

Lemma merge_clinical_stage_Raise (mf lf cf : table_file) :
  has_columns clinical_usecols cf = true →
  mergeable (patient_barcodes mf lf) (clinical_barcodes cf) = false →
  merge_clinical
    (Frame (paired mf lf)
       (without "Tumor_Sample_Barcode"
          (labelled_data mf lf ++
           [("bcr_patient_barcode", patient_barcodes mf lf)])))
    (Frame (length (records cf)) (clinical_table cf)) =
  Raise ValueError.
Proof.
  intros Hall Hdt. unfold merge_clinical.
  apply (merge_Raise _ _ _ (patient_barcodes mf lf) (clinical_barcodes cf));
    [apply derived_barcodes_lookup | by apply clinical_barcodes_lookup | done].
Qed.

Lemma merge_clinical_stage (mf lf cf : table_file) :
  has_columns clinical_usecols cf = true →
  mergeable (patient_barcodes mf lf) (clinical_barcodes cf) = true →
  merge_clinical
    (Frame (paired mf lf)
       (without "Tumor_Sample_Barcode"
          (labelled_data mf lf ++
           [("bcr_patient_barcode", patient_barcodes mf lf)])))
    (Frame (length (records cf)) (clinical_table cf)) =
  Ok (expected_merged mf lf cf).
Proof.
  intros Hall Hdt. unfold merge_clinical.
  rewrite (merge_eq _ _ _ (patient_barcodes mf lf) (clinical_barcodes cf));
    [done | apply derived_barcodes_lookup | by apply clinical_barcodes_lookup
    | | done].
  - unfold columns. simpl. rewrite without_names, fmap_app, labelled_data_names.
    intros c [_ Hc]%list_elem_of_filter Hc'%clinical_table_names.
    assert (c ∈ mutation_usecols ++ ["row"; "cancer_type"; "bcr_patient_barcode"])
      as Hleft.
    { rewrite <- app_assoc in Hc. apply elem_of_app in Hc as [Hc|Hc].
      - apply elem_of_app. left. by apply mutations_table_names in Hc.
      - apply elem_of_app. by right. }
    clear Hc. revert c Hc' Hleft.
    assert (Forall (λ c, c ∈ mutation_usecols ++
                           ["row"; "cancer_type"; "bcr_patient_barcode"] →
                         c = "bcr_patient_barcode") clinical_usecols)
      as H by by_compute.
    rewrite Forall_forall in H. exact H.
Qed.

(** The data cells on any directory: each file is read when its cell is
    reached, and the first check that fails decides the exception. *)
Lemma merged_frame_eq (w : world) :
  merged_frame w =
  mf ← read_file w "pancancer_mutations.maf.gz";
  if has_columns mutation_usecols mf then
    lf ← read_file w "labels.txt";
    if decide (length (header lf) = 1) then
      cf ← read_file w "pancancer_clinical.txt";
      if has_columns clinical_usecols cf then
        if forallb is_str (sample_barcodes mf lf) then
          if mergeable (patient_barcodes mf lf) (clinical_barcodes cf)
          then Ok (expected_merged mf lf cf)
          else Raise ValueError
        else Raise TypeError
      else Raise ValueError
    else Raise ValueError
  else Raise ValueError.
Proof.
  unfold merged_frame.
  destruct (read_file w "pancancer_mutations.maf.gz") as [mf|e] eqn:Hmf;
    [|unfold load_mutations; by rewrite Hmf].
  rewrite bind_Ok.
  destruct (has_columns mutation_usecols mf) eqn:Hm;
    [|by rewrite (load_mutations_Raise w mf)].
  rewrite (load_mutations_Ok w mf), bind_Ok, set_row_mutations, bind_Ok by done.
  destruct (read_file w "labels.txt") as [lf|e] eqn:Hlf;
    [|unfold load_labels; by rewrite Hlf].
  rewrite bind_Ok.
  destruct (decide (length (header lf) = 1)) as [Hone|Hone];
    [|by rewrite (load_labels_Raise w lf)].
  rewrite (load_labels_Ok w lf), bind_Ok, merge_labels_stage, bind_Ok by done.
  destruct (read_file w "pancancer_clinical.txt") as [cf|e] eqn:Hcf;
    [|unfold load_clinical; by rewrite Hcf].
  rewrite bind_Ok.
  destruct (has_columns clinical_usecols cf) eqn:Hc;
    [|by rewrite (load_clinical_Raise w cf)].
  rewrite (load_clinical_Ok w cf), bind_Ok by done.
  destruct (forallb is_str (sample_barcodes mf lf)) eqn:Hstr.
  - rewrite derive_stage_Ok, bind_Ok by done.
    destruct (mergeable (patient_barcodes mf lf) (clinical_barcodes cf)) eqn:Hdt.
    + by apply merge_clinical_stage.
    + by apply merge_clinical_stage_Raise.
  - by rewrite derive_stage_Raise.
Qed.

(** A merged frame comes from three readable files that pass every check,
    and it is the closed form. *)
Lemma merged_frame_inv (w : world) (merged : DataFrame) :
  merged_frame w = Ok merged →
  ∃ mf lf cf,
    read_file w "pancancer_mutations.maf.gz" = Ok mf ∧
    read_file w "labels.txt" = Ok lf ∧
    read_file w "pancancer_clinical.txt" = Ok cf ∧
    has_columns mutation_usecols mf = true ∧
    length (header lf) = 1 ∧
    has_columns clinical_usecols cf = true ∧
    forallb is_str (sample_barcodes mf lf) = true ∧
    mergeable (patient_barcodes mf lf) (clinical_barcodes cf) = true ∧
    merged = expected_merged mf lf cf.
Proof.
  rewrite merged_frame_eq.
  destruct (read_file w "pancancer_mutations.maf.gz") as [mf|] eqn:Hmf; [|done].
  rewrite bind_Ok. destruct (has_columns mutation_usecols mf) eqn:Hm; [|done].
  destruct (read_file w "labels.txt") as [lf|] eqn:Hlf; [|done].
  rewrite bind_Ok. destruct (decide (length (header lf) = 1)); [|done].
  destruct (read_file w "pancancer_clinical.txt") as [cf|] eqn:Hcf; [|done].
  rewrite bind_Ok. destruct (has_columns clinical_usecols cf) eqn:Hc; [|done].
  destruct (forallb is_str (sample_barcodes mf lf)) eqn:Hstr; [|done].
  destruct (mergeable (patient_barcodes mf lf) (clinical_barcodes cf)) eqn:Hdt;
    [|done].
  intros [= <-]. by exists mf, lf, cf.
Qed.

Lemma sample_barcodes_eq (mf lf : table_file) (jt : nat) :
  index_of "Tumor_Sample_Barcode" (header mf) = Some jt →
  sample_barcodes mf lf =
  take_rows (seq 0 (paired mf lf)) (field_column jt (records mf)).
Proof.
  intros Hjt. unfold sample_barcodes. rewrite lookup_labelled_data.
  rewrite bool_decide_true by by_compute. by rewrite Hjt.
Qed.

(** The paired sample barcodes are the barcode fields of the first lines
    of the mutations file. *)
Lemma sample_barcodes_lookup_iff (mf lf : table_file) (i : nat) (x : cell) :
  has_columns mutation_usecols mf = true →
  sample_barcodes mf lf !! i = Some x ↔
  ∃ rec, i < paired mf lf ∧ records mf !! i = Some rec ∧
         field_of mf "Tumor_Sample_Barcode" rec = Some x.
Proof.
  intros Hall. pose proof (proj1 (has_columns_true _ _) Hall) as Hall'.
  destruct (proj2 (index_of_is_Some "Tumor_Sample_Barcode" (header mf)))
    as [jt Hjt]; [apply Hall'; by_compute|].
  rewrite (sample_barcodes_eq mf lf jt Hjt). unfold field_of. rewrite Hjt. simpl.
  split.
  - intros Hx.
    assert (i < paired mf lf) as Hi.
    { apply lookup_lt_Some in Hx. by rewrite length_take_rows, length_seq in Hx. }
    destruct (lookup_lt_is_Some_2 (records mf) i) as [rec Hrec];
      [unfold paired in Hi; lia|].
    exists rec. split_and!; try done.
    rewrite (take_rows_lookup _ _ _ i) in Hx by (by rewrite lookup_seq_lt).
    rewrite <- Hx. f_equal. symmetry.
    by apply at_pos_lookup, field_column_lookup.
  - intros (rec & Hi & Hrec & [= <-]).
    rewrite (take_rows_lookup _ _ _ i) by (by rewrite lookup_seq_lt).
    f_equal. by apply at_pos_lookup, field_column_lookup.
Qed.

Lemma write_merged_Ok (merged : DataFrame) (w : world) :
  fs w !! "pancancer_mutations_merged.csv" ≠ Some Dir →
  write_merged merged w =
  Ok (World (<["pancancer_mutations_merged.csv" := File (to_csv merged)]> (fs w))
            (retrieved w)).
Proof.
  intros Hdir. unfold write_merged, write_file.
  change (normpath "pancancer_mutations_merged.csv")
    with "pancancer_mutations_merged.csv".
  by destruct (fs w !! "pancancer_mutations_merged.csv") as [[?|]|].
Qed.

Lemma fetch_mutations_Raise (net : network) (w : world) (e : exn) :
  fetch_mutations net w = Raise e →
  isfile w "pancancer_mutations.maf.gz" = false ∧
  ((e = URLError ∧ net mutations_url = None) ∨
   (e = IsADirectoryError ∧ fs w !! "pancancer_mutations.maf.gz" = Some Dir)).
Proof.
  unfold fetch_mutations, urlretrieve.
  destruct (isfile w "pancancer_mutations.maf.gz"); [done|].
  destruct (net mutations_url) as [c|]; [|intros [= <-]; split; [done | by left]].
  change (normpath "./pancancer_mutations.maf.gz") with "pancancer_mutations.maf.gz".
  destruct (fs w !! "pancancer_mutations.maf.gz") as [[?|]|]; try done.
  intros [= <-]. split; [done | by right].
Qed.

Lemma fetch_clinical_Raise (net : network) (w : world) (e : exn) :
  fetch_clinical net w = Raise e →
  isfile w "pancancer_clinical.txt" = false ∧
  ((e = URLError ∧ net clinical_url = None) ∨
   (e = IsADirectoryError ∧ fs w !! "pancancer_clinical.txt" = Some Dir)).
Proof.
  unfold fetch_clinical, urlretrieve.
  destruct (isfile w "pancancer_clinical.txt"); [done|].
  destruct (net clinical_url) as [c|]; [|intros [= <-]; split; [done | by left]].
  change (normpath "./pancancer_clinical.txt") with "pancancer_clinical.txt".
  destruct (fs w !! "pancancer_clinical.txt") as [[?|]|]; try done.
  intros [= <-]. split; [done | by right].
Qed.

(** The first fetch cell leaves the clinical file as it found it. *)
Lemma fetch_mutations_clinical (net : network) (w w1 : world) :
  fetch_mutations net w = Ok w1 →
  fs w1 !! "pancancer_clinical.txt" = fs w !! "pancancer_clinical.txt" ∧
  isfile w1 "pancancer_clinical.txt" = isfile w "pancancer_clinical.txt".
Proof.
  intros [[_ ->]|(_ & c & _ & ->)]%fetch_mutations_inv; [done|].
  unfold isfile. simpl.
  change (normpath "pancancer_clinical.txt") with "pancancer_clinical.txt".
  by rewrite lookup_insert_ne.
Qed.

Lemma read_file_lookup (w : world) (p : string) :
  read_file w p =
  match fs w !! normpath p with
  | Some (File c) => Ok c
  | Some Dir => Raise IsADirectoryError
  | None => Raise FileNotFoundError
  end.
Proof. done. Qed.

(** Why the two fetch cells fail, in terms of the directory they start
    from. *)
Lemma fetch_cells_Raise (net : network) (w : world) (e : exn) :
  fetch_mutations net w ≫= fetch_clinical net = Raise e →
  (e = URLError ∧
   ((isfile w "pancancer_mutations.maf.gz" = false ∧ net mutations_url = None) ∨
    (isfile w "pancancer_clinical.txt" = false ∧ net clinical_url = None))) ∨
  (e = IsADirectoryError ∧
   ∃ p, p ∈ ["pancancer_mutations.maf.gz"; "pancancer_clinical.txt"] ∧
        fs w !! p = Some Dir).
Proof.
  destruct (fetch_mutations net w) as [w1|e1] eqn:H1.
  - rewrite bind_Ok. destruct (fetch_mutations_clinical _ _ _ H1) as [Hfs1 His1].
    intros [Hc [[-> Hnet]|[-> Hdir]]]%fetch_clinical_Raise.
    + left. split; [done|]. right. by rewrite <- His1.
    + right. split; [done|]. exists "pancancer_clinical.txt".
      split; [by_compute | by rewrite <- Hfs1].
  - rewrite bind_Raise. intros [= <-].
    apply fetch_mutations_Raise in H1 as [Hm [[-> Hnet]|[-> Hdir]]].
    + left. split; [done|]. by left.
    + right. split; [done|]. exists "pancancer_mutations.maf.gz".
      split; [by_compute | done].
Qed.

(** *** The check of the key dtypes at the merge cell *)

Lemma is_object_true (v : list cell) :
  is_object v = true ↔ ∃ s, Str s ∈ v.
Proof.
  unfold is_object. rewrite existsb_exists. split.
  - intros (x & Hx%list_elem_of_In & Hs). destruct x as [|s|]; try done.
    by exists s.
  - intros (s & Hs). exists (Str s). split; [by apply list_elem_of_In | done].
Qed.

Lemma has_int_strings (v : list cell) :
  forallb is_str v = true → has_int v = false.
Proof.
  induction v as [|x v IH]; [done|]. simpl.
  intros [Hx Hv]%andb_true_iff. rewrite (IH Hv). by destruct x.
Qed.

(** A key column of strings merges with any column that is empty or holds
    a string, and with no other. *)
Lemma mergeable_strings (lk rk : list cell) :
  forallb is_str lk = true →
  mergeable lk rk = true ↔ lk = [] ∨ rk = [] ∨ ∃ s, Str s ∈ rk.
Proof.
  intros Hstr. rewrite <- is_object_true.
  destruct lk as [|x lk]; [by split; [left|]|].
  destruct rk as [|y rk]; [by split; [right; left|]|].
  assert (is_object (x :: lk) = true) as Hl.
  { simpl in Hstr. apply andb_true_iff in Hstr as [Hx _]. by destruct x. }
  destruct (is_object (y :: rk)) eqn:Hr; unfold mergeable;
    rewrite Hl, Hr, (has_int_strings _ Hstr); simpl.
  - split; [by right; right | done].
  - split; [done | by intros [?|[?|?]]].
Qed.

Lemma patient_barcodes_strings (mf lf : table_file) :
  forallb is_str (sample_barcodes mf lf) = true →
  forallb is_str (patient_barcodes mf lf) = true.
Proof.
  unfold patient_barcodes. induction (sample_barcodes mf lf) as [|x v IH];
    [done|].
  simpl. intros [Hx Hv]%andb_true_iff. rewrite (IH Hv). by destruct x.
Qed.

Lemma clinical_barcodes_eq (cf : table_file) (jb : nat) :
  index_of "bcr_patient_barcode" (header cf) = Some jb →
  clinical_barcodes cf = field_column jb (records cf).
Proof.
  intros Hjb. unfold clinical_barcodes. rewrite lookup_clinical_table.
  rewrite bool_decide_true by by_compute. by rewrite Hjb.
Qed.

(** The merge cell passes the check of the key dtypes when no mutation
    line has a label, when the clinical file has no data line, or when
    some clinical record has a string as its barcode. *)
Lemma mergeable_barcodes (mf lf cf : table_file) :
  has_columns mutation_usecols mf = true →
  has_columns clinical_usecols cf = true →
  forallb is_str (sample_barcodes mf lf) = true →
  mergeable (patient_barcodes mf lf) (clinical_barcodes cf) = true ↔
  paired mf lf = 0 ∨ records cf = [] ∨
  ∃ rec s, rec ∈ records cf ∧
           field_of cf "bcr_patient_barcode" rec = Some (Str s).
Proof.
  intros Hm Hc Hstr.
  rewrite (mergeable_strings _ _ (patient_barcodes_strings _ _ Hstr)).
  destruct (sample_barcodes_lookup mf lf Hm) as [_ Hlen].
  pose proof (proj1 (has_columns_true _ _) Hc) as Hc'.
  destruct (proj2 (index_of_is_Some "bcr_patient_barcode" (header cf)))
    as [jb Hjb]; [apply Hc'; by_compute|].
  rewrite (clinical_barcodes_eq cf jb Hjb). unfold field_of. rewrite Hjb. simpl.
  assert (patient_barcodes mf lf = [] ↔ paired mf lf = 0) as ->.
  { rewrite <- Hlen. unfold patient_barcodes.
    destruct (sample_barcodes mf lf); simpl; split; done. }
  assert (field_column jb (records cf) = [] ↔ records cf = []) as ->.
  { unfold field_column. destruct (records cf); simpl; split; done. }
  assert ((∃ s, Str s ∈ field_column jb (records cf)) ↔
          ∃ rec s, rec ∈ records cf ∧ Some (at_pos rec jb) = Some (Str s)) as ->.
  { unfold field_column. split.
    - intros (s & (rec & Hs & Hrec)%list_elem_of_fmap). exists rec, s.
      split; [done | by rewrite <- Hs].
    - intros (rec & s & Hrec & [= Hs]). exists s. apply list_elem_of_fmap.
      by exists rec. }
  done.
Qed.

(** *** The notebook from top to bottom *)

(** The frame that reaches the tally cell has no patient barcode yet. *)
Lemma count_missing_stage (mf lf : table_file) (clinical : DataFrame) :
  count_missing (Frame (paired mf lf) (labelled_data mf lf)) clinical =
  Raise AttributeError.
Proof.
  unfold count_missing, getattr. simpl. rewrite lookup_labelled_data.
  rewrite bool_decide_false by by_compute. by rewrite !decide_False by done.
Qed.

(** The run on any directory: the fetch cells and the loaders decide the
    exception as they do for the data cells, and once the clinical data is
    loaded the tally cell raises. *)
Lemma run_eq (net : network) (w : world) :
  run net w =
  w2 ← fetch_mutations net w ≫= fetch_clinical net;
  mf ← read_file w2 "pancancer_mutations.maf.gz";
  if has_columns mutation_usecols mf then
    lf ← read_file w2 "labels.txt";
    if decide (length (header lf) = 1) then
      cf ← read_file w2 "pancancer_clinical.txt";
      if has_columns clinical_usecols cf then Raise AttributeError
      else Raise ValueError
    else Raise ValueError
  else Raise ValueError.
Proof.
  unfold run.
  destruct (fetch_mutations net w) as [w1|e]; [|done]. rewrite !bind_Ok.
  destruct (fetch_clinical net w1) as [w2|e]; [|done]. rewrite !bind_Ok.
  destruct (read_file w2 "pancancer_mutations.maf.gz") as [mf|e] eqn:Hmf;
    [|unfold load_mutations; by rewrite Hmf].
  rewrite bind_Ok.
  destruct (has_columns mutation_usecols mf) eqn:Hm;
    [|by rewrite (load_mutations_Raise w2 mf)].
  rewrite (load_mutations_Ok w2 mf), bind_Ok, set_row_mutations, bind_Ok by done.
  destruct (read_file w2 "labels.txt") as [lf|e] eqn:Hlf;
    [|unfold load_labels; by rewrite Hlf].
  rewrite bind_Ok.
  destruct (decide (length (header lf) = 1)) as [Hone|Hone];
    [|by rewrite (load_labels_Raise w2 lf)].
  rewrite (load_labels_Ok w2 lf), bind_Ok, merge_labels_stage, bind_Ok by done.
  destruct (read_file w2 "pancancer_clinical.txt") as [cf|e] eqn:Hcf;
    [|unfold load_clinical; by rewrite Hcf].
  rewrite bind_Ok.
  destruct (has_columns clinical_usecols cf) eqn:Hc;
    [|by rewrite (load_clinical_Raise w2 cf)].
  rewrite (load_clinical_Ok w2 cf), bind_Ok by done.
  by rewrite count_missing_stage.
Qed.

(** X7. The cells that build and write the merged table all return on
    three files that are there and well formed: a mutations file with the
    five columns, a labels file with a one-field header, a clinical file
    with the nine columns, a string as sample barcode on every mutation
    line that has a label, and patient barcodes that pass the check of the
    key dtypes (no mutation line has a label, or the clinical file has no
    data line, or a clinical record has a string as its barcode).  The
    write cell then changes nothing but the output file, which holds the
    merged frame. *)
Theorem data_cells_succeed (w : world) (mf lf cf : table_file) :
  read_file w "pancancer_mutations.maf.gz" = Ok mf →
  read_file w "labels.txt" = Ok lf →
  read_file w "pancancer_clinical.txt" = Ok cf →
  (∀ c, c ∈ mutation_usecols → c ∈ header mf) →
  length (header lf) = 1 →
  (∀ c, c ∈ clinical_usecols → c ∈ header cf) →
  (∀ i rec, i < min (length (records mf)) (length (records lf)) →
     records mf !! i = Some rec →
     ∃ s, field_of mf "Tumor_Sample_Barcode" rec = Some (Str s)) →
  (min (length (records mf)) (length (records lf)) = 0 ∨ records cf = [] ∨
   ∃ rec s, rec ∈ records cf ∧
            field_of cf "bcr_patient_barcode" rec = Some (Str s)) →
  fs w !! "pancancer_mutations_merged.csv" ≠ Some Dir →
  ∃ merged,
    merged_frame w = Ok merged ∧
    write_merged merged w =
    Ok (World (<["pancancer_mutations_merged.csv" := File (to_csv merged)]> (fs w))
              (retrieved w)).
Proof.
  intros Hmf Hlf Hcf Hm%has_columns_true Hone Hc%has_columns_true Hstr Hdt Hdir.
  assert (forallb is_str (sample_barcodes mf lf) = true) as Hs.
  { apply forallb_is_str, Forall_lookup. intros i x Hx.
    apply sample_barcodes_lookup_iff in Hx as (rec & Hi & Hrec & Hx); [|done].
    destruct (Hstr i rec Hi Hrec) as [s Hs]. exists s. congruence. }
  apply (mergeable_barcodes mf lf cf Hm Hc Hs) in Hdt.
  exists (expected_merged mf lf cf). split; [|by apply write_merged_Ok].
  rewrite merged_frame_eq, Hmf, bind_Ok, Hm, Hlf, bind_Ok.
  rewrite decide_True by done. by rewrite Hcf, bind_Ok, Hc, Hs, Hdt.
Qed.

Lemma data_cells_succeed_witness :
  ∃ merged,
    merged_frame (used_disk maf3 labels3 clinical2) = Ok merged ∧
    write_merged merged (used_disk maf3 labels3 clinical2) =
    Ok (World (<["pancancer_mutations_merged.csv" := File (to_csv merged)]>
                 (fs (used_disk maf3 labels3 clinical2)))
              (retrieved (used_disk maf3 labels3 clinical2))).
Proof.
  apply (data_cells_succeed (used_disk maf3 labels3 clinical2)
           maf3 labels3 clinical2).
  - vm_compute. reflexivity.
  - vm_compute. reflexivity.
  - vm_compute. reflexivity.
  - apply Forall_forall. by_compute.
  - reflexivity.
  - apply Forall_forall. by_compute.
  - intros [|[|[|i]]] rec Hi [= <-]; try (by eexists); simpl in Hi; lia.
  - right; right. eexists _, "TCGA-02-0003". split; [left | reflexivity].
  - vm_compute. discriminate.
Defined.

(** X8. The notebook, run from top to bottom, never gets to its end: every
    run raises, at the latest before the patient barcodes are derived, so
    no merged table is built.  A [URLError] means that a data
    file was absent and its download failed; a [FileNotFoundError] means
    that the labels file is absent; an [IsADirectoryError] means that one
    of the three input paths is a directory; a [ValueError] means that a
    file fails its header check; an [AttributeError] means that the three
    files were read and passed their header checks: the run has then
    reached the tally cell, which reads the patient barcodes of the
    mutations before the cell that derives them.  No run raises
    [TypeError] or [KeyError]. *)
Theorem run_errors (net : network) (w : world) :
  ∃ e, run net w = Raise e ∧
  match e with
  | URLError =>
      (isfile w "pancancer_mutations.maf.gz" = false ∧
       net mutations_url = None) ∨
      (isfile w "pancancer_clinical.txt" = false ∧ net clinical_url = None)
  | FileNotFoundError => fs w !! "labels.txt" = None
  | IsADirectoryError =>
      ∃ p, p ∈ ["pancancer_mutations.maf.gz"; "pancancer_clinical.txt";
                "labels.txt"] ∧
           fs w !! p = Some Dir
  | ValueError =>
      ∃ w2, fetch_mutations net w ≫= fetch_clinical net = Ok w2 ∧
        ((∃ mf, read_file w2 "pancancer_mutations.maf.gz" = Ok mf ∧
                ∃ c, c ∈ mutation_usecols ∧ c ∉ header mf) ∨
         (∃ lf, read_file w2 "labels.txt" = Ok lf ∧ length (header lf) ≠ 1) ∨
         (∃ cf, read_file w2 "pancancer_clinical.txt" = Ok cf ∧
                ∃ c, c ∈ clinical_usecols ∧ c ∉ header cf))
  | AttributeError =>
      ∃ w2 mf lf cf,
        fetch_mutations net w ≫= fetch_clinical net = Ok w2 ∧
        read_file w2 "pancancer_mutations.maf.gz" = Ok mf ∧
        read_file w2 "labels.txt" = Ok lf ∧
        read_file w2 "pancancer_clinical.txt" = Ok cf ∧
        (∀ c, c ∈ mutation_usecols → c ∈ header mf) ∧
        length (header lf) = 1 ∧
        (∀ c, c ∈ clinical_usecols → c ∈ header cf)
  | TypeError => False
  | KeyError => False
  end.
Proof.
  rewrite run_eq.
  destruct (fetch_mutations net w ≫= fetch_clinical net) as [w2|e] eqn:Hfetch.
  2:{ exists e. split; [done|].
      apply fetch_cells_Raise in Hfetch as [[-> H]|[-> (p & Hp & Hdir)]]; [done|].
      exists p. split; [|done]. revert Hp. rewrite !elem_of_cons. tauto. }
  rewrite bind_Ok.
  destruct (fetch_cells_inv _ _ _ Hfetch)
    as (Hframe & (cm & Hcm & _) & (cc & Hcc & _) & _).
  assert (read_file w2 "pancancer_mutations.maf.gz" = Ok cm) as Hmf
    by (by rewrite read_file_lookup;
        change (normpath "pancancer_mutations.maf.gz")
          with "pancancer_mutations.maf.gz"; rewrite Hcm).
  assert (read_file w2 "pancancer_clinical.txt" = Ok cc) as Hcf
    by (by rewrite read_file_lookup;
        change (normpath "pancancer_clinical.txt")
          with "pancancer_clinical.txt"; rewrite Hcc).
  assert (fs w2 !! "labels.txt" = fs w !! "labels.txt") as Hlab
    by (by apply Hframe).
  rewrite Hmf, bind_Ok.
  destruct (has_columns mutation_usecols cm) eqn:Hm.
  2:{ exists ValueError. split; [done|]. exists w2. split; [done|]. left.
      exists cm. split; [done|]. by apply has_columns_false. }
  rewrite (read_file_lookup w2 "labels.txt").
  change (normpath "labels.txt") with "labels.txt". rewrite Hlab.
  destruct (fs w !! "labels.txt") as [[lf|]|] eqn:Hl.
  2:{ exists IsADirectoryError. split; [done|].
      exists "labels.txt". split; [by_compute | done]. }
  2:{ by exists FileNotFoundError. }
  assert (read_file w2 "labels.txt" = Ok lf) as Hlf.
  { rewrite read_file_lookup. change (normpath "labels.txt") with "labels.txt".
    by rewrite Hlab. }
  rewrite bind_Ok.
  destruct (decide (length (header lf) = 1)) as [Hone|Hone].
  2:{ exists ValueError. split; [done|]. exists w2. split; [done|].
      right; left. by exists lf. }
  rewrite Hcf, bind_Ok.
  destruct (has_columns clinical_usecols cc) eqn:Hc.
  2:{ exists ValueError. split; [done|]. exists w2. split; [done|].
      right; right. exists cc. split; [done|]. by apply has_columns_false. }
  exists AttributeError. split; [done|]. exists w2, cm, lf, cc.
  split_and!; try done; by apply has_columns_true.
Qed.

Lemma run_errors_witness :
  ∃ e, run online labels_only = Raise e ∧
  match e with
  | URLError =>
      (isfile labels_only "pancancer_mutations.maf.gz" = false ∧
       online mutations_url = None) ∨
      (isfile labels_only "pancancer_clinical.txt" = false ∧
       online clinical_url = None)
  | FileNotFoundError => fs labels_only !! "labels.txt" = None
  | IsADirectoryError =>
      ∃ p, p ∈ ["pancancer_mutations.maf.gz"; "pancancer_clinical.txt";
                "labels.txt"] ∧
           fs labels_only !! p = Some Dir
  | ValueError =>
      ∃ w2, fetch_mutations online labels_only ≫= fetch_clinical online = Ok w2 ∧
        ((∃ mf, read_file w2 "pancancer_mutations.maf.gz" = Ok mf ∧
                ∃ c, c ∈ mutation_usecols ∧ c ∉ header mf) ∨
         (∃ lf, read_file w2 "labels.txt" = Ok lf ∧ length (header lf) ≠ 1) ∨
         (∃ cf, read_file w2 "pancancer_clinical.txt" = Ok cf ∧
                ∃ c, c ∈ clinical_usecols ∧ c ∉ header cf))
  | AttributeError =>
      ∃ w2 mf lf cf,
        fetch_mutations online labels_only ≫= fetch_clinical online = Ok w2 ∧
        read_file w2 "pancancer_mutations.maf.gz" = Ok mf ∧
        read_file w2 "labels.txt" = Ok lf ∧
        read_file w2 "pancancer_clinical.txt" = Ok cf ∧
        (∀ c, c ∈ mutation_usecols → c ∈ header mf) ∧
        length (header lf) = 1 ∧
        (∀ c, c ∈ clinical_usecols → c ∈ header cf)
  | TypeError => False
  | KeyError => False
  end.
Proof. exact (run_errors online labels_only). Defined.

(** X9. What the two fetch cells have done to the directory when both
    have returned: a data file that was present is as it was, one that was
    absent holds what its URL served; every other file, the labels among
    them, is untouched; and only the URLs of absent data files were
    retrieved. *)
Theorem fetch_cells_effect (net : network) (w w2 : world) :
  fetch_mutations net w ≫= fetch_clinical net = Ok w2 →
  (∀ p, p ≠ "pancancer_mutations.maf.gz" → p ≠ "pancancer_clinical.txt" →
        fs w2 !! p = fs w !! p) ∧
  (∃ cm, fs w2 !! "pancancer_mutations.maf.gz" = Some (File cm) ∧
     if isfile w "pancancer_mutations.maf.gz"
     then fs w !! "pancancer_mutations.maf.gz" = Some (File cm)
     else net mutations_url = Some cm) ∧
  (∃ cc, fs w2 !! "pancancer_clinical.txt" = Some (File cc) ∧
     if isfile w "pancancer_clinical.txt"
     then fs w !! "pancancer_clinical.txt" = Some (File cc)
     else net clinical_url = Some cc) ∧
  retrieved w2 =
    retrieved w ++
    (if isfile w "pancancer_mutations.maf.gz" then [] else [mutations_url]) ++
    (if isfile w "pancancer_clinical.txt" then [] else [clinical_url]).
Proof. apply fetch_cells_inv. Qed.

Lemma fetch_cells_effect_witness :
  ∃ w2, fetch_mutations online labels_only ≫= fetch_clinical online = Ok w2 ∧
  (∀ p, p ≠ "pancancer_mutations.maf.gz" → p ≠ "pancancer_clinical.txt" →
        fs w2 !! p = fs labels_only !! p) ∧
  (∃ cm, fs w2 !! "pancancer_mutations.maf.gz" = Some (File cm) ∧
     if isfile labels_only "pancancer_mutations.maf.gz"
     then fs labels_only !! "pancancer_mutations.maf.gz" = Some (File cm)
     else online mutations_url = Some cm) ∧
  (∃ cc, fs w2 !! "pancancer_clinical.txt" = Some (File cc) ∧
     if isfile labels_only "pancancer_clinical.txt"
     then fs labels_only !! "pancancer_clinical.txt" = Some (File cc)
     else online clinical_url = Some cc) ∧
  retrieved w2 =
    retrieved labels_only ++
    (if isfile labels_only "pancancer_mutations.maf.gz" then []
     else [mutations_url]) ++
    (if isfile labels_only "pancancer_clinical.txt" then []
     else [clinical_url]).
Proof.
  eexists. split; [vm_compute; reflexivity|].
  apply (fetch_cells_effect online labels_only). vm_compute. reflexivity.
Defined.

(** X10. A data file that is absent and cannot be downloaded aborts the
    run with [URLError], before anything is read or written. *)
Theorem run_without_network (net : network) (w : world) :
  (isfile w "pancancer_mutations.maf.gz" = false ∧ net mutations_url = None) ∨
  (isfile w "pancancer_mutations.maf.gz" = true ∧
   isfile w "pancancer_clinical.txt" = false ∧ net clinical_url = None) →
  run net w = Raise URLError.
Proof.
  unfold run, fetch_mutations, fetch_clinical, urlretrieve.
  intros [[-> ->]|(-> & Hc & Hnet)]; [done|].
  by rewrite bind_Ok, Hc, Hnet.
Qed.

Lemma run_without_network_witness :
  run offline labels_only = Raise URLError.
Proof.
  apply (run_without_network offline labels_only).
  left. split; vm_compute; reflexivity.
Defined.

(** X11. The labels file is never downloaded: when it is absent, the data
    files being there (or served) and the mutations file having its five
    columns, the run stops with [FileNotFoundError] at the label loader. *)
Theorem run_without_labels (net : network) (w w2 : world) (mf : table_file) :
  fetch_mutations net w ≫= fetch_clinical net = Ok w2 →
  read_file w2 "pancancer_mutations.maf.gz" = Ok mf →
  (∀ c, c ∈ mutation_usecols → c ∈ header mf) →
  fs w !! "labels.txt" = None →
  run net w = Raise FileNotFoundError.
Proof.
  intros Hfetch Hmf Hm%has_columns_true Hlab.
  destruct (fetch_cells_inv _ _ _ Hfetch) as (Hframe & _).
  rewrite run_eq, Hfetch, bind_Ok, Hmf, bind_Ok, Hm.
  rewrite (read_file_lookup w2 "labels.txt").
  change (normpath "labels.txt") with "labels.txt".
  by rewrite Hframe, Hlab.
Qed.

Lemma run_without_labels_witness :
  run offline no_labels = Raise FileNotFoundError.
Proof.
  apply (run_without_labels offline no_labels no_labels maf3).
  - vm_compute. reflexivity.
  - vm_compute. reflexivity.
  - apply Forall_forall. by_compute.
  - vm_compute. reflexivity.
Defined.

(** X12. A mutation line that has a label but no string as sample barcode
    (a missing barcode) makes the derivation cell raise: the data cells
    stop with [TypeError] once the three files have passed their header
    checks, and there is no merged frame. *)
Theorem missing_barcode_stops_data_cells (w : world)
    (mf lf cf : table_file) (i : nat) (rec : list cell) (x : cell) :
  read_file w "pancancer_mutations.maf.gz" = Ok mf →
  read_file w "labels.txt" = Ok lf →
  read_file w "pancancer_clinical.txt" = Ok cf →
  (∀ c, c ∈ mutation_usecols → c ∈ header mf) →
  length (header lf) = 1 →
  (∀ c, c ∈ clinical_usecols → c ∈ header cf) →
  i < min (length (records mf)) (length (records lf)) →
  records mf !! i = Some rec →
  field_of mf "Tumor_Sample_Barcode" rec = Some x →
  (∀ s, x ≠ Str s) →
  merged_frame w = Raise TypeError.
Proof.
  intros Hmf Hlf Hcf Hm%has_columns_true Hone Hc%has_columns_true Hi Hrec Hx Hbad.
  assert (forallb is_str (sample_barcodes mf lf) = false) as Hs.
  { destruct (forallb is_str (sample_barcodes mf lf)) eqn:Hall; [|done].
    apply forallb_is_str in Hall. rewrite Forall_lookup in Hall.
    destruct (Hall i x) as [s ->]; [|by destruct (Hbad s)].
    apply sample_barcodes_lookup_iff; [done|]. by exists rec. }
  rewrite merged_frame_eq, Hmf, bind_Ok, Hm, Hlf, bind_Ok.
  rewrite decide_True by done. by rewrite Hcf, bind_Ok, Hc, Hs.
Qed.

Lemma missing_barcode_stops_data_cells_witness :
  merged_frame (disk maf_missing_barcode labels3 clinical2) = Raise TypeError.
Proof.
  apply (missing_barcode_stops_data_cells
           (disk maf_missing_barcode labels3 clinical2)
           maf_missing_barcode labels3 clinical2 1
           [Str "JAKMIP3"; Int 282973; Str "10"; NaN; Str "Silent"; Str "SNP"]
           NaN).
  - vm_compute. reflexivity.
  - vm_compute. reflexivity.
  - vm_compute. reflexivity.
  - apply Forall_forall. by_compute.
  - reflexivity.
  - apply Forall_forall. by_compute.
  - simpl. lia.
  - reflexivity.
  - vm_compute. reflexivity.
  - intros s. discriminate.
Defined.

(** X20. Why the data cells fail.  A [FileNotFoundError] means that one of
    the three files is absent and an [IsADirectoryError] that one of the
    three paths is a directory; a [TypeError] means that a mutation line
    with a label has a sample barcode that is not a string; a [ValueError]
    means that a file fails its header check, or else that the merge with
    the clinical data was refused: there are patient barcodes, all of them
    strings, and clinical records, none of which has a string as its
    barcode.  The data cells raise no other exception. *)
Theorem merged_frame_errors (w : world) (e : exn) :
  merged_frame w = Raise e →
  match e with
  | FileNotFoundError =>
      ∃ p, p ∈ ["pancancer_mutations.maf.gz"; "labels.txt";
                "pancancer_clinical.txt"] ∧ fs w !! p = None
  | IsADirectoryError =>
      ∃ p, p ∈ ["pancancer_mutations.maf.gz"; "labels.txt";
                "pancancer_clinical.txt"] ∧ fs w !! p = Some Dir
  | ValueError =>
      (∃ mf, read_file w "pancancer_mutations.maf.gz" = Ok mf ∧
             ∃ c, c ∈ mutation_usecols ∧ c ∉ header mf) ∨
      (∃ lf, read_file w "labels.txt" = Ok lf ∧ length (header lf) ≠ 1) ∨
      (∃ cf, read_file w "pancancer_clinical.txt" = Ok cf ∧
             ∃ c, c ∈ clinical_usecols ∧ c ∉ header cf) ∨
      (∃ mf lf cf,
         read_file w "pancancer_mutations.maf.gz" = Ok mf ∧
         read_file w "labels.txt" = Ok lf ∧
         read_file w "pancancer_clinical.txt" = Ok cf ∧
         0 < min (length (records mf)) (length (records lf)) ∧
         records cf ≠ [] ∧
         ∀ rec s, rec ∈ records cf →
                  field_of cf "bcr_patient_barcode" rec ≠ Some (Str s))
  | TypeError =>
      ∃ mf lf i rec x,
        read_file w "pancancer_mutations.maf.gz" = Ok mf ∧
        read_file w "labels.txt" = Ok lf ∧
        i < min (length (records mf)) (length (records lf)) ∧
        records mf !! i = Some rec ∧
        field_of mf "Tumor_Sample_Barcode" rec = Some x ∧
        ∀ s, x ≠ Str s
  | URLError | KeyError | AttributeError => False
  end.
Proof.
  rewrite merged_frame_eq, !read_file_lookup.
  change (normpath "pancancer_mutations.maf.gz") with "pancancer_mutations.maf.gz".
  change (normpath "labels.txt") with "labels.txt".
  change (normpath "pancancer_clinical.txt") with "pancancer_clinical.txt".
  destruct (fs w !! "pancancer_mutations.maf.gz") as [[mf|]|] eqn:Hmf.
  2:{ intros [= <-]. exists "pancancer_mutations.maf.gz". split; [by_compute | done]. }
  2:{ intros [= <-]. exists "pancancer_mutations.maf.gz". split; [by_compute | done]. }
  rewrite bind_Ok. destruct (has_columns mutation_usecols mf) eqn:Hm.
  2:{ intros [= <-]. left. exists mf. split; [done | by apply has_columns_false]. }
  destruct (fs w !! "labels.txt") as [[lf|]|] eqn:Hlf.
  2:{ intros [= <-]. exists "labels.txt". split; [by_compute | done]. }
  2:{ intros [= <-]. exists "labels.txt". split; [by_compute | done]. }
  rewrite bind_Ok. destruct (decide (length (header lf) = 1)) as [Hone|Hone].
  2:{ intros [= <-]. right; left. by exists lf. }
  destruct (fs w !! "pancancer_clinical.txt") as [[cf|]|] eqn:Hcf.
  2:{ intros [= <-]. exists "pancancer_clinical.txt". split; [by_compute | done]. }
  2:{ intros [= <-]. exists "pancancer_clinical.txt". split; [by_compute | done]. }
  rewrite bind_Ok. destruct (has_columns clinical_usecols cf) eqn:Hc.
  2:{ intros [= <-]. right; right; left. exists cf.
      split; [done | by apply has_columns_false]. }
  destruct (forallb is_str (sample_barcodes mf lf)) eqn:Hstr.
  - destruct (mergeable (patient_barcodes mf lf) (clinical_barcodes cf)) eqn:Hdt;
      [done|].
    intros [= <-]. right; right; right. exists mf, lf, cf.
    pose proof (mergeable_barcodes mf lf cf Hm Hc Hstr) as Hiff.
    rewrite Hdt in Hiff. unfold paired in Hiff. split_and!; try done.
    + destruct (min (length (records mf)) (length (records lf))); [|lia].
      assert (false = true) by (apply Hiff; by left). done.
    + intros Hnil.
      assert (false = true) by (apply Hiff; by right; left). done.
    + intros rec s Hrec Hs.
      assert (false = true) by (apply Hiff; right; right; by exists rec, s).
      done.
  - intros [= <-].
    apply forallb_is_str_false in Hstr as (x & [i Hx]%list_elem_of_lookup & Hbad).
    apply sample_barcodes_lookup_iff in Hx as (rec & Hi & Hrec & Hx); [|done].
    by exists mf, lf, i, rec, x.
Qed.

Lemma merged_frame_errors_witness :
  merged_frame (disk maf3 labels3 clinical_numeric) = Raise ValueError ∧
  ((∃ mf, read_file (disk maf3 labels3 clinical_numeric)
            "pancancer_mutations.maf.gz" = Ok mf ∧
          ∃ c, c ∈ mutation_usecols ∧ c ∉ header mf) ∨
   (∃ lf, read_file (disk maf3 labels3 clinical_numeric) "labels.txt" = Ok lf ∧
          length (header lf) ≠ 1) ∨
   (∃ cf, read_file (disk maf3 labels3 clinical_numeric)
            "pancancer_clinical.txt" = Ok cf ∧
          ∃ c, c ∈ clinical_usecols ∧ c ∉ header cf) ∨
   (∃ mf lf cf,
      read_file (disk maf3 labels3 clinical_numeric)
        "pancancer_mutations.maf.gz" = Ok mf ∧
      read_file (disk maf3 labels3 clinical_numeric) "labels.txt" = Ok lf ∧
      read_file (disk maf3 labels3 clinical_numeric)
        "pancancer_clinical.txt" = Ok cf ∧
      0 < min (length (records mf)) (length (records lf)) ∧
      records cf ≠ [] ∧
      ∀ rec s, rec ∈ records cf →
               field_of cf "bcr_patient_barcode" rec ≠ Some (Str s))).
Proof.
  assert (merged_frame (disk maf3 labels3 clinical_numeric) = Raise ValueError)
    as H by (vm_compute; reflexivity).
  split; [exact H|].
  exact (merged_frame_errors (disk maf3 labels3 clinical_numeric) ValueError H).
Defined.

Lemma mutations_table_columns (mf : table_file) :
  has_columns mutation_usecols mf = true →
  (mutations_table mf).*1 ≡ₚ mutation_usecols.
Proof.
  intros Hall. pose proof (proj1 (has_columns_true _ _) Hall) as Hall'.
  apply NoDup_Permutation.
  - unfold mutations_table. rewrite select_columns_names.
    apply filter_mangle_NoDup, mutation_usecols_plain.
  - by_compute.
  - intros c. split; [apply mutations_table_names|]. intros Hc.
    apply lookup_column_is_Some. rewrite lookup_mutations_table.
    rewrite bool_decide_true by done.
    destruct (proj2 (index_of_is_Some c (header mf)) (Hall' c Hc)) as [j ->].
    by eexists.
Qed.

Lemma clinical_table_columns (cf : table_file) :
  has_columns clinical_usecols cf = true →
  (clinical_table cf).*1 ≡ₚ clinical_usecols.
Proof.
  intros Hall. pose proof (proj1 (has_columns_true _ _) Hall) as Hall'.
  apply NoDup_Permutation.
  - unfold clinical_table. rewrite select_columns_names.
    apply filter_mangle_NoDup, clinical_usecols_plain.
  - by_compute.
  - intros c. split; [apply clinical_table_names|]. intros Hc.
    apply lookup_column_is_Some. rewrite lookup_clinical_table.
    rewrite bool_decide_true by done.
    destruct (proj2 (index_of_is_Some c (header cf)) (Hall' c Hc)) as [j ->].
    by eexists.
Qed.

Lemma expected_merged_columns (mf lf cf : table_file) :
  columns (expected_merged mf lf cf) =
  filter (λ n, n ≠ "Tumor_Sample_Barcode") (mutations_table mf).*1 ++
  ["row"; "cancer_type"; "bcr_patient_barcode"] ++
  filter (λ n, n ≠ "bcr_patient_barcode") (clinical_table cf).*1.
Proof.
  unfold columns, expected_merged. simpl.
  rewrite fmap_app, !taken_names, !without_names, fmap_app, labelled_data_names.
  rewrite <- !app_assoc, !filter_app. simpl. by rewrite <- !app_assoc.
Qed.

(** Filtering keeps the order: of two names that a filter keeps, the one
    that comes first in the result has its first position in the list
    before the first position of the other. *)
Lemma filter_keeps_order (P : string → Prop) `{!∀ n, Decision (P n)}
    (l : list string) (i j : nat) (a b : string) :
  NoDup (filter P l) → i < j →
  filter P l !! i = Some a → filter P l !! j = Some b →
  ∃ ia ib, index_of a l = Some ia ∧ index_of b l = Some ib ∧ ia < ib.
Proof.
  revert i j. induction l as [|x l IH]; intros i j Hnd Hij Ha Hb; [done|].
  rewrite filter_cons in Hnd, Ha, Hb. simpl. destruct (decide (P x)) as [Hx|Hx].
  - apply NoDup_cons in Hnd as [Hnot Hnd].
    destruct j as [|j]; [lia|]. simpl in Hb.
    assert (x ≠ b) as Hxb.
    { intros ->. apply Hnot. by eapply list_elem_of_lookup_2. }
    rewrite (decide_False (P := x = b)) by done.
    destruct i as [|i]; simpl in Ha.
    + injection Ha as ->. rewrite decide_True by done.
      assert (b ∈ l) as [jb Hjb]%index_of_is_Some.
      { apply list_elem_of_lookup_2 in Hb. by apply list_elem_of_filter in Hb as [_ ?]. }
      exists 0, (S jb). rewrite Hjb. split_and!; [done | done | lia].
    + assert (x ≠ a) as Hxa.
      { intros ->. apply Hnot. by eapply list_elem_of_lookup_2. }
      rewrite decide_False by done.
      destruct (IH i j Hnd ltac:(lia) Ha Hb) as (ia & ib & -> & -> & Hlt).
      exists (S ia), (S ib). split_and!; [done | done | lia].
  - assert (x ≠ a) as Hxa.
    { intros ->. by apply list_elem_of_lookup_2, list_elem_of_filter in Ha as [? _]. }
    assert (x ≠ b) as Hxb.
    { intros ->. by apply list_elem_of_lookup_2, list_elem_of_filter in Hb as [? _]. }
    rewrite !decide_False by done.
    destruct (IH i j Hnd Hij Ha Hb) as (ia & ib & -> & -> & Hlt).
    exists (S ia), (S ib). split_and!; [done | done | lia].
Qed.

(** The columns that a loader keeps stand in the order of the header. *)
Lemma select_columns_order (f : table_file) (cols : list string)
    (i j : nat) (a b : string) :
  Forall (λ c, has_dot c = false) cols → i < j →
  (select_columns (λ n, bool_decide (n ∈ cols)) 0
     (mangle_dupe_cols [] (header f)) (records f)).*1 !! i = Some a →
  (select_columns (λ n, bool_decide (n ∈ cols)) 0
     (mangle_dupe_cols [] (header f)) (records f)).*1 !! j = Some b →
  ∃ ia ib, index_of a (header f) = Some ia ∧ index_of b (header f) = Some ib ∧
           ia < ib.
Proof.
  intros Hplain Hij. rewrite select_columns_names. intros Ha Hb.
  pose proof (filter_mangle_NoDup cols [] (header f) Hplain) as Hnd.
  destruct (filter_keeps_order _ _ i j a b Hnd Hij Ha Hb)
    as (ia & ib & Hia & Hib & Hlt).
  rewrite Forall_forall in Hplain.
  assert (a ∈ cols) as Hac.
  { apply list_elem_of_lookup_2, list_elem_of_filter in Ha as [Ha _].
    by apply bool_decide_unpack in Ha. }
  assert (b ∈ cols) as Hbc.
  { apply list_elem_of_lookup_2, list_elem_of_filter in Hb as [Hb _].
    by apply bool_decide_unpack in Hb. }
  rewrite index_of_mangle in Hia, Hib by auto using not_elem_of_nil.
  by exists ia, ib.
Qed.

Lemma filter_lookup_order (P : string → Prop) `{!∀ n, Decision (P n)}
    (l : list string) (i j : nat) (a b : string) :
  i < j → filter P l !! i = Some a → filter P l !! j = Some b →
  ∃ i' j', i' < j' ∧ l !! i' = Some a ∧ l !! j' = Some b.
Proof.
  revert i j. induction l as [|x l IH]; intros i j Hij Ha Hb; [done|].
  rewrite filter_cons in Ha, Hb. destruct (decide (P x)).
  - destruct j as [|j]; [lia|]. simpl in Hb. destruct i as [|i]; simpl in Ha.
    + injection Ha as ->.
      apply list_elem_of_lookup_2, list_elem_of_filter in Hb as [_ Hb].
      apply list_elem_of_lookup in Hb as [j' Hj'].
      exists 0, (S j'). split_and!; [lia | done | done].
    + destruct (IH i j ltac:(lia) Ha Hb) as (i' & j' & ? & ? & ?).
      exists (S i'), (S j'). split_and!; [lia | done | done].
  - destruct (IH i j Hij Ha Hb) as (i' & j' & ? & ? & ?).
    exists (S i'), (S j'). split_and!; [lia | done | done].
Qed.

(** X13. The columns of every merged table: the four mutation columns
    other than the sample barcode, in the order of the mutations file, then
    [row], [cancer_type] and [bcr_patient_barcode], then the eight clinical
    columns other than the barcode, in the order of the clinical file. No
    name occurs twice, and none carries a merge suffix.  (The order of a
    file is that of the first positions of the names in its header.) *)
Theorem merged_frame_columns (w : world) (merged : DataFrame) :
  merged_frame w = Ok merged →
  ∃ mf cf mcols ccols,
    read_file w "pancancer_mutations.maf.gz" = Ok mf ∧
    read_file w "pancancer_clinical.txt" = Ok cf ∧
    columns merged =
      mcols ++ ["row"; "cancer_type"; "bcr_patient_barcode"] ++ ccols ∧
    mcols ≡ₚ ["Hugo_Symbol"; "Variant_Classification"; "Variant_Type";
              "Chromosome"] ∧
    ccols ≡ₚ ["gender"; "vital_status"; "days_to_birth"; "days_to_death";
              "age_at_initial_pathologic_diagnosis"; "pathologic_stage";
              "height"; "weight"] ∧
    (∀ i j a b, i < j → mcols !! i = Some a → mcols !! j = Some b →
       ∃ ia ib, index_of a (header mf) = Some ia ∧
                index_of b (header mf) = Some ib ∧ ia < ib) ∧
    (∀ i j a b, i < j → ccols !! i = Some a → ccols !! j = Some b →
       ∃ ia ib, index_of a (header cf) = Some ia ∧
                index_of b (header cf) = Some ib ∧ ia < ib) ∧
    NoDup (columns merged).
Proof.
  intros (mf & lf & cf & Hmf & _ & Hcf & Hm & _ & Hc & _ & _ & ->)%merged_frame_inv.
  rewrite expected_merged_columns.
  assert (filter (λ n, n ≠ "Tumor_Sample_Barcode") (mutations_table mf).*1 ≡ₚ
          ["Hugo_Symbol"; "Variant_Classification"; "Variant_Type"; "Chromosome"])
    as Hmcols by (by rewrite (mutations_table_columns mf Hm)).
  assert (filter (λ n, n ≠ "bcr_patient_barcode") (clinical_table cf).*1 ≡ₚ
          ["gender"; "vital_status"; "days_to_birth"; "days_to_death";
           "age_at_initial_pathologic_diagnosis"; "pathologic_stage";
           "height"; "weight"])
    as Hccols by (by rewrite (clinical_table_columns cf Hc)).
  exists mf, cf. eexists _, _. split_and!; [done | done | done | done | done | | |].
  - intros i j a b Hij Ha Hb.
    destruct (filter_lookup_order _ _ i j a b Hij Ha Hb) as (i' & j' & Hlt & Ha' & Hb').
    by apply (select_columns_order mf mutation_usecols i' j' a b
                mutation_usecols_plain).
  - intros i j a b Hij Ha Hb.
    destruct (filter_lookup_order _ _ i j a b Hij Ha Hb) as (i' & j' & Hlt & Ha' & Hb').
    by apply (select_columns_order cf clinical_usecols i' j' a b
                clinical_usecols_plain).
  - rewrite Hmcols, Hccols. by_compute.
Qed.

Lemma merged_frame_columns_witness :
  ∃ merged, merged_frame (disk maf3 labels3 clinical2) = Ok merged ∧
  ∃ mf cf mcols ccols,
    read_file (disk maf3 labels3 clinical2) "pancancer_mutations.maf.gz" = Ok mf ∧
    read_file (disk maf3 labels3 clinical2) "pancancer_clinical.txt" = Ok cf ∧
    columns merged =
      mcols ++ ["row"; "cancer_type"; "bcr_patient_barcode"] ++ ccols ∧
    mcols ≡ₚ ["Hugo_Symbol"; "Variant_Classification"; "Variant_Type";
              "Chromosome"] ∧
    ccols ≡ₚ ["gender"; "vital_status"; "days_to_birth"; "days_to_death";
              "age_at_initial_pathologic_diagnosis"; "pathologic_stage";
              "height"; "weight"] ∧
    (∀ i j a b, i < j → mcols !! i = Some a → mcols !! j = Some b →
       ∃ ia ib, index_of a (header mf) = Some ia ∧
                index_of b (header mf) = Some ib ∧ ia < ib) ∧
    (∀ i j a b, i < j → ccols !! i = Some a → ccols !! j = Some b →
       ∃ ia ib, index_of a (header cf) = Some ia ∧
                index_of b (header cf) = Some ib ∧ ia < ib) ∧
    NoDup (columns merged).
Proof.
  eexists. split; [vm_compute; reflexivity|].
  apply (merged_frame_columns (disk maf3 labels3 clinical2)).
  vm_compute. reflexivity.
Defined.

Lemma patient_barcodes_lookup (mf lf : table_file) (i : nat) (k : cell) :
  forallb is_str (sample_barcodes mf lf) = true →
  patient_barcodes mf lf !! i = Some k →
  ∃ s, sample_barcodes mf lf !! i = Some (Str s) ∧ k = Str (substring 0 12 s).
Proof.
  intros Hstr%forallb_is_str. unfold patient_barcodes.
  rewrite list_lookup_fmap. destruct (sample_barcodes mf lf !! i) as [x|] eqn:Hx;
    [|done].
  rewrite Forall_lookup in Hstr. destruct (Hstr i x Hx) as [s ->].
  intros [= <-]. by exists s.
Qed.

Lemma lookup_expected_barcode (mf lf cf : table_file) :
  lookup_column "bcr_patient_barcode" (data (expected_merged mf lf cf)) =
  Some (take_rows
          (inner_join_indexers (patient_barcodes mf lf) (clinical_barcodes cf)).*1
          (patient_barcodes mf lf)).
Proof.
  unfold expected_merged. simpl.
  rewrite lookup_column_app, lookup_column_taken. unfold without.
  rewrite lookup_column_filter_ne, lookup_column_app, lookup_labelled_data.
  rewrite bool_decide_false by by_compute.
  rewrite !decide_False by done. simpl. by rewrite ?decide_True.
Qed.

Lemma count_no_missing (v : list cell) :
  Forall (λ x, x ≠ NaN) v → count v = length v.
Proof.
  unfold count. induction 1 as [|x v Hx _ IH]; [done|].
  rewrite filter_cons_True by done. simpl. by rewrite IH.
Qed.

(** X14. The number printed as the merged mutations count is the number of
    rows of the merged table: [count()] leaves out missing values, and the
    patient barcode of a merged row is never missing. *)
Theorem merged_count_is_row_count (w : world) (merged : DataFrame) :
  merged_frame w = Ok merged →
  merged_count merged = Ok (nrows merged).
Proof.
  intros (mf & lf & cf & _ & _ & _ & _ & _ & _ & Hstr & _ & ->)%merged_frame_inv.
  unfold merged_count, getattr. rewrite lookup_expected_barcode, bind_Ok.
  f_equal. rewrite count_no_missing.
  - by rewrite length_take_rows, length_fmap.
  - apply Forall_forall. unfold take_rows.
    intros x (i & -> & ([i' j] & [= <-] & Hij)%list_elem_of_fmap)%list_elem_of_fmap.
    simpl in *.
    apply inner_join_indexers_elem in Hij as (k & Hk & _).
    rewrite (at_pos_lookup _ _ _ Hk).
    by destruct (patient_barcodes_lookup _ _ _ _ Hstr Hk) as (s & _ & ->).
Qed.

Lemma merged_count_is_row_count_witness :
  ∃ merged, merged_frame (disk maf_one_patient labels3 clinical_dup) = Ok merged ∧
            merged_count merged = Ok (nrows merged).
Proof.
  eexists. split; [vm_compute; reflexivity|].
  apply (merged_count_is_row_count (disk maf_one_patient labels3 clinical_dup)).
  vm_compute. reflexivity.
Defined.

Lemma lookup_expected_clinical (mf lf cf : table_file) (c : string) :
  c ∈ clinical_usecols → c ≠ "bcr_patient_barcode" →
  lookup_column c (data (expected_merged mf lf cf)) =
  take_rows
    (inner_join_indexers (patient_barcodes mf lf) (clinical_barcodes cf)).*2 <$>
  lookup_column c (clinical_table cf).
Proof.
  intros Hc Hne. unfold expected_merged. simpl.
  rewrite lookup_column_app, !lookup_column_taken. unfold without.
  rewrite !lookup_column_filter_ne, lookup_column_app, lookup_labelled_data.
  assert ((c ∉ mutation_usecols) ∧ c ≠ "row" ∧ c ≠ "cancer_type" ∧
          c ≠ "Tumor_Sample_Barcode") as (? & ? & ? & ?).
  { assert (Forall (λ c, (c ∉ mutation_usecols) ∧ c ≠ "row" ∧ c ≠ "cancer_type" ∧
                         c ≠ "Tumor_Sample_Barcode") clinical_usecols)
      as H by by_compute.
    rewrite Forall_forall in H. by apply H. }
  rewrite bool_decide_false by done. rewrite !decide_False by done. simpl.
  by rewrite decide_False by done.
Qed.

(** X15. Every merged row carries the clinical record it was joined with:
    a line of the clinical file whose barcode is the row's patient barcode,
    a string, and whose eight other fields are in the row unchanged. So a
    clinical record without a barcode is in no merged row. *)
Theorem merged_row_clinical_fields (w : world) (merged : DataFrame) :
  merged_frame w = Ok merged →
  ∃ cf, read_file w "pancancer_clinical.txt" = Ok cf ∧
    ∀ n, n < nrows merged →
      ∃ j crec p,
        records cf !! j = Some crec ∧
        field_of cf "bcr_patient_barcode" crec = Some (Str p) ∧
        cell_of merged "bcr_patient_barcode" n = Some (Str p) ∧
        ∀ c, c ∈ ["gender"; "vital_status"; "days_to_birth"; "days_to_death";
                  "age_at_initial_pathologic_diagnosis"; "pathologic_stage";
                  "height"; "weight"] →
          ∃ x, field_of cf c crec = Some x ∧ cell_of merged c n = Some x.
Proof.
  intros (mf & lf & cf & _ & _ & Hcf & _ & _ & Hc & Hstr & _ & ->)%merged_frame_inv.
  exists cf. split; [done|]. intros n Hn. simpl in Hn.
  set (idx := inner_join_indexers (patient_barcodes mf lf) (clinical_barcodes cf))
    in *.
  apply lookup_lt_is_Some in Hn as [[i j] Hidx].
  assert ((i, j) ∈ idx) as (k & Hki & Hkj)%inner_join_indexers_elem
    by (by eapply list_elem_of_lookup_2).
  destruct (patient_barcodes_lookup _ _ _ _ Hstr Hki) as (s & _ & ->).
  pose proof (proj1 (has_columns_true _ _) Hc) as Hall.
  assert (∀ c, c ∈ clinical_usecols →
            ∃ jc, index_of c (header cf) = Some jc ∧
                  lookup_column c (clinical_table cf) =
                    Some (field_column jc (records cf))) as Hcol.
  { intros c Hin. rewrite lookup_clinical_table, bool_decide_true by done.
    destruct (proj2 (index_of_is_Some c (header cf)) (Hall c Hin)) as [jc ->].
    by exists jc. }
  destruct (Hcol "bcr_patient_barcode") as (jb & Hjb & Hrk); [by_compute|].
  unfold clinical_barcodes in Hkj. rewrite Hrk in Hkj. simpl in Hkj.
  unfold field_column in Hkj. rewrite list_lookup_fmap in Hkj.
  destruct (records cf !! j) as [crec|] eqn:Hcrec; [|done].
  injection Hkj as Hkj.
  exists j, crec, (substring 0 12 s). split_and!.
  - done.
  - unfold field_of. rewrite Hjb. simpl. by rewrite Hkj.
  - unfold cell_of. rewrite lookup_expected_barcode. simpl. fold idx.
    rewrite (take_rows_lookup _ _ _ i) by (by rewrite list_lookup_fmap, Hidx).
    f_equal. by apply at_pos_lookup.
  - intros c Hin.
    assert (c ∈ clinical_usecols ∧ c ≠ "bcr_patient_barcode") as [Hu Hne].
    { assert (Forall (λ c, c ∈ clinical_usecols ∧ c ≠ "bcr_patient_barcode")
                ["gender"; "vital_status"; "days_to_birth"; "days_to_death";
                 "age_at_initial_pathologic_diagnosis"; "pathologic_stage";
                 "height"; "weight"]) as H by by_compute.
      rewrite Forall_forall in H. by apply H. }
    destruct (Hcol c Hu) as (jc & Hjc & Hv).
    exists (at_pos crec jc). unfold field_of, cell_of.
    rewrite Hjc, lookup_expected_clinical, Hv by done. simpl. fold idx.
    split; [done|].
    rewrite (take_rows_lookup _ _ _ j) by (by rewrite list_lookup_fmap, Hidx).
    f_equal. by apply at_pos_lookup, field_column_lookup.
Qed.

Lemma merged_row_clinical_fields_witness :
  ∃ merged, merged_frame (disk maf3 labels3 clinical2) = Ok merged ∧
  ∃ cf, read_file (disk maf3 labels3 clinical2) "pancancer_clinical.txt" = Ok cf ∧
    ∀ n, n < nrows merged →
      ∃ j crec p,
        records cf !! j = Some crec ∧
        field_of cf "bcr_patient_barcode" crec = Some (Str p) ∧
        cell_of merged "bcr_patient_barcode" n = Some (Str p) ∧
        ∀ c, c ∈ ["gender"; "vital_status"; "days_to_birth"; "days_to_death";
                  "age_at_initial_pathologic_diagnosis"; "pathologic_stage";
                  "height"; "weight"] →
          ∃ x, field_of cf c crec = Some x ∧ cell_of merged c n = Some x.
Proof.
  eexists. split; [vm_compute; reflexivity|].
  apply (merged_row_clinical_fields (disk maf3 labels3 clinical2)).
  vm_compute. reflexivity.
Defined.

Lemma unique_elem (x : cell) (v : list cell) : x ∈ unique v ↔ x ∈ v.
Proof.
  induction v as [|y v IH]; simpl; [done|].
  rewrite !elem_of_cons, list_elem_of_filter, IH.
  destruct (decide (x = y)) as [->|Hne]; [split; intros _; by left|].
  split; [intros [?|[_ ?]]; [by left | by right] | intros [?|?]; [by left | by right]].
Qed.

Lemma unique_NoDup (v : list cell) : NoDup (unique v).
Proof.
  induction v as [|y v IH]; simpl; [constructor|].
  constructor; [by intros [? _]%list_elem_of_filter | by apply NoDup_filter].
Qed.

Lemma tally_Ok (clinical : DataFrame) (rk genes : list cell) (n : nat) :
  lookup_column "bcr_patient_barcode" (data clinical) = Some rk →
  tally clinical genes n =
  Ok (n + length (filter (λ b, b ∉ rk) genes)).
Proof.
  intros Hrk. revert n. induction genes as [|b genes IH]; intros n; simpl.
  - f_equal. lia.
  - unfold getattr. rewrite Hrk, bind_Ok, IH, filter_cons. f_equal.
    case_bool_decide as Hin; rewrite unique_elem in Hin.
    + rewrite decide_False by (by intros ?). done.
    + rewrite decide_True by done. simpl. lia.
Qed.

Lemma occurrences_pos (k : cell) (ks : list cell) :
  k ∈ ks → 1 ≤ occurrences k ks.
Proof.
  unfold occurrences. induction ks as [|x ks IH]; [by intros ?%elem_of_nil|].
  rewrite filter_cons. destruct (decide (x = k)) as [->|Hne]; simpl; [lia|].
  intros [?|?]%elem_of_cons; [congruence | auto].
Qed.

Lemma occurrences_NoDup (k : cell) (ks : list cell) :
  NoDup ks → occurrences k ks = if decide (k ∈ ks) then 1 else 0.
Proof.
  intros Hnd. destruct (decide (k ∈ ks)) as [Hin|Hout];
    [|by apply occurrences_not_elem].
  unfold occurrences. induction Hnd as [|x ks Hx Hnd IH]; [by apply elem_of_nil in Hin|].
  rewrite filter_cons. destruct (decide (x = k)) as [->|Hne]; simpl.
  - fold (occurrences k ks). by rewrite occurrences_not_elem.
  - apply IH. apply elem_of_cons in Hin as [?|?]; [congruence | done].
Qed.

Lemma merge_clinical_row_count (mutations clinical out : DataFrame) :
  merge_clinical mutations clinical = Ok out →
  ∃ lk rk,
    lookup_column "bcr_patient_barcode" (data mutations) = Some lk ∧
    lookup_column "bcr_patient_barcode" (data clinical) = Some rk ∧
    nrows out = sum_list (map (λ k, occurrences k rk) lk).
Proof.
  intros (lk & rk & Hlk & Hrk & Hn & _)%merge_inv. exists lk, rk.
  split_and!; try done. rewrite Hn. apply join_from_length.
Qed.

(** X16. On mutations whose patient barcodes are strings, as the
    derivation cell leaves them, the tally cell counts the distinct patient
    barcodes that no clinical record has, in whatever order the set is
    visited. It prints 0 exactly when every mutation has a clinical record,
    and then the key join keeps at least one row for every mutation row. *)
Theorem count_missing_meaning (mutations clinical : DataFrame)
    (lk rk : list cell) :
  getitem mutations "bcr_patient_barcode" = Ok lk →
  getitem clinical "bcr_patient_barcode" = Ok rk →
  forallb is_str lk = true →
  ∃ n,
    count_missing mutations clinical = Ok n ∧
    n = length (filter (λ b, b ∉ rk) (unique lk)) ∧
    (∀ visited, visited ≡ₚ unique lk → tally clinical visited 0 = Ok n) ∧
    (n = 0 ↔ ∀ k, k ∈ lk → k ∈ rk) ∧
    (n = 0 → wf mutations →
     ∀ out, merge_clinical mutations clinical = Ok out →
       nrows mutations ≤ nrows out).
Proof.
  unfold getitem.
  destruct (lookup_column _ (data mutations)) as [lk'|] eqn:Hlk; [|done].
  destruct (lookup_column _ (data clinical)) as [rk'|] eqn:Hrk; [|done].
  intros [= ->] [= ->] _.
  exists (length (filter (λ b, b ∉ rk) (unique lk))).
  assert (length (filter (λ b, b ∉ rk) (unique lk)) = 0 ↔ ∀ k, k ∈ lk → k ∈ rk)
    as Hzero.
  { rewrite length_zero_iff_nil. split.
    - intros Hnil k Hk. destruct (decide (k ∈ rk)) as [|Hout]; [done|].
      assert (k ∈ filter (λ b, b ∉ rk) (unique lk)) as Hin
        by (by apply list_elem_of_filter; split; [|apply unique_elem]).
      rewrite Hnil in Hin. by apply elem_of_nil in Hin.
    - intros Hall.
      assert (∀ l, (∀ x, x ∈ l → x ∈ lk) → filter (λ b, b ∉ rk) l = []) as Hgen.
      { induction l as [|x l IH]; [done|]. intros Hsub.
        rewrite filter_cons_False; [apply IH; intros; apply Hsub; by right|].
        intros Hout. apply Hout, Hall, Hsub. left. }
      apply Hgen. intros x Hx. by apply unique_elem. }
  split_and!.
  - unfold count_missing, getattr. rewrite Hlk, bind_Ok.
    by rewrite (tally_Ok _ rk).
  - done.
  - intros visited Hperm. rewrite (tally_Ok _ rk) by done. simpl.
    by rewrite Hperm.
  - done.
  - intros Hn Hwf out Hout.
    destruct (merge_clinical_row_count _ _ _ Hout) as (lk' & rk' & ? & ? & ->).
    simplify_eq. rewrite <- (wf_lookup_length _ _ _ Hwf Hlk).
    pose proof (proj1 Hzero Hn) as Hall. clear -Hall.
    induction lk as [|k lk IH]; simpl; [lia|].
    pose proof (occurrences_pos k rk (Hall k ltac:(left))).
    assert (length lk ≤ sum_list (map (λ k, occurrences k rk) lk))
      by (apply IH; intros; apply Hall; by right).
    lia.
Qed.

Lemma count_missing_meaning_witness :
  ∃ lk rk n,
    getitem one_patient_mutations "bcr_patient_barcode" = Ok lk ∧
    getitem dup_clinical "bcr_patient_barcode" = Ok rk ∧
    count_missing one_patient_mutations dup_clinical = Ok n ∧
    n = length (filter (λ b, b ∉ rk) (unique lk)) ∧
    (∀ visited, visited ≡ₚ unique lk →
       tally dup_clinical visited 0 = Ok n) ∧
    (n = 0 ↔ ∀ k, k ∈ lk → k ∈ rk) ∧
    (n = 0 → wf one_patient_mutations →
     ∀ out, merge_clinical one_patient_mutations dup_clinical = Ok out →
       nrows one_patient_mutations ≤ nrows out).
Proof.
  eexists _, _.
  destruct (count_missing_meaning one_patient_mutations dup_clinical _ _
              eq_refl eq_refl eq_refl) as (n & H).
  exists n. split; [reflexivity|]. split; [reflexivity | exact H].
Defined.

(** X17. The number of merged rows is the sum, over the mutation rows, of
    the number of clinical records with the row's barcode; when no barcode
    repeats in the clinical table it is the number of mutation rows whose
    barcode has a clinical record. *)
Theorem merged_row_count_exact (mutations clinical out : DataFrame) :
  merge_clinical mutations clinical = Ok out →
  ∃ lk rk,
    getitem mutations "bcr_patient_barcode" = Ok lk ∧
    getitem clinical "bcr_patient_barcode" = Ok rk ∧
    nrows out = sum_list (map (λ k, occurrences k rk) lk) ∧
    (NoDup rk → nrows out = length (filter (λ k, k ∈ rk) lk)).
Proof.
  intros (lk & rk & Hlk & Hrk & Hn)%merge_clinical_row_count.
  exists lk, rk. unfold getitem. rewrite Hlk, Hrk. split_and!; try done.
  intros Hnd. rewrite Hn. clear -Hnd.
  induction lk as [|k lk IH]; [done|].
  simpl. rewrite filter_cons, IH, occurrences_NoDup by done.
  by destruct (decide (k ∈ rk)).
Qed.

Lemma merged_row_count_exact_witness :
  ∃ out, merge_clinical one_patient_mutations dup_clinical = Ok out ∧
  ∃ lk rk,
    getitem one_patient_mutations "bcr_patient_barcode" = Ok lk ∧
    getitem dup_clinical "bcr_patient_barcode" = Ok rk ∧
    nrows out = sum_list (map (λ k, occurrences k rk) lk) ∧
    (NoDup rk → nrows out = length (filter (λ k, k ∈ rk) lk)).
Proof.
  eexists. split; [vm_compute; reflexivity|].
  apply (merged_row_count_exact one_patient_mutations dup_clinical).
  vm_compute. reflexivity.
Defined.

(** X18. The tally cell stands in the notebook before the derivation cell.
    Run there, after the clinical data is loaded, it raises
    [AttributeError], because the mutations have no [bcr_patient_barcode]
    column yet; run after the derivation cell it returns a count. *)
Theorem tally_needs_derivation (w : world) (m0 m1 l1 j1 cl : DataFrame) :
  load_mutations w = Ok m0 →
  set_row m0 = Ok m1 →
  load_labels w = Ok l1 →
  merge_labels m1 l1 = Ok j1 →
  load_clinical w = Ok cl →
  count_missing m0 cl = Raise AttributeError ∧
  count_missing j1 cl = Raise AttributeError ∧
  ∀ d1, derive_patient_barcode j1 = Ok d1 →
    ∃ n, count_missing d1 cl = Ok n.
Proof.
  unfold load_mutations, load_labels, load_clinical.
  intros (mf & _ & Hm0)%bind_Ok_inv Hm1 (lf & _ & Hlab)%bind_Ok_inv Hj1
         (cf & _ & Hcl)%bind_Ok_inv.
  apply bind_Ok_inv in Hlab as (l0' & Hl0' & Hlab).
  apply bind_Ok_inv in Hlab as (l0 & Hl0 & Hl1).
  destruct (labelled_mutations_lookup _ _ _ _ _ _ _ _ Hm0 Hm1 Hl0' Hl0 Hl1 Hj1)
    as [_ Lj1].
  split_and!.
  - unfold count_missing, getattr.
    rewrite (read_csv_usecols_lookup mf _ mutation_usecols_plain m0 _ Hm0).
    by rewrite bool_decide_false by by_compute.
  - unfold count_missing, getattr. rewrite Lj1, decide_False by done.
    rewrite bool_decide_false by by_compute. by rewrite decide_False.
  - intros d1 Hd. unfold derive_patient_barcode in Hd.
    apply bind_Ok_inv in Hd as (samples & _ & Hd).
    apply bind_Ok_inv in Hd as (patients & _ & Hd).
    apply bind_Ok_inv in Hd as (d0 & Hd0 & Hd1).
    apply setitem_inv in Hd0 as (_ & _ & Ld0).
    apply drop_inv in Hd1 as (_ & Ld1).
    assert (∃ rk, lookup_column "bcr_patient_barcode" (data cl) = Some rk)
      as [rk Hrk].
    { apply lookup_column_is_Some.
      apply (read_csv_usecols_columns cf _ clinical_usecols_plain cl _ Hcl).
      by_compute. }
    eexists. unfold count_missing, getattr.
    rewrite Ld1, decide_False, Ld0, decide_True by done.
    by rewrite bind_Ok, (tally_Ok _ rk).
Qed.

Lemma tally_needs_derivation_witness :
  ∃ m0 m1 l1 j1 cl,
    load_mutations (disk maf3 labels3 clinical2) = Ok m0 ∧
    set_row m0 = Ok m1 ∧
    load_labels (disk maf3 labels3 clinical2) = Ok l1 ∧
    merge_labels m1 l1 = Ok j1 ∧
    load_clinical (disk maf3 labels3 clinical2) = Ok cl ∧
    count_missing m0 cl = Raise AttributeError ∧
    count_missing j1 cl = Raise AttributeError ∧
    ∀ d1, derive_patient_barcode j1 = Ok d1 →
      ∃ n, count_missing d1 cl = Ok n.
Proof.
  eexists _, _, _, _, _.
  split; [vm_compute; reflexivity|].
  split; [vm_compute; reflexivity|].
  split; [vm_compute; reflexivity|].
  split; [vm_compute; reflexivity|].
  split; [vm_compute; reflexivity|].
  eapply (tally_needs_derivation (disk maf3 labels3 clinical2));
    vm_compute; reflexivity.
Defined.

End further.
